(** * DigOS / CrimOS phase 1: process table, scheduler and system calls

    A shallow embedding of [kproc.c], [scheduler.c] and [ksyscall.c], and
    of the bit utilities of [bit.c], the scan-code decoder of
    [keyboard.c] and the text output of [vga.c].
    Kernel globals become the fields of one record, [kernel], that every
    function receives and returns.  [kernel_panic] halts the machine: it is
    the [Panic] outcome of the [result] monad.  Pointers into [proc_table]
    are slot indices, [None] being the null pointer. *)

From Stdlib Require Import ZArith Lia String.
From stdpp Require Import base tactics option list.

Local Open Scope Z_scope.

(** ** Outcomes *)

(** A kernel function returns normally ([Ok]), halts the kernel through
    [kernel_panic] ([Panic], with the message), or leaves the behaviour C
    defines ([Stuck]: a dereference outside [proc_table], or a loop that ran
    out of the iterations granted to it). *)
Inductive result (A : Type) : Type :=
| Ok (a : A)
| Panic (msg : string)
| Stuck.
Arguments Ok {A} a.
Arguments Panic {A} msg.
Arguments Stuck {A}.

Definition bind {A B : Type} (m : result A) (f : A -> result B) : result B :=
  match m with
  | Ok a => f a
  | Panic msg => Panic msg
  | Stuck => Stuck
  end.

Notation "'do' x <- m ; k" := (bind m (fun x => k))
  (at level 10, x name, m at level 100, k at level 200,
   format "'[v' 'do'  x  <-  m ; '/' k ']'").

Definition kernel_panic {A : Type} (msg : string) : result A := Panic msg.

(** ** Machine integers *)

(** [int]: 32 bits, two's complement. *)
Definition int_wrap (z : Z) : Z := (z + 2 ^ 31) mod 2 ^ 32 - 2 ^ 31.

(** [unsigned int]: 32 bits. *)
Definition uint_wrap (z : Z) : Z := z mod 2 ^ 32.

(** ** Data model *)

(** [state_t].  [kproc.h] is not part of the sources; [NONE] is the
    enumeration's zero, the state of a slot cleared by [memset]. *)
Inductive proc_state : Type := NONE | IDLE | ACTIVE | SLEEPING.

Global Instance proc_state_eq_dec : EqDecision proc_state.
Proof. solve_decision. Defined.

(** The two scheduling queues a PCB's [scheduler_queue] may point to. *)
Inductive queue_id : Type := RUN_QUEUE | SLEEP_QUEUE.

Global Instance queue_id_eq_dec : EqDecision queue_id.
Proof. solve_decision. Defined.

(** [trapframe_t]: the registers the kernel reads and writes. *)
Record trapframe_t : Type := mkTrapframe {
  eax : Z;
  ebx : Z;
  eip : Z;
  esp : Z;
  eflags : Z;
  cs : Z;
  ds : Z;
  es : Z;
  fs : Z;
  gs : Z
}.

Definition trapframe_zero : trapframe_t := mkTrapframe 0 0 0 0 0 0 0 0 0 0.

Definition set_eax (v : Z) (tf : trapframe_t) : trapframe_t :=
  mkTrapframe v (ebx tf) (eip tf) (esp tf) (eflags tf)
              (cs tf) (ds tf) (es tf) (fs tf) (gs tf).

Definition set_ebx (v : Z) (tf : trapframe_t) : trapframe_t :=
  mkTrapframe (eax tf) v (eip tf) (esp tf) (eflags tf)
              (cs tf) (ds tf) (es tf) (fs tf) (gs tf).

(** [proc_t].  [stack] is a byte offset into the [proc_stack] array,
    [trapframe] the slot whose frame it points to, [scheduler_queue] the
    queue back-reference; [None] is the null pointer in all three.  [io]
    holds the ring-buffer handles. *)
Record proc_t : Type := mkProc {
  pid : Z;
  state : proc_state;
  type : Z;
  name : list Z;
  start_time : Z;
  run_time : Z;
  cpu_time : Z;
  sleep_time : Z;
  stack : option Z;
  trapframe : option nat;
  scheduler_queue : option queue_id;
  io : list (option nat)
}.

Definition set_pid (v : Z) (p : proc_t) : proc_t :=
  mkProc v (state p) (type p) (name p) (start_time p) (run_time p)
         (cpu_time p) (sleep_time p) (stack p) (trapframe p)
         (scheduler_queue p) (io p).

Definition set_state (v : proc_state) (p : proc_t) : proc_t :=
  mkProc (pid p) v (type p) (name p) (start_time p) (run_time p)
         (cpu_time p) (sleep_time p) (stack p) (trapframe p)
         (scheduler_queue p) (io p).

Definition set_run_time (v : Z) (p : proc_t) : proc_t :=
  mkProc (pid p) (state p) (type p) (name p) (start_time p) v
         (cpu_time p) (sleep_time p) (stack p) (trapframe p)
         (scheduler_queue p) (io p).

Definition set_cpu_time (v : Z) (p : proc_t) : proc_t :=
  mkProc (pid p) (state p) (type p) (name p) (start_time p) (run_time p)
         v (sleep_time p) (stack p) (trapframe p)
         (scheduler_queue p) (io p).

Definition set_sleep_time (v : Z) (p : proc_t) : proc_t :=
  mkProc (pid p) (state p) (type p) (name p) (start_time p) (run_time p)
         (cpu_time p) v (stack p) (trapframe p)
         (scheduler_queue p) (io p).

Definition set_scheduler_queue (v : option queue_id) (p : proc_t) : proc_t :=
  mkProc (pid p) (state p) (type p) (name p) (start_time p) (run_time p)
         (cpu_time p) (sleep_time p) (stack p) (trapframe p)
         v (io p).

(** ** The queue utility *)

(** Modelled from the spec: [queue.c] and [queue.h] are not part of the
    sources.  Section 4.2 describes a bounded FIFO of integers that keeps
    insertion order, with [enqueue(v) -> Ok | Full] and
    [dequeue() -> v | Empty]; [items] lists the contents from head to
    tail and the struct's [size] field is their number. *)
Record queue_t : Type := mkQueue { items : list Z }.

Definition queue_size (q : queue_t) : Z := Z.of_nat (length (items q)).

Definition queue_init : queue_t := mkQueue [].

Definition queue_is_empty (q : queue_t) : bool :=
  match items q with
  | [] => true
  | _ :: _ => false
  end.

(** [queue_out]: [None] is the non-zero return code (nothing to dequeue). *)
Definition queue_out (q : queue_t) : option (Z * queue_t) :=
  match items q with
  | [] => None
  | v :: rest => Some (v, mkQueue rest)
  end.

(** [queue_in] for a queue of capacity [cap]: [None] is the non-zero return
    code (queue full, nothing stored). *)
Definition queue_in_cap (cap : Z) (q : queue_t) (v : Z) : option queue_t :=
  if queue_size q <? cap then Some (mkQueue (items q ++ [v])) else None.

(** ** Kernel state *)

(** The globals of the three translation units, the tick counter of the
    timer ([timer_get_ticks]), and the memory outside the kernel's tables
    that the system calls write through caller-supplied pointers.
    [proc_table] has [PROC_MAX] entries and [proc_trapframe] one frame per
    slot; [proc_stack] is the array of the stacks, byte after byte. *)
Record kernel : Type := mkKernel {
  proc_table : list proc_t;
  proc_trapframe : list trapframe_t;
  proc_stack : list Z;
  proc_allocator : queue_t;
  next_pid : Z;
  run_queue : queue_t;
  sleep_queue : queue_t;
  active_proc : option nat;
  ticks : Z;
  memory : Z -> Z
}.

Definition set_proc_table (v : list proc_t) (k : kernel) : kernel :=
  mkKernel v (proc_trapframe k) (proc_stack k) (proc_allocator k)
           (next_pid k) (run_queue k) (sleep_queue k) (active_proc k)
           (ticks k) (memory k).

Definition set_proc_trapframe (v : list trapframe_t) (k : kernel) : kernel :=
  mkKernel (proc_table k) v (proc_stack k) (proc_allocator k)
           (next_pid k) (run_queue k) (sleep_queue k) (active_proc k)
           (ticks k) (memory k).

Definition set_proc_stack (v : list Z) (k : kernel) : kernel :=
  mkKernel (proc_table k) (proc_trapframe k) v (proc_allocator k)
           (next_pid k) (run_queue k) (sleep_queue k) (active_proc k)
           (ticks k) (memory k).

Definition set_proc_allocator (v : queue_t) (k : kernel) : kernel :=
  mkKernel (proc_table k) (proc_trapframe k) (proc_stack k) v
           (next_pid k) (run_queue k) (sleep_queue k) (active_proc k)
           (ticks k) (memory k).

Definition set_next_pid (v : Z) (k : kernel) : kernel :=
  mkKernel (proc_table k) (proc_trapframe k) (proc_stack k)
           (proc_allocator k) v (run_queue k) (sleep_queue k)
           (active_proc k) (ticks k) (memory k).

Definition set_run_queue (v : queue_t) (k : kernel) : kernel :=
  mkKernel (proc_table k) (proc_trapframe k) (proc_stack k)
           (proc_allocator k) (next_pid k) v (sleep_queue k)
           (active_proc k) (ticks k) (memory k).

Definition set_sleep_queue (v : queue_t) (k : kernel) : kernel :=
  mkKernel (proc_table k) (proc_trapframe k) (proc_stack k)
           (proc_allocator k) (next_pid k) (run_queue k) v
           (active_proc k) (ticks k) (memory k).

Definition set_active_proc (v : option nat) (k : kernel) : kernel :=
  mkKernel (proc_table k) (proc_trapframe k) (proc_stack k)
           (proc_allocator k) (next_pid k) (run_queue k) (sleep_queue k)
           v (ticks k) (memory k).

Definition set_ticks (v : Z) (k : kernel) : kernel :=
  mkKernel (proc_table k) (proc_trapframe k) (proc_stack k)
           (proc_allocator k) (next_pid k) (run_queue k) (sleep_queue k)
           (active_proc k) v (memory k).

Definition set_memory (v : Z -> Z) (k : kernel) : kernel :=
  mkKernel (proc_table k) (proc_trapframe k) (proc_stack k)
           (proc_allocator k) (next_pid k) (run_queue k) (sleep_queue k)
           (active_proc k) (ticks k) v.

(** [*proc] for a pointer into [proc_table]. *)
Definition load (proc : nat) (k : kernel) : result proc_t :=
  match proc_table k !! proc with
  | Some p => Ok p
  | None => Stuck
  end.

(** [*proc = p]. *)
Definition store (proc : nat) (p : proc_t) (k : kernel) : kernel :=
  set_proc_table (<[proc := p]> (proc_table k)) k.

(** The queue a back-reference points to, and the assignment through it. *)
Definition get_queue (qid : queue_id) (k : kernel) : queue_t :=
  match qid with
  | RUN_QUEUE => run_queue k
  | SLEEP_QUEUE => sleep_queue k
  end.

Definition set_queue (qid : queue_id) (q : queue_t) (k : kernel) : kernel :=
  match qid with
  | RUN_QUEUE => set_run_queue q k
  | SLEEP_QUEUE => set_sleep_queue q k
  end.

(** ** Constants of the missing headers *)

(** The values that [kernel.h], [kproc.h], [queue.h], [scheduler.h],
    [ksyscall.h] and the SPEDE headers define and the three translation
    units only name.  Every function below is parametric in them. *)
Class Config : Type := mkConfig {
  PROC_MAX : nat;
  PROC_STACK_SIZE : Z;
  PROC_NAME_LEN : nat;
  PROC_IO_MAX : nat;
  PROC_TYPE_KERNEL : Z;
  QUEUE_SIZE : Z;
  SCHEDULER_TIMESLICE : Z;
  EF_DEFAULT_VALUE : Z;
  EF_INTR : Z;
  get_cs : Z;
  get_ds : Z;
  get_es : Z;
  get_fs : Z;
  get_gs : Z;
  proc_stack_addr : Z;
  kproc_idle : Z;
  OS_NAME : list Z;
  SYSCALL_SYS_GET_TIME : Z;
  SYSCALL_SYS_GET_NAME : Z;
  SYSCALL_PROC_EXIT : Z;
  SYSCALL_PROC_GET_PID : Z;
  SYSCALL_PROC_GET_NAME : Z
}.

(** The bytes of a string literal, without its terminator. *)
Fixpoint bytes_of_string (s : string) : list Z :=
  match s with
  | EmptyString => []
  | String c rest => Z.of_nat (Ascii.nat_of_ascii c) :: bytes_of_string rest
  end.

(** The [n] bytes [strncpy(dst, src, n)] stores at [dst]: the characters of
    [src] up to its terminator, then zeros.  The end of the list stands for
    the terminator of a string that has none among its listed bytes. *)
Fixpoint strncpy (src : list Z) (n : nat) : list Z :=
  match n with
  | O => []
  | S n' =>
      match src with
      | [] => 0 :: strncpy [] n'
      | c :: rest => if c =? 0 then 0 :: strncpy [] n' else c :: strncpy rest n'
      end
  end.

(** Storing [bytes] at address [addr] of the memory outside the kernel's
    tables. *)
Definition store_bytes (addr : Z) (bytes : list Z) (m : Z -> Z) : Z -> Z :=
  fun a =>
    if (addr <=? a) && (a <? addr + Z.of_nat (length bytes))
    then default 0 (bytes !! Z.to_nat (a - addr))
    else m a.

(** [memset(dst, 0, n)] for a pointer of the kind [proc_t.stack] holds.  A
    pointer into [proc_stack] clears the bytes of the array from that
    offset on.  Through the null pointer the store goes to the physical
    addresses from 0 on, where none of the kernel's tables lives:
    [proc_stack] keeps its contents. *)
Definition memset_stack (dst : option Z) (n : Z) (k : kernel) : kernel :=
  match dst with
  | None => k
  | Some off =>
      set_proc_stack
        (imap (fun j b => if (off <=? Z.of_nat j) && (Z.of_nat j <? off + n)
                          then 0 else b)
              (proc_stack k)) k
  end.

(** The bytes of [proc_stack[entry]]. *)
Definition stack_region `{Config} (entry : nat) (k : kernel) : list Z :=
  take (Z.to_nat PROC_STACK_SIZE)
       (drop (entry * Z.to_nat PROC_STACK_SIZE) (proc_stack k)).

Section Kernel.
Context `{Config}.

Definition queue_in (q : queue_t) (v : Z) : option queue_t :=
  queue_in_cap QUEUE_SIZE q v.

(** A call of [queue_in] whose return code is dropped. *)
Definition queue_in_unchecked (q : queue_t) (v : Z) : queue_t :=
  match queue_in q v with
  | Some q' => q'
  | None => q
  end.

(** A PCB after [memset(proc, 0, sizeof(proc_t))]. *)
Definition proc_zero : proc_t :=
  mkProc 0 NONE 0 (replicate PROC_NAME_LEN 0) 0 0 0 0 None None None
         (replicate PROC_IO_MAX None).

(** *** kproc.c: table lookups *)

Definition pid_matches (pid' : Z) (p : proc_t) : bool :=
  (pid p =? pid') && negb (bool_decide (state p = NONE)).

Fixpoint pid_to_proc_from (i : nat) (tbl : list proc_t) (pid' : Z)
  : option nat :=
  match tbl with
  | [] => None
  | p :: rest =>
      if pid_matches pid' p then Some i
      else pid_to_proc_from (S i) rest pid'
  end.

(** [pid_to_proc]: the first slot, in table order, whose pid matches and
    whose state is not [NONE].  The loop over [i < PROC_MAX] is the scan of
    the table's entries. *)
Definition pid_to_proc (pid' : Z) (k : kernel) : option nat :=
  pid_to_proc_from 0 (proc_table k) pid'.

(** [proc_to_entry]: pointer difference with the table's base. *)
Definition proc_to_entry (proc : nat) : Z := Z.of_nat proc.

Definition entry_to_proc (entry : Z) (k : kernel) : option nat :=
  if (0 <=? entry) && (entry <? Z.of_nat PROC_MAX) then
    match proc_table k !! Z.to_nat entry with
    | Some p => if bool_decide (state p = NONE) then None
                else Some (Z.to_nat entry)
    | None => None
    end
  else None.

(** *** scheduler.c *)

Definition scheduler_timer (k : kernel) : result kernel :=
  match active_proc k with
  | Some a =>
      do p <- load a k;
      let p1 := set_run_time (int_wrap (run_time p + 1)) p in
      let p2 := set_cpu_time (int_wrap (cpu_time p1 + 1)) p1 in
      Ok (store a p2 k)
  | None => Ok k
  end.

Definition scheduler_add (proc : option nat) (k : kernel) : result kernel :=
  match proc with
  | None => kernel_panic "Invalid process!"
  | Some i =>
      do p <- load i k;
      let p' := set_cpu_time 0
                  (set_state IDLE (set_scheduler_queue (Some RUN_QUEUE) p)) in
      let k1 := store i p' k in
      match scheduler_queue p' with
      | Some qid =>
          match queue_in (get_queue qid k1) (pid p') with
          | Some q => Ok (set_queue qid q k1)
          | None => kernel_panic "Unable to add the process to the scheduler"
          end
      | None => Stuck
      end
  end.

(** The loop of [scheduler_remove] over the queue [q] the back-reference
    names.  The bound [q->size] is read again before every iteration.  The
    counter grows and the size never does, so [queue_size q - i] iterations
    are enough: [fuel] counts them down. *)
Fixpoint remove_loop (fuel : nat) (pid' : Z) (i : Z) (q : queue_t)
  : result queue_t :=
  if i <? queue_size q then
    match fuel with
    | O => Stuck
    | S fuel' =>
        match queue_out q with
        | None => kernel_panic "Unable to queue out the process entry"
        | Some (v, q1) =>
            if pid' =? v then remove_loop fuel' pid' (i + 1) q1
            else
              match queue_in q1 v with
              | Some q2 => remove_loop fuel' pid' (i + 1) q2
              | None =>
                  kernel_panic "Unable to queue process back to the run queue"
              end
        end
    end
  else Ok q.

Definition scheduler_remove (proc : option nat) (k : kernel) : result kernel :=
  match proc with
  | None => kernel_panic "Invalid process!"
  | Some i =>
      do p <- load i k;
      do k1 <-
        match scheduler_queue p with
        | Some qid =>
            let q := get_queue qid k in
            do q' <- remove_loop (Z.to_nat (queue_size q)) (pid p) 0 q;
            Ok (store i (set_scheduler_queue None p) (set_queue qid q' k))
        | None => Ok k
        end;
      if bool_decide (active_proc k1 = Some i)
      then Ok (set_active_proc None k1)
      else Ok k1
  end.

Definition scheduler_sleep (proc : option nat) (time : Z) (k : kernel)
  : result kernel :=
  match proc with
  | None => Stuck
  | Some i =>
      do p <- load i k;
      let k1 := store i (set_sleep_time (int_wrap (ticks k + time)) p) k in
      do p1 <- load i k1;
      let k2 := store i (set_state SLEEPING p1) k1 in
      do k3 <- scheduler_remove (Some i) k2;
      do p3 <- load i k3;
      Ok (set_sleep_queue (queue_in_unchecked (sleep_queue k3) (pid p3)) k3)
  end.

(** The sweep of the sleep queue in [scheduler_run], from counter value
    [i] on.  As in [remove_loop] the bound [sleep_queue.size] is read again
    before every iteration. *)
Fixpoint sleep_sweep (fuel : nat) (current_time : Z) (i : Z) (k : kernel)
  : result kernel :=
  if i <? queue_size (sleep_queue k) then
    match fuel with
    | O => Stuck
    | S fuel' =>
        match queue_out (sleep_queue k) with
        | None => kernel_panic "Unable to dequeue process from sleep queue"
        | Some (sleep_pid, q) =>
            let k1 := set_sleep_queue q k in
            match pid_to_proc sleep_pid k1 with
            | None => kernel_panic "Invalid process in sleep queue"
            | Some sleep_proc =>
                do p <- load sleep_proc k1;
                do k2 <-
                  (if current_time >=? sleep_time p
                   then scheduler_add (Some sleep_proc) k1
                   else Ok (set_sleep_queue
                              (queue_in_unchecked (sleep_queue k1) (pid p))
                              k1));
                sleep_sweep fuel' current_time (i + 1) k2
            end
        end
    end
  else Ok k.

(** [scheduler_run], first half: an active process that left the [ACTIVE]
    state is forgotten; one that used up its time slice is unscheduled. *)
Definition scheduler_run_unschedule (k : kernel) : result kernel :=
  do k1 <-
    match active_proc k with
    | Some a =>
        do p <- load a k;
        if bool_decide (state p = ACTIVE) then Ok k
        else Ok (set_active_proc None k)
    | None => Ok k
    end;
  match active_proc k1 with
  | Some a =>
      do p <- load a k1;
      if cpu_time p >=? SCHEDULER_TIMESLICE then
        let k2 := store a (set_cpu_time 0 p) k1 in
        do p2 <- load a k2;
        do k3 <-
          (if negb (pid p2 =? 0) then scheduler_add (Some a) k2
           else Ok (store a (set_state IDLE p2) k2));
        Ok (set_active_proc None k3)
      else Ok k1
  | None => Ok k1
  end.

(** [scheduler_run], second half: with no process scheduled, wake the
    sleepers that are due and take the next pid of the run queue, pid 0
    when it is empty.  The calls of [kernel_log_trace] only read, they are
    left out. *)
Definition scheduler_run_schedule (k : kernel) : result kernel :=
  match active_proc k with
  | Some _ => Ok k
  | None =>
      do k1 <-
        (if negb (queue_is_empty (sleep_queue k)) then
           sleep_sweep (Z.to_nat (queue_size (sleep_queue k))) (ticks k) 0 k
         else Ok k);
      let '(pid', k2) :=
        match queue_out (run_queue k1) with
        | Some (v, q) => (v, set_run_queue q k1)
        | None => (0, k1)
        end in
      Ok (set_active_proc (pid_to_proc pid' k2) k2)
  end.

Definition scheduler_run (k : kernel) : result kernel :=
  do k1 <- scheduler_run_unschedule k;
  do k2 <- scheduler_run_schedule k1;
  match active_proc k2 with
  | None => kernel_panic "Unable to schedule a process!"
  | Some a =>
      do p <- load a k2;
      Ok (store a (set_state ACTIVE p) k2)
  end.

Definition scheduler_init (k : kernel) : kernel :=
  set_sleep_queue queue_init (set_run_queue queue_init k).

(** *** kproc.c: creation and destruction *)

(** [kproc_create].  The slot comes from the allocator as section 4.1 of
    the specification has it: the dequeued index, or -1 when the free-list
    is empty.  The trap frame lies below the top of the slot's stack; the
    model keeps the frames of the slots in [proc_trapframe]. *)
Definition kproc_create (proc_ptr : Z) (proc_name : list Z) (proc_type : Z)
  (k : kernel) : result (Z * kernel) :=
  match queue_out (proc_allocator k) with
  | None => Ok (-1, k)
  | Some (entry, alloc) =>
      let k0 := set_proc_allocator alloc k in
      if entry <? 0 then Stuck
      else
        let e := Z.to_nat entry in
        do p <- load e k0;
        let stack_top := (entry + 1) * PROC_STACK_SIZE in
        let name' :=
          <[pred PROC_NAME_LEN := 0]> (strncpy proc_name PROC_NAME_LEN) in
        let p' :=
          mkProc (next_pid k0) IDLE proc_type name' (ticks k0) 0 0
                 (sleep_time p) (Some stack_top) (Some e)
                 (scheduler_queue p) (io p) in
        let k1 := set_next_pid (int_wrap (next_pid k0 + 1)) (store e p' k0) in
        match proc_trapframe k1 !! e with
        | None => Stuck
        | Some tf =>
            let tf' :=
              mkTrapframe (eax tf) (ebx tf) (uint_wrap proc_ptr)
                          (uint_wrap (proc_stack_addr + stack_top))
                          (Z.lor EF_DEFAULT_VALUE EF_INTR)
                          get_cs get_ds get_es get_fs get_gs in
            let k2 := set_proc_trapframe (<[e := tf']> (proc_trapframe k1)) k1 in
            do k3 <- scheduler_add (Some e) k2;
            do p3 <- load e k3;
            Ok (pid p3, k3)
        end
  end.

(** [kproc_destroy].  The second [memset] takes its destination from the
    PCB the first one has just cleared. *)
Definition kproc_destroy (proc : option nat) (k : kernel)
  : result (Z * kernel) :=
  match proc with
  | None => Ok (-1, k)
  | Some i =>
      do p <- load i k;
      if bool_decide (state p = NONE) || (pid p =? 0) then Ok (-1, k)
      else
        do k1 <- scheduler_remove (Some i) k;
        let k2 := store i proc_zero k1 in
        do p2 <- load i k2;
        let k3 := memset_stack (stack p2) PROC_STACK_SIZE k2 in
        let k4 :=
          set_proc_allocator
            (queue_in_unchecked (proc_allocator k3) (proc_to_entry i)) k3 in
        Ok (0, k4)
  end.

(** [kproc_init]. *)
Definition kproc_init (k : kernel) : result kernel :=
  let k1 := set_proc_table (set_pid (-1) <$> proc_table k) k in
  let alloc :=
    foldl (fun q i => queue_in_unchecked q (Z.of_nat i))
          queue_init (seq 0 PROC_MAX) in
  let k2 := set_proc_allocator alloc k1 in
  let k3 :=
    set_proc_stack
      (imap (fun j b =>
               if (Z.of_nat j + 1) mod PROC_STACK_SIZE =? 0 then 0 else b)
            (proc_stack k2)) k2 in
  do r <- kproc_create kproc_idle (bytes_of_string "kernel_idle")
                       PROC_TYPE_KERNEL k3;
  let '(idle_pid, k4) := r in
  if idle_pid =? -1 then kernel_panic "Failed to create idle process"
  else Ok k4.

(** *** ksyscall.c *)

Definition ksyscall_sys_get_time (k : kernel) : result (Z * kernel) :=
  Ok (Z.quot (ticks k) 100, k).

Definition ksyscall_sys_get_name (name' : Z) (k : kernel)
  : result (Z * kernel) :=
  if name' =? 0 then Ok (-1, k)
  else
    Ok (0, set_memory
             (store_bytes name' (strncpy OS_NAME (S (length OS_NAME)))
                          (memory k)) k).

Definition ksyscall_proc_sleep (seconds : Z) (k : kernel)
  : result (Z * kernel) :=
  match active_proc k with
  | None => Ok (-1, k)
  | Some a =>
      do k1 <- scheduler_sleep (Some a) (int_wrap (seconds * 100)) k;
      Ok (0, k1)
  end.

Definition ksyscall_proc_exit (k : kernel) : result (Z * kernel) :=
  match active_proc k with
  | None => Ok (-1, k)
  | Some a =>
      do p <- load a k;
      do k1 <- scheduler_run (store a (set_state NONE p) k);
      Ok (0, k1)
  end.

Definition ksyscall_proc_get_pid (k : kernel) : result (Z * kernel) :=
  match active_proc k with
  | None => Ok (-1, k)
  | Some a =>
      do p <- load a k;
      Ok (pid p, k)
  end.

Definition ksyscall_proc_get_name (name' : Z) (k : kernel)
  : result (Z * kernel) :=
  match active_proc k with
  | None => Ok (-1, k)
  | Some a =>
      if name' =? 0 then Ok (-1, k)
      else
        do p <- load a k;
        Ok (0, set_memory
                 (store_bytes name' (strncpy (name p) PROC_NAME_LEN)
                              (memory k)) k)
  end.

(** [active_proc->trapframe], the frame it points to, and the assignment
    of a handler's result to its [eax]. *)
Definition active_trapframe (k : kernel) : result (nat * trapframe_t) :=
  match active_proc k with
  | None => Stuck
  | Some a =>
      do p <- load a k;
      match trapframe p with
      | None => Stuck
      | Some e =>
          match proc_trapframe k !! e with
          | Some tf => Ok (e, tf)
          | None => Stuck
          end
      end
  end.

Definition write_back (r : Z * kernel) : result kernel :=
  let '(rc, k) := r in
  do f <- active_trapframe k;
  let '(e, tf) := f in
  Ok (set_proc_trapframe (<[e := set_eax (uint_wrap rc) tf]> (proc_trapframe k))
                         k).

(** [ksyscall_irq_handler]: the dispatcher. *)
Definition ksyscall_irq_handler (k : kernel) : result kernel :=
  match active_proc k with
  | None => kernel_panic "Invalid process"
  | Some a =>
      do p <- load a k;
      match trapframe p with
      | None => kernel_panic "Invalid trapframe"
      | Some _ =>
          do f <- active_trapframe k;
          let '(_, tf) := f in
          if eax tf =? uint_wrap SYSCALL_SYS_GET_TIME then
            do r <- ksyscall_sys_get_time k; write_back r
          else if eax tf =? uint_wrap SYSCALL_SYS_GET_NAME then
            do r <- ksyscall_sys_get_name (ebx tf) k; write_back r
          else if eax tf =? uint_wrap SYSCALL_PROC_EXIT then
            do r <- ksyscall_proc_exit k; write_back r
          else if eax tf =? uint_wrap SYSCALL_PROC_GET_PID then
            do r <- ksyscall_proc_get_pid k; write_back r
          else if eax tf =? uint_wrap SYSCALL_PROC_GET_NAME then
            do r <- ksyscall_proc_get_name (ebx tf) k; write_back r
          else kernel_panic "Invalid system call %d!"
      end
  end.

(** ** Executions *)

(** Memory as the loader leaves it: the kernel's tables cleared, the
    memory outside them as [mem] has it. *)
Definition kernel_bss (mem : Z -> Z) : kernel :=
  mkKernel (replicate PROC_MAX proc_zero)
           (replicate PROC_MAX trapframe_zero)
           (replicate (PROC_MAX * Z.to_nat PROC_STACK_SIZE) 0)
           queue_init 0 queue_init queue_init None 0 mem.

(** Initialisation: the scheduler, then process management, which
    enqueues into the scheduler's run queue. *)
Definition boot (mem : Z -> Z) : result kernel :=
  kproc_init (scheduler_init (kernel_bss mem)).

(** What happens to a running kernel: a timer interrupt, the scheduling
    decision point, creation and destruction of processes, the system-call
    trap raised by the active process with its registers saved in its
    frame, and the sleep operation of the system-call library.
    [scheduler_add], [scheduler_remove] and [scheduler_sleep] run as part
    of these: the sources call them from [kproc_create], [kproc_destroy],
    [scheduler_run] and [ksyscall_proc_sleep] only.  The I/O handlers of
    [ksyscall.c] work on ring buffers, which are not part of this state:
    they have no event. *)
Inductive event : Type :=
| EvTimer
| EvRun
| EvCreate (proc_ptr : Z) (proc_name : list Z) (proc_type : Z)
| EvDestroy (proc : option nat)
| EvTrap (eax' ebx' : Z)
| EvSleep (seconds : Z).

(** Modelled from the spec: [timer.c] is not part of the sources.  The
    timer keeps the tick counter that [timer_get_ticks] returns and, once
    per timer interrupt, advances it and calls [scheduler_timer], the
    callback [scheduler_init] registers for every tick. *)
Definition timer_irq_handler (k : kernel) : result kernel :=
  scheduler_timer (set_ticks (int_wrap (ticks k + 1)) k).

Definition save_registers (eax' ebx' : Z) (k : kernel) : kernel :=
  match active_trapframe k with
  | Ok (e, tf) =>
      set_proc_trapframe
        (<[e := set_ebx (uint_wrap ebx') (set_eax (uint_wrap eax') tf)]>
           (proc_trapframe k)) k
  | _ => k
  end.

Definition step (ev : event) (k : kernel) : result kernel :=
  match ev with
  | EvTimer => timer_irq_handler k
  | EvRun => scheduler_run k
  | EvCreate proc_ptr proc_name proc_type =>
      do r <- kproc_create proc_ptr proc_name proc_type k; Ok (snd r)
  | EvDestroy proc =>
      do r <- kproc_destroy proc k; Ok (snd r)
  | EvTrap eax' ebx' => ksyscall_irq_handler (save_registers eax' ebx' k)
  | EvSleep seconds =>
      do r <- ksyscall_proc_sleep seconds k; Ok (snd r)
  end.

Fixpoint run_events (evs : list event) (k : kernel) : result kernel :=
  match evs with
  | [] => Ok k
  | ev :: rest => do k1 <- step ev k; run_events rest k1
  end.

Inductive reachable : kernel -> Prop :=
| reachable_boot mem k :
    boot mem = Ok k -> reachable k
| reachable_step ev k k' :
    reachable k -> step ev k = Ok k' -> reachable k'.

End Kernel.

(** ** Specification vocabulary *)

(** [wp r Q]: the call with outcome [r] is defined (it is not [Stuck]) and,
    when it returns, its result satisfies [Q]; a call that halts the kernel
    returns nothing. *)
Definition wp {A : Type} (r : result A) (Q : A -> Prop) : Prop :=
  match r with
  | Ok a => Q a
  | Panic _ => True
  | Stuck => False
  end.

(** The states of the slots, in table order. *)
Definition states (k : kernel) : list proc_state := state <$> proc_table k.

(** [active_proc] is null or points into the table. *)
Definition active_valid (k : kernel) : Prop :=
  forall a, active_proc k = Some a -> (a < length (proc_table k))%nat.

(** A PCB that is [ACTIVE] is the one [active_proc] points to. *)
Definition active_only (k : kernel) : Prop :=
  forall i, states k !! i = Some ACTIVE -> active_proc k = Some i.

(** The invariant of the scheduler between two calls of the kernel. *)
Definition sched_inv (k : kernel) : Prop := active_valid k /\ active_only k.

(** Exactly one PCB of the table is [ACTIVE], and [active_proc] points to
    it. *)
Definition exactly_one_active (k : kernel) : Prop :=
  exists a p,
    active_proc k = Some a /\
    proc_table k !! a = Some p /\
    state p = ACTIVE /\
    forall j q, proc_table k !! j = Some q -> state q = ACTIVE -> j = a.

(** A process whose pid is [v] is live: some slot holds it in a state other
    than [NONE]. *)
Definition live (v : Z) (k : kernel) : Prop :=
  exists i p, proc_table k !! i = Some p /\ pid p = v /\ state p <> NONE.

(** Every pid held by the run queue or the sleep queue is live. *)
Definition queues_live (k : kernel) : Prop :=
  forall v, v ∈ items (run_queue k) ++ items (sleep_queue k) -> live v k.

(** The entries of both queues, and the active process when there is one,
    fit the capacity of a queue. *)
Definition queues_fit `{Config} (k : kernel) : Prop :=
  queue_size (run_queue k) + queue_size (sleep_queue k) +
  (match active_proc k with Some _ => 1 | None => 0 end) <= QUEUE_SIZE.

(** The end of [scheduler_remove]: [active_proc] is reset when it points
    to the process removed. *)
Definition forget_active (i : nat) (k : kernel) : kernel :=
  if bool_decide (active_proc k = Some i) then set_active_proc None k else k.

(** What the sweep and the choice of the next process rely on. *)
Definition queues_sound `{Config} (k : kernel) : Prop :=
  queues_live k /\
  queue_size (run_queue k) + queue_size (sleep_queue k) <= QUEUE_SIZE /\
  live 0 k.

(** ** A small configuration and some executions *)

(** Four slots (idle and three more), queues of the same capacity, a time
    slice of one tick, stacks of eight bytes.  The dispatched identifiers
    are 4, 5, 7, 8 and 9. *)
Definition sample_config : Config :=
  mkConfig 4 8 8 2 1 4 1 2 512 8 16 16 16 16 4096 2048
           (bytes_of_string "CrimOS") 4 5 7 8 9.

Section Scenarios.
#[local] Existing Instance sample_config.

Definition mem0 : Z -> Z := fun _ => 0.

Definition run_from_boot (evs : list event) : result kernel :=
  do k <- boot mem0; run_events evs k.

Definition is_ok {A : Type} (r : result A) : bool :=
  match r with
  | Ok _ => true
  | _ => false
  end.

(** The state an execution from boot ends in. *)
Definition after (evs : list event) : kernel :=
  match run_from_boot evs with
  | Ok k => k
  | _ => kernel_bss mem0
  end.

Definition create_A : event := EvCreate 100 (bytes_of_string "A") 2.
Definition create_B : event := EvCreate 200 (bytes_of_string "B") 2.
Definition create_C : event := EvCreate 300 (bytes_of_string "C") 2.

(** Idle and three processes, none scheduled yet. *)
Definition three_created_events : list event := [create_A; create_B; create_C].
Definition three_created : kernel := after three_created_events.

(** Process A (pid 1, slot 1) is active, B (pid 2, slot 2) waits in the run
    queue. *)
Definition A_active_events : list event :=
  [create_A; create_B; EvRun; EvTimer; EvRun].
Definition A_active : kernel := after A_active_events.

(** A went to sleep for one second while it was active. *)
Definition A_sleeping_events : list event := A_active_events ++ [EvSleep 1].
Definition A_sleeping : kernel := after A_sleeping_events.

(** A and B both sleep until tick 101, idle runs, and tick 101 has come. *)
Definition both_due_events : list event :=
  A_sleeping_events ++ [EvRun; EvSleep 1; EvRun] ++ replicate 100 EvTimer.
Definition both_due : kernel := after both_due_events.

(** A was destroyed in its sleep. *)
Definition A_destroyed_asleep_events : list event :=
  A_sleeping_events ++ [EvDestroy (Some 1%nat)].
Definition A_destroyed_asleep : kernel := after A_destroyed_asleep_events.

(** B asked for its pid and was preempted before it could resume: the
    answer, 2, waits in the [eax] of its frame.  A is active again. *)
Definition B_waits_for_result_events : list event :=
  A_active_events ++ [EvTimer; EvRun; EvTrap 8 0; EvTimer; EvRun].
Definition B_waits_for_result : kernel := after B_waits_for_result_events.

(** A is active and has filled its stack, the bytes of [proc_stack[1]]. *)
Definition A_stack_used : kernel :=
  set_proc_stack
    (imap (fun j b => if (8 <=? Z.of_nat j) && (Z.of_nat j <? 16)
                      then 170 else b)
          (proc_stack A_active))
    A_active.

(** A is active and the sleep queue holds four other pids. *)
Definition sleep_queue_full : kernel :=
  set_sleep_queue (mkQueue [5; 6; 7; 8]) A_active.

End Scenarios.

(** ** More specification vocabulary *)

(** The pid [scheduler_run] takes next: the head of the run queue, or the
    idle task's when the queue is empty. *)
Definition next_pid_to_run (q : list Z) : Z :=
  match q with
  | v :: _ => v
  | [] => 0
  end.

(** Every entry of [l] is the pid of a sleeper whose deadline is after
    [current_time]. *)
Definition none_due `{Config} (current_time : Z) (l : list Z) (k : kernel)
  : Prop :=
  forall v, v ∈ l ->
    exists j p, pid_to_proc v k = Some j /\ proc_table k !! j = Some p /\
                current_time < sleep_time p.

(** The fields of a PCB that scheduling leaves alone, and whether the slot
    is in use. *)
Definition same_process (p q : proc_t) : Prop :=
  pid q = pid p /\ type q = type p /\ name q = name p /\
  start_time q = start_time p /\ stack q = stack p /\
  trapframe q = trapframe p /\ io q = io p /\
  (state q = NONE <-> state p = NONE).

(** [k'] differs from [k] in scheduling state only: the queues,
    [active_proc], and the state, times and back-reference of PCBs in
    use. *)
Definition sched_frame (k k' : kernel) : Prop :=
  proc_allocator k' = proc_allocator k /\
  next_pid k' = next_pid k /\
  proc_trapframe k' = proc_trapframe k /\
  proc_stack k' = proc_stack k /\
  ticks k' = ticks k /\
  memory k' = memory k /\
  Forall2 same_process (proc_table k) (proc_table k').

(** The PCB [kproc_create] leaves in slot [e], which held [p] before. *)
Definition created_proc `{Config} (e : nat) (p : proc_t) (proc_name : list Z)
  (proc_type : Z) (k : kernel) : proc_t :=
  mkProc (next_pid k) IDLE proc_type
         (<[pred PROC_NAME_LEN := 0]> (strncpy proc_name PROC_NAME_LEN))
         (ticks k) 0 0 (sleep_time p)
         (Some ((Z.of_nat e + 1) * PROC_STACK_SIZE)) (Some e)
         (Some RUN_QUEUE) (io p).

(** The frame [kproc_create] leaves in slot [e], which held [tf] before. *)
Definition created_frame `{Config} (e : nat) (tf : trapframe_t) (proc_ptr : Z)
  : trapframe_t :=
  mkTrapframe (eax tf) (ebx tf) (uint_wrap proc_ptr)
              (uint_wrap (proc_stack_addr + (Z.of_nat e + 1) * PROC_STACK_SIZE))
              (Z.lor EF_DEFAULT_VALUE EF_INTR)
              get_cs get_ds get_es get_fs get_gs.

(** The free-list holds each slot at most once, and only slots whose PCB
    is in state [NONE]. *)
Definition free_list_sound (k : kernel) : Prop :=
  NoDup (items (proc_allocator k)) /\
  forall v, v ∈ items (proc_allocator k) ->
    exists i p, v = Z.of_nat i /\ proc_table k !! i = Some p /\
                state p = NONE.

(** [active_proc] is null or points to a PCB in state [ACTIVE]. *)
Definition active_is_ACTIVE (k : kernel) : Prop :=
  forall a, active_proc k = Some a ->
    exists p, proc_table k !! a = Some p /\ state p = ACTIVE.

(** The invariant of slot allocation between two calls of the kernel. *)
Definition alloc_inv (k : kernel) : Prop :=
  free_list_sound k /\ active_is_ACTIVE k.

(** [n] ticks of the timer: the callback [scheduler_timer] runs once per
    tick. *)
Fixpoint scheduler_timer_n `{Config} (n : nat) (k : kernel) : result kernel :=
  match n with
  | O => Ok k
  | S n' => do k1 <- scheduler_timer k; scheduler_timer_n n' k1
  end.

(** ** bit.c *)

(** A shift of a 32-bit operand by [bit] positions is defined for
    [0 <= bit < 32] only. *)
Definition shift_defined (bit : Z) : bool := (0 <=? bit) && (bit <? 32).

(** [1 << bit], an [int]: for bit 31 the most negative one. *)
Definition one_shl (bit : Z) : Z := int_wrap (Z.shiftl 1 bit).

(** The loop of [bit_count]: [number] is shifted before its lowest bit is
    added to [count]. *)
Fixpoint bit_count_loop (fuel : nat) (count number : Z) : result Z :=
  if number >? 0 then
    match fuel with
    | O => Stuck
    | S fuel' =>
        let number' := Z.shiftr number 1 in
        bit_count_loop fuel' (uint_wrap (count + Z.land number' 1)) number'
    end
  else Ok count.

(** [bit_count]: an [unsigned int] is zero after 32 shifts. *)
Definition bit_count (value : Z) : result Z := bit_count_loop 32 0 value.

(** The four accessors: [value] is an [unsigned int], [bit] an [int], and
    the [int] operands [1 << bit] and [~(1 << bit)] are converted to
    [unsigned int] before they meet [value]. *)
Definition bit_test (value bit : Z) : result Z :=
  if shift_defined bit then Ok (Z.land (Z.shiftr value bit) 1) else Stuck.

Definition bit_set (value bit : Z) : result Z :=
  if shift_defined bit then Ok (Z.lor value (uint_wrap (one_shl bit)))
  else Stuck.

Definition bit_clear (value bit : Z) : result Z :=
  if shift_defined bit
  then Ok (Z.land value (uint_wrap (Z.lnot (one_shl bit))))
  else Stuck.

Definition bit_toggle (value bit : Z) : result Z :=
  if shift_defined bit then Ok (Z.lxor value (uint_wrap (one_shl bit)))
  else Stuck.

(** The values of [unsigned int]. *)
Definition uint_range (z : Z) : Prop := 0 <= z < 2 ^ 32.

(** The number of bits set among the [n] bits from bit [start] on. *)
Fixpoint count_bits_from (start : Z) (n : nat) (z : Z) : Z :=
  match n with
  | O => 0
  | S n' => Z.b2z (Z.testbit z start) + count_bits_from (start + 1) n' z
  end.

(** ** keyboard.c *)

(** The constant of [keyboard.h] that [keyboard.c] names; the header is
    not part of the sources. *)
Class KeyboardConfig : Type := mkKeyboardConfig {
  KEY_NULL : Z
}.

(** The file-scope flags of the modifier keys. *)
Record keyboard : Type := mkKeyboard {
  shift_pressed : Z;
  caps_lock_on : Z;
  ctrl_pressed : Z;
  alt_pressed : Z
}.

(** [ascii_values]: the table lists the 128 ASCII codes in order. *)
Definition ascii_values : list Z :=
  [0; 1; 2; 3; 4; 5; 6; 7; 8; 9; 10; 11; 12; 13; 14; 15;
   16; 17; 18; 19; 20; 21; 22; 23; 24; 25; 26; 27; 28; 29; 30; 31;
   32; 33; 34; 35; 36; 37; 38; 39; 40; 41; 42; 43; 44; 45; 46; 47;
   48; 49; 50; 51; 52; 53; 54; 55; 56; 57; 58; 59; 60; 61; 62; 63;
   64; 65; 66; 67; 68; 69; 70; 71; 72; 73; 74; 75; 76; 77; 78; 79;
   80; 81; 82; 83; 84; 85; 86; 87; 88; 89; 90; 91; 92; 93; 94; 95;
   96; 97; 98; 99; 100; 101; 102; 103; 104; 105; 106; 107; 108; 109; 110; 111;
   112; 113; 114; 115; 116; 117; 118; 119; 120; 121; 122; 123; 124; 125; 126; 127].

Definition ASCII_LEFT_SHIFT : Z := 42.
Definition ASCII_RIGHT_SHIFT : Z := 54.
Definition ASCII_CTRL : Z := 29.
Definition ASCII_ALT : Z := 56.
Definition ASCII_CAPS_LOCK : Z := 58.

(** [keyboard_decode]: the value returned and the flags afterwards. *)
Definition keyboard_decode `{KeyboardConfig} (c : Z) (kb : keyboard)
  : result (Z * keyboard) :=
  let is_pressed := if Z.land c 128 =? 0 then 1 else 0 in
  let key_code := Z.land c 127 in
  if (key_code =? ASCII_LEFT_SHIFT) || (key_code =? ASCII_RIGHT_SHIFT) then
    Ok (KEY_NULL,
        mkKeyboard is_pressed (caps_lock_on kb) (ctrl_pressed kb)
                   (alt_pressed kb))
  else if key_code =? ASCII_CAPS_LOCK then
    Ok (KEY_NULL,
        if is_pressed =? 0 then kb
        else mkKeyboard (shift_pressed kb)
                        (if caps_lock_on kb =? 0 then 1 else 0)
                        (ctrl_pressed kb) (alt_pressed kb))
  else if key_code =? ASCII_CTRL then
    Ok (KEY_NULL,
        mkKeyboard (shift_pressed kb) (caps_lock_on kb) is_pressed
                   (alt_pressed kb))
  else if key_code =? ASCII_ALT then
    Ok (KEY_NULL,
        mkKeyboard (shift_pressed kb) (caps_lock_on kb) (ctrl_pressed kb)
                   is_pressed)
  else if key_code <? 128 then
    let is_uppercase :=
      (negb (shift_pressed kb =? 0) && (caps_lock_on kb =? 0)) ||
      ((shift_pressed kb =? 0) && negb (caps_lock_on kb =? 0)) in
    match ascii_values !! Z.to_nat key_code with
    | None => Stuck
    | Some a =>
        let ascii_code :=
          if (97 <=? a) && (a <=? 122) then
            if is_uppercase then uint_wrap (a - 32) else uint_wrap (a + 32)
          else uint_wrap a in
        if is_pressed =? 0 then Ok (KEY_NULL, kb) else Ok (ascii_code, kb)
    end
  else Ok (KEY_NULL, kb).

(** The keys with a flag of their own. *)
Definition is_modifier (key_code : Z) : bool :=
  (key_code =? ASCII_LEFT_SHIFT) || (key_code =? ASCII_RIGHT_SHIFT) ||
  (key_code =? ASCII_CAPS_LOCK) || (key_code =? ASCII_CTRL) ||
  (key_code =? ASCII_ALT).

(** Shift and Caps Lock ask for upper case when exactly one of them is
    on. *)
Definition upper_case (kb : keyboard) : bool :=
  xorb (negb (shift_pressed kb =? 0)) (negb (caps_lock_on kb =? 0)).

(** ** vga.c *)

(** The constants and the cell macro of [vga.h], which is not part of the
    sources.  [VGA_CHAR bg fg c] stands for the 16-bit cell the macro
    builds. *)
Class VgaConfig : Type := mkVgaConfig {
  VGA_WIDTH : Z;
  VGA_HEIGHT : Z;
  VGA_CHAR : Z -> Z -> Z -> Z;
  VGA_PORT_ADDR : Z;
  VGA_PORT_DATA : Z
}.

(** The file-scope variables of [vga.c], the text buffer at [VGA_BASE],
    cell after cell, and the bytes sent with [outportb], oldest first. *)
Record vga : Type := mkVga {
  cursor_enabled : bool;
  current_row : Z;
  current_col : Z;
  bg_color : Z;
  fg_color : Z;
  vga_buf : list Z;
  port_writes : list (Z * Z)
}.

Definition set_rowcol (row col : Z) (s : vga) : vga :=
  mkVga (cursor_enabled s) row col (bg_color s) (fg_color s) (vga_buf s)
        (port_writes s).

Definition set_vga_buf (buf : list Z) (s : vga) : vga :=
  mkVga (cursor_enabled s) (current_row s) (current_col s) (bg_color s)
        (fg_color s) buf (port_writes s).

(** [outportb(port, val)]: the byte goes out on the port. *)
Definition outportb (port val : Z) (s : vga) : vga :=
  mkVga (cursor_enabled s) (current_row s) (current_col s) (bg_color s)
        (fg_color s) (vga_buf s) (port_writes s ++ [(port, val)]).

(** [vga_buf[idx] = v]; a store outside the buffer is not defined. *)
Definition buf_write (idx v : Z) (s : vga) : result vga :=
  if (0 <=? idx) && (idx <? Z.of_nat (length (vga_buf s)))
  then Ok (set_vga_buf (<[Z.to_nat idx := v]> (vga_buf s)) s)
  else Stuck.

(** [vga_buf[idx]]. *)
Definition buf_read (idx : Z) (s : vga) : result Z :=
  if 0 <=? idx then
    match vga_buf s !! Z.to_nat idx with
    | Some v => Ok v
    | None => Stuck
    end
  else Stuck.

(** [for (int i = lo; i < hi; i++) body], for a body that leaves [i] and
    [hi] alone: [n] is the number of iterations, [hi - lo]. *)
Fixpoint for_loop {A : Type} (n : nat) (i : Z) (body : Z -> A -> result A)
  (a : A) : result A :=
  match n with
  | O => Ok a
  | S n' => do a1 <- body i a; for_loop n' (int_wrap (i + 1)) body a1
  end.

Section Vga.
Context `{VgaConfig}.

(** [row * VGA_WIDTH + col], an [int]. *)
Definition cell_index (row col : Z) : Z := int_wrap (row * VGA_WIDTH + col).

(** [vga_cursor_update]: the position is an [unsigned short]; its low
    byte goes to register 0x0F, its high byte to register 0x0E. *)
Definition vga_cursor_update (s : vga) : vga :=
  if cursor_enabled s then
    let pos := cell_index (current_row s) (current_col s) mod 2 ^ 16 in
    outportb VGA_PORT_DATA (Z.land (Z.shiftr pos 8) 255)
      (outportb VGA_PORT_ADDR 14
         (outportb VGA_PORT_DATA (Z.land pos 255)
            (outportb VGA_PORT_ADDR 15 s)))
  else s.

Definition vga_set_rowcol (row col : Z) (s : vga) : vga :=
  let row' :=
    if (row >=? 0) && (row <? VGA_HEIGHT) then row
    else if row <? 0 then 0 else int_wrap (VGA_HEIGHT - 1) in
  let col' :=
    if (col >=? 0) && (col <? VGA_WIDTH) then col
    else if col <? 0 then 0 else int_wrap (VGA_WIDTH - 1) in
  vga_cursor_update (set_rowcol row' col' s).

(** [vga_set_rowcol] has clamped what these two return. *)
Definition vga_get_row (s : vga) : Z := current_row s.
Definition vga_get_col (s : vga) : Z := current_col s.

Definition vga_setc (c : Z) (s : vga) : result vga :=
  do s1 <- buf_write (cell_index (current_row s) (current_col s))
                     (VGA_CHAR (bg_color s) (fg_color s) c) s;
  let s2 := set_rowcol (current_row s1) (int_wrap (current_col s1 + 1)) s1 in
  let s3 :=
    if current_col s2 >=? VGA_WIDTH then
      let s4 := set_rowcol (int_wrap (current_row s2 + 1)) 0 s2 in
      if current_row s4 >=? VGA_HEIGHT then set_rowcol 0 (current_col s4) s4
      else s4
    else s2 in
  Ok (vga_cursor_update s3).

(** The end of [vga_putc], after its [switch]: the wrap at the end of a
    line and of the screen, and the update of the hardware cursor. *)
Definition putc_wrap (s1 : vga) : vga :=
  let s2 :=
    if current_col s1 >=? VGA_WIDTH
    then set_rowcol (int_wrap (current_row s1 + 1)) 0 s1
    else s1 in
  let s3 :=
    if current_row s2 >=? VGA_HEIGHT then set_rowcol 0 (current_col s2) s2
    else s2 in
  vga_cursor_update s3.

Definition vga_putc (c : Z) (s : vga) : result vga :=
  do s1 <-
    (if c =? 10 then
       Ok (set_rowcol (int_wrap (current_row s + 1)) 0 s)
     else if c =? 13 then
       Ok (set_rowcol (current_row s) 0 s)
     else if c =? 9 then
       Ok (set_rowcol (current_row s)
                      (Z.land (int_wrap (current_col s + 4)) (Z.lnot (4 - 1)))
                      s)
     else if c =? 8 then
       if current_col s >? 0 then
         let s' := set_rowcol (current_row s) (int_wrap (current_col s - 1)) s in
         buf_write (cell_index (current_row s') (current_col s'))
                   (VGA_CHAR (bg_color s') (fg_color s') 32) s'
       else Ok s
     else
       do s' <- buf_write (cell_index (current_row s) (current_col s))
                          (VGA_CHAR (bg_color s) (fg_color s) c) s;
       Ok (set_rowcol (current_row s') (int_wrap (current_col s' + 1)) s'));
  Ok (putc_wrap s1).

(** [vga_puts]: the characters up to the terminator, each passed to
    [vga_putc] as an [unsigned char].  The end of the list stands for the
    terminator of a string that has none among its listed characters. *)
Fixpoint vga_puts (str : list Z) (s : vga) : result vga :=
  match str with
  | [] => Ok s
  | c :: rest =>
      if c =? 0 then Ok s
      else do s1 <- vga_putc (c mod 256) s; vga_puts rest s1
  end.

Definition vga_putc_at (row col bg fg c : Z) (s : vga) : result vga :=
  buf_write (cell_index row col) (VGA_CHAR bg fg c) s.

(** The assignment in the nested loops of [vga_scroll]: cell [j] of row
    [i] comes from the row below. *)
Definition scroll_copy_cell (i j : Z) (s : vga) : result vga :=
  do v <- buf_read (cell_index (int_wrap (i + 1)) j) s;
  buf_write (cell_index i j) v s.

(** The assignment in its last loop: cell [j] of the last row is
    blanked. *)
Definition scroll_blank_cell (j : Z) (s : vga) : result vga :=
  buf_write (cell_index (int_wrap (VGA_HEIGHT - 1)) j)
            (VGA_CHAR (bg_color s) (fg_color s) 32) s.

Definition vga_scroll (s : vga) : result vga :=
  do s1 <-
    for_loop (Z.to_nat (VGA_HEIGHT - 1)) 0
      (fun i s' =>
         for_loop (Z.to_nat VGA_WIDTH) 0 (scroll_copy_cell i) s') s;
  do s2 <- for_loop (Z.to_nat VGA_WIDTH) 0 scroll_blank_cell s1;
  let row := int_wrap (current_row s2 - 1) in
  Ok (vga_cursor_update
        (set_rowcol (if row <? 0 then 0 else row) (current_col s2) s2)).
End Vga.

(** The cursor is on the screen and the buffer has one cell per screen
    position. *)
Definition vga_ok `{VgaConfig} (s : vga) : Prop :=
  0 <= current_row s < VGA_HEIGHT /\
  0 <= current_col s < VGA_WIDTH /\
  Z.of_nat (length (vga_buf s)) = VGA_HEIGHT * VGA_WIDTH.

(** A screen whose positions fit the 16 bits of the cursor location. *)
Definition vga_dims_ok `{VgaConfig} : Prop :=
  0 < VGA_WIDTH /\ 0 < VGA_HEIGHT /\ VGA_HEIGHT * VGA_WIDTH <= 2 ^ 16.

(** The buffer [buf0] with its first [n] cells replaced by the cells one
    row of [w] cells below them. *)
Definition shifted (w n : nat) (buf0 : list Z) : list Z :=
  take n (drop w buf0) ++ drop n buf0.

(** ** More executions of the small configuration *)

Section MoreScenarios.
#[local] Existing Instance sample_config.

(** Idle and A exist; slots 2 and 3 are free. *)
Definition A_created : kernel := after [create_A].

(** Idle is active and has used up its time slice of one tick; A waits in
    the run queue. *)
Definition idle_slice_used : kernel := after [create_A; EvRun; EvTimer].

(** A is active and has used up its time slice; B waits in the run
    queue. *)
Definition A_slice_used : kernel := after (A_active_events ++ [EvTimer]).

(** A is active and has trapped into the kernel with the identifier of
    [SYSCALL_PROC_GET_PID] in EAX. *)
Definition A_asks_pid : kernel := save_registers 8 0 A_active.

End MoreScenarios.

(** [KEY_NULL] as the comment of [keyboard_poll] gives it. *)
Definition sample_keyboard_config : KeyboardConfig := mkKeyboardConfig 0.

(** No modifier is held and Caps Lock is off. *)
Definition keyboard_idle : keyboard := mkKeyboard 0 0 0 0.

(** The text mode of the PC: 25 rows of 80 cells, a cell with the
    character in its low byte and the colours above it, the CRT controller
    at ports 0x3D4 and 0x3D5. *)
Definition sample_vga_config : VgaConfig :=
  mkVgaConfig 80 25
    (fun bg fg c => Z.lor (Z.shiftl (Z.lor (Z.shiftl bg 4) fg) 8) c)
    980 981.

(** A zeroed buffer, light grey on black, the cursor enabled and in the
    last cell of the screen. *)
Definition vga_last_cell : vga :=
  mkVga true 24 79 0 7 (replicate 2000 0) [].

(** * Proofs *)

Section Proofs.
Context `{Config}.

(** ** The result monad *)

Lemma wp_bind {A B : Type} (m : result A) (f : A -> result B) Q :
  wp m (fun a => wp (f a) Q) -> wp (bind m f) Q.
Proof. destruct m; simpl; auto. Qed.

Lemma wp_mono {A : Type} (r : result A) (P Q : A -> Prop) :
  wp r P -> (forall a, P a -> Q a) -> wp r Q.
Proof. destruct r; simpl; auto. Qed.

Lemma wp_load i k p (Q : proc_t -> Prop) :
  proc_table k !! i = Some p -> Q p -> wp (load i k) Q.
Proof. intros Hl HQ. unfold load. rewrite Hl. exact HQ. Qed.

Lemma states_store i p k : states (store i p k) = <[i := state p]> (states k).
Proof. unfold states, store. simpl. apply list_fmap_insert. Qed.

Lemma states_lookup k i p :
  proc_table k !! i = Some p -> states k !! i = Some (state p).
Proof. intros Hl. unfold states. rewrite list_lookup_fmap, Hl. done. Qed.

Lemma states_store_same i p q k :
  proc_table k !! i = Some p -> state q = state p ->
  states (store i q k) = states k.
Proof.
  intros Hl Hs. rewrite states_store, Hs.
  apply list_insert_id. by apply states_lookup.
Qed.

Lemma states_length k : length (states k) = length (proc_table k).
Proof. unfold states. apply length_fmap. Qed.

Lemma lookup_store_same i p q k :
  proc_table k !! i = Some p -> proc_table (store i q k) !! i = Some q.
Proof.
  intros Hl. unfold store. simpl. apply list_lookup_insert_eq.
  by eapply lookup_lt_Some.
Qed.

(** ** The loop of [scheduler_remove] *)

Lemma queue_size_app q v :
  queue_size (mkQueue (items q ++ [v])) = queue_size q + 1.
Proof. unfold queue_size. simpl. rewrite length_app. simpl. lia. Qed.

(** One pass over entries that are not the pid sought: each is taken from
    the head and put back at the tail. *)
Lemma remove_loop_rotate pid' (a : list Z) :
  forall (rest : list Z) (fuel : nat) (i : Z),
    pid' ∉ a ->
    (length a <= fuel)%nat ->
    0 <= i -> i <= Z.of_nat (length rest) ->
    Z.of_nat (length (a ++ rest)) <= QUEUE_SIZE ->
    remove_loop fuel pid' i (mkQueue (a ++ rest)) =
    remove_loop (fuel - length a) pid' (i + Z.of_nat (length a))
                (mkQueue (rest ++ a)).
Proof.
  induction a as [|v a IH]; intros rest fuel i Hnotin Hfuel Hi Hle Hcap.
  - simpl. rewrite app_nil_r, Z.add_0_r, Nat.sub_0_r. reflexivity.
  - apply not_elem_of_cons in Hnotin as [Hne Hnotin].
    destruct fuel as [|fuel]; [simpl in Hfuel; lia|].
    simpl remove_loop at 1.
    unfold queue_size at 1. simpl items.
    rewrite length_app in Hcap. simpl length in *.
    destruct (Z.ltb_spec i (Z.of_nat (S (length (a ++ rest))))) as [_|Hge];
      [|rewrite length_app in Hge; lia].
    unfold queue_out. simpl items.
    destruct (Z.eqb_spec pid' v) as [->|_]; [done|].
    unfold queue_in, queue_in_cap, queue_size. simpl items.
    destruct (Z.ltb_spec (Z.of_nat (length (a ++ rest))) QUEUE_SIZE) as [_|Hge];
      [|rewrite length_app in Hge; lia].
    rewrite <- app_assoc.
    rewrite (IH (rest ++ [v]) fuel (i + 1)); try done; try lia.
    + rewrite <- app_assoc. simpl.
      f_equal. lia.
    + rewrite length_app. simpl. lia.
    + rewrite !length_app. simpl. lia.
Qed.

Lemma remove_loop_done fuel pid' i q :
  queue_size q <= i -> remove_loop fuel pid' i q = Ok q.
Proof.
  intros Hle. destruct fuel; simpl;
    destruct (Z.ltb_spec i (queue_size q)); try lia; reflexivity.
Qed.

(** What the loop of [scheduler_remove] leaves of a queue that holds the
    pid once: the entries before it in order when it is the last entry;
    otherwise the queue's last entry has moved to the front. *)
Lemma remove_loop_spec pid' (l1 l2 : list Z) :
  pid' ∉ l1 -> pid' ∉ l2 ->
  Z.of_nat (length (l1 ++ pid' :: l2)) <= QUEUE_SIZE ->
  remove_loop (length (l1 ++ pid' :: l2)) pid' 0 (mkQueue (l1 ++ pid' :: l2)) =
  Ok (mkQueue (match l2 with
               | [] => l1
               | _ :: _ => drop (pred (length l2)) l2 ++ l1 ++ take (pred (length l2)) l2
               end)).
Proof.
  intros H1 H2 Hcap.
  rewrite remove_loop_rotate
    by (first [done | rewrite ?length_app; simpl; lia]).
  rewrite length_app in *. simpl length in *.
  replace (length l1 + S (length l2) - length l1)%nat with (S (length l2)) by lia.
  simpl remove_loop at 1. unfold queue_size at 1. simpl items.
  simpl length. rewrite length_app.
  destruct (Z.ltb_spec (0 + Z.of_nat (length l1)) (Z.of_nat (S (length l2 + length l1)))); [|lia].
  unfold queue_out. simpl items. rewrite Z.eqb_refl.
  destruct l2 as [|z l2].
  - apply remove_loop_done. unfold queue_size. simpl. lia.
  - set (l := z :: l2) in *.
    assert (Hl : l = take (pred (length l)) l ++ drop (pred (length l)) l)
      by (symmetry; apply take_drop).
    assert (Hlen : length (take (pred (length l)) l) = pred (length l))
      by (rewrite length_take; lia).
    assert (Hlen' : length (drop (pred (length l)) l) = 1%nat)
      by (rewrite length_drop; subst l; simpl; lia).
    rewrite Hl at 2. rewrite <- app_assoc.
    rewrite remove_loop_rotate.
    + rewrite <- app_assoc. apply remove_loop_done.
      unfold queue_size. cbn [items]. rewrite !length_app, Hlen, Hlen'. lia.
    + intros Hin. apply H2. rewrite Hl. apply elem_of_app. by left.
    + rewrite Hlen. subst l. simpl. lia.
    + lia.
    + rewrite length_app, Hlen'. lia.
    + rewrite app_assoc, <- Hl, length_app. subst l. simpl in *. lia.
Qed.
(** *** Effects of the scheduler's operations on states and [active_proc] *)

Lemma scheduler_add_wp i k p :
  proc_table k !! i = Some p ->
  wp (scheduler_add (Some i) k)
     (fun k' => states k' = <[i := IDLE]> (states k) /\
                active_proc k' = active_proc k /\
                sleep_queue k' = sleep_queue k /\
                length (proc_table k') = length (proc_table k)).
Proof.
  intros Hl. unfold scheduler_add.
  apply wp_bind, (wp_load _ _ p); [done|].
  cbn [scheduler_queue set_cpu_time set_state set_scheduler_queue get_queue].
  destruct (queue_in _ _) as [q|]; simpl; [|done].
  rewrite length_insert. split_and!; try done.
  unfold states. simpl. by rewrite list_fmap_insert.
Qed.

Lemma queue_size_out q v q' :
  queue_out q = Some (v, q') -> queue_size q' = queue_size q - 1.
Proof.
  unfold queue_out, queue_size. destruct (items q) as [|x l]; [done|].
  intros [= <- <-]. simpl. lia.
Qed.

Lemma queue_size_in q v q' :
  queue_in q v = Some q' -> queue_size q' = queue_size q + 1.
Proof.
  unfold queue_in, queue_in_cap. destruct (_ <? _); [|done].
  intros [= <-]. unfold queue_size. simpl. rewrite length_app. simpl. lia.
Qed.

Lemma queue_size_in_unchecked q v :
  queue_size (queue_in_unchecked q v) <= queue_size q + 1.
Proof.
  unfold queue_in_unchecked. destruct (queue_in q v) eqn:E.
  - apply queue_size_in in E. lia.
  - lia.
Qed.

(** The loop of [scheduler_remove] ends within the iterations granted. *)
Lemma remove_loop_wp pid' fuel :
  forall i q, queue_size q - i <= Z.of_nat fuel ->
              wp (remove_loop fuel pid' i q) (fun _ => True).
Proof.
  induction fuel as [|fuel IH]; intros i q Hfuel.
  - simpl. destruct (Z.ltb_spec i (queue_size q)); [lia|done].
  - simpl. destruct (Z.ltb_spec i (queue_size q)); [|done].
    destruct (queue_out q) as [[v q1]|] eqn:Hout; [|done].
    apply queue_size_out in Hout.
    destruct (pid' =? v).
    + apply IH. lia.
    + destruct (queue_in q1 v) as [q2|] eqn:Hin; [|done].
      apply queue_size_in in Hin. apply IH. lia.
Qed.

Lemma scheduler_remove_wp i k p :
  proc_table k !! i = Some p ->
  wp (scheduler_remove (Some i) k)
     (fun k' => states k' = states k /\
                active_proc k' =
                  (if bool_decide (active_proc k = Some i) then None
                   else active_proc k) /\
                length (proc_table k') = length (proc_table k)).
Proof.
  intros Hl. unfold scheduler_remove.
  apply wp_bind, (wp_load _ _ p); [done|].
  apply wp_bind.
  destruct (scheduler_queue p) as [qid|].
  - apply wp_bind.
    eapply wp_mono; [apply remove_loop_wp; lia|].
    intros q' _.
    assert (Hs : <[i := state p]> (states k) = states k)
      by (apply list_insert_id; by apply states_lookup).
    unfold states in *.
    destruct qid; simpl; destruct (bool_decide _); simpl;
      rewrite list_fmap_insert, length_insert; simpl; rewrite Hs; done.
  - simpl. destruct (bool_decide _); simpl; done.
Qed.

Lemma sched_inv_ext k k' :
  proc_table k' = proc_table k -> active_proc k' = active_proc k ->
  sched_inv k -> sched_inv k'.
Proof.
  intros Ht Ha [Hv Ho]. split.
  - intros a. rewrite Ha, Ht. apply Hv.
  - intros i. unfold states. rewrite Ha, Ht. apply Ho.
Qed.

(** A slot that takes a state other than [ACTIVE], with [active_proc]
    kept or cleared when it pointed to that slot. *)
Lemma sched_inv_update k k' i s :
  sched_inv k ->
  states k' = <[i := s]> (states k) ->
  s <> ACTIVE ->
  length (proc_table k') = length (proc_table k) ->
  active_proc k' = active_proc k \/
  active_proc k' =
    (if bool_decide (active_proc k = Some i) then None else active_proc k) ->
  sched_inv k'.
Proof.
  intros [Hv Ho] Hs Hne Hlen Ha.
  assert (Hj : forall j, states k' !! j = Some ACTIVE ->
                         j <> i /\ active_proc k = Some j).
  { intros j Hj. rewrite Hs in Hj.
    destruct (decide (j = i)) as [->|Hji].
    - destruct (decide (i < length (states k))%nat).
      + rewrite list_lookup_insert_eq in Hj by done. congruence.
      + rewrite list_insert_ge in Hj by lia.
        apply lookup_lt_Some in Hj. lia.
    - rewrite list_lookup_insert_ne in Hj by done. auto. }
  split.
  - intros a Ha'. rewrite Hlen. apply Hv.
    destruct Ha as [Ha|Ha]; rewrite Ha in Ha'; [done|].
    by case_bool_decide.
  - intros j Hact. destruct (Hj j Hact) as [Hji Haj].
    destruct Ha as [Ha|Ha]; rewrite Ha; [done|].
    case_bool_decide; [congruence|done].
Qed.

Lemma scheduler_sleep_wp i time k p :
  proc_table k !! i = Some p ->
  wp (scheduler_sleep (Some i) time k)
     (fun k' => states k' = <[i := SLEEPING]> (states k) /\
                active_proc k' =
                  (if bool_decide (active_proc k = Some i) then None
                   else active_proc k) /\
                length (proc_table k') = length (proc_table k)).
Proof.
  intros Hl. unfold scheduler_sleep.
  apply wp_bind, (wp_load _ _ p); [done|].
  set (p1 := set_sleep_time _ p). set (k1 := store i p1 k).
  assert (Hl1 : proc_table k1 !! i = Some p1) by by eapply lookup_store_same.
  apply wp_bind, (wp_load _ _ p1); [done|].
  set (p2 := set_state SLEEPING p1). set (k2 := store i p2 k1).
  assert (Hl2 : proc_table k2 !! i = Some p2) by by eapply lookup_store_same.
  apply wp_bind.
  eapply wp_mono; [by apply (scheduler_remove_wp i k2 p2)|].
  intros k3 (Hs & Ha & Hn). simpl.
  assert (Hlen : length (proc_table k3) = length (proc_table k))
    by (rewrite Hn; unfold k2, k1, store; simpl; by rewrite !length_insert).
  assert (is_Some (proc_table k3 !! i)) as [p3 Hl3].
  { apply lookup_lt_is_Some. rewrite Hlen. by eapply lookup_lt_Some. }
  apply wp_bind, (wp_load _ _ p3); [done|]. simpl.
  split_and!; [|done..].
  change (states k3 = <[i:=SLEEPING]> (states k)).
  rewrite Hs. unfold k2, k1. rewrite !states_store. simpl.
  by rewrite list_insert_insert_eq.
Qed.

Lemma pid_to_proc_from_Some tbl pid' :
  forall n i, pid_to_proc_from n tbl pid' = Some i ->
              (n <= i)%nat /\ exists p, tbl !! (i - n)%nat = Some p /\
                                        pid_matches pid' p = true.
Proof.
  induction tbl as [|p tbl IH]; intros n i; simpl; [done|].
  destruct (pid_matches pid' p) eqn:Hm.
  - intros [= <-]. split; [lia|]. rewrite Nat.sub_diag. eauto.
  - intros Hi. apply IH in Hi as (Hle & q & Hq & Hmq).
    split; [lia|]. exists q. split; [|done].
    replace (i - n)%nat with (S (i - S n)) by lia. done.
Qed.

Lemma pid_to_proc_Some pid' k i :
  pid_to_proc pid' k = Some i ->
  exists p, proc_table k !! i = Some p /\ pid p = pid' /\ state p <> NONE.
Proof.
  intros Hi. apply pid_to_proc_from_Some in Hi as (_ & p & Hp & Hm).
  rewrite Nat.sub_0_r in Hp. exists p. split; [done|].
  unfold pid_matches in Hm. apply andb_true_iff in Hm as [Hpid Hst].
  split; [lia|]. apply negb_true_iff, bool_decide_eq_false in Hst. done.
Qed.

(** The sweep ends within the iterations granted, makes no process
    [ACTIVE] and leaves [active_proc] alone. *)
Lemma sleep_sweep_wp current_time fuel :
  forall i k,
    queue_size (sleep_queue k) - i <= Z.of_nat fuel ->
    wp (sleep_sweep fuel current_time i k)
       (fun k' => active_proc k' = active_proc k /\
                  length (proc_table k') = length (proc_table k) /\
                  forall j, states k' !! j = Some ACTIVE ->
                            states k !! j = Some ACTIVE).
Proof.
  induction fuel as [|fuel IH]; intros i k Hfuel.
  - simpl. destruct (Z.ltb_spec i (queue_size (sleep_queue k))); [lia|done].
  - simpl. destruct (Z.ltb_spec i (queue_size (sleep_queue k))); [|done].
    destruct (queue_out (sleep_queue k)) as [[v q]|] eqn:Hout; [|done].
    apply queue_size_out in Hout.
    destruct (pid_to_proc v _) as [sp|] eqn:Hsp; [|done].
    apply pid_to_proc_Some in Hsp as (p & Hp & _ & _).
    apply wp_bind, (wp_load _ _ p); [done|].
    apply wp_bind.
    destruct (current_time >=? sleep_time p).
    + eapply wp_mono; [exact (scheduler_add_wp sp _ p Hp)|].
      intros k2 (Hs & Ha & Hq & Hn). simpl in *.
      eapply wp_mono; [apply IH; rewrite Hq; lia|].
      intros k' (Ha' & Hn' & Hact). split_and!; [congruence|congruence|].
      intros j Hj. apply Hact in Hj. rewrite Hs in Hj.
      destruct (decide (j = sp)) as [->|Hne].
      * destruct (decide (sp < length (states (set_sleep_queue q k)))%nat).
        -- rewrite list_lookup_insert_eq in Hj by done. congruence.
        -- by rewrite list_insert_ge in Hj by lia.
      * by rewrite list_lookup_insert_ne in Hj.
    + simpl.
      eapply wp_mono.
      { apply IH. simpl.
        pose proof (queue_size_in_unchecked q (pid p)). lia. }
      intros k' (Ha' & Hn' & Hact). done.
Qed.

Lemma states_lookup_inv k i s :
  states k !! i = Some s ->
  exists p, proc_table k !! i = Some p /\ state p = s.
Proof.
  unfold states. rewrite list_lookup_fmap.
  destruct (proc_table k !! i) as [p|]; [|done].
  intros [= <-]. eauto.
Qed.

Lemma active_valid_lookup k a :
  active_valid k -> active_proc k = Some a ->
  exists p, proc_table k !! a = Some p.
Proof. intros Hv Ha. apply lookup_lt_is_Some, Hv, Ha. Qed.

Lemma sched_inv_forget k a p :
  sched_inv k -> active_proc k = Some a -> proc_table k !! a = Some p ->
  state p <> ACTIVE -> sched_inv (set_active_proc None k).
Proof.
  intros [Hv Ho] Ha Hp Hne. split; [done|].
  intros j Hj. change (states k !! j = Some ACTIVE) in Hj.
  pose proof (Ho j Hj) as Haj. rewrite Ha in Haj. injection Haj as <-.
  apply states_lookup in Hp. congruence.
Qed.

Lemma scheduler_run_unschedule_wp k :
  sched_inv k -> wp (scheduler_run_unschedule k) sched_inv.
Proof.
  intros Hinv. unfold scheduler_run_unschedule.
  apply wp_bind.
  apply (wp_mono _ sched_inv).
  { destruct (active_proc k) as [a|] eqn:Ha; [|done].
    destruct (active_valid_lookup k a) as [p Hp]; [apply Hinv|done|].
    apply wp_bind, (wp_load _ _ p); [done|].
    case_bool_decide; simpl; [done|]. by eapply sched_inv_forget. }
  clear k Hinv. intros k Hinv.
  destruct (active_proc k) as [a|] eqn:Ha; [|done].
  destruct (active_valid_lookup k a) as [p Hp]; [apply Hinv|done|].
  apply wp_bind, (wp_load _ _ p); [done|].
  destruct (cpu_time p >=? SCHEDULER_TIMESLICE); [|done].
  set (p2 := set_cpu_time 0 p). set (k2 := store a p2 k).
  assert (Hp2 : proc_table k2 !! a = Some p2) by by eapply lookup_store_same.
  assert (Hs2 : states k2 = states k) by by eapply states_store_same.
  assert (Hn2 : length (proc_table k2) = length (proc_table k))
    by (unfold k2, store; simpl; by rewrite length_insert).
  apply wp_bind, (wp_load _ _ p2); [done|].
  apply wp_bind.
  assert (Hfin : forall k3,
             states k3 = <[a := IDLE]> (states k2) ->
             active_proc k3 = active_proc k2 ->
             length (proc_table k3) = length (proc_table k2) ->
             sched_inv (set_active_proc None k3)).
  { intros k3 Hs Hact Hn.
    apply (sched_inv_update k _ a IDLE); try done.
    - change (states k3 = <[a:=IDLE]> (states k)). by rewrite Hs, Hs2.
    - simpl. congruence.
    - right. simpl. rewrite Ha. by rewrite bool_decide_eq_true_2. }
  destruct (negb (pid p2 =? 0)).
  - eapply wp_mono; [exact (scheduler_add_wp a k2 p2 Hp2)|].
    intros k3 (Hs & Hact & _ & Hn). simpl. by apply Hfin.
  - simpl. apply Hfin; [|done|].
    + by rewrite states_store.
    + unfold store. simpl. by rewrite length_insert.
Qed.

Lemma scheduler_run_schedule_wp k :
  sched_inv k -> wp (scheduler_run_schedule k) sched_inv.
Proof.
  intros Hinv. unfold scheduler_run_schedule.
  destruct (active_proc k) as [a|] eqn:Ha; [done|].
  apply wp_bind.
  apply (wp_mono _ (fun k1 => active_proc k1 = None /\
                              forall j, states k1 !! j <> Some ACTIVE)).
  { assert (Hnone : forall j, states k !! j <> Some ACTIVE).
    { intros j Hj. apply Hinv in Hj. congruence. }
    destruct (negb _); [|done].
    eapply wp_mono; [apply sleep_sweep_wp; lia|].
    intros k1 (Hact & _ & Hst). split; [congruence|].
    intros j Hj. by apply (Hnone j), Hst. }
  intros k1 [Hact Hnone].
  destruct (queue_out (run_queue k1)) as [[v q]|]; simpl.
  - split.
    + intros a. simpl. intros Hp.
      apply pid_to_proc_Some in Hp as (p & Hp & _). by eapply lookup_lt_Some.
    + intros j Hj. by apply Hnone in Hj.
  - split.
    + intros a. simpl. intros Hp.
      apply pid_to_proc_Some in Hp as (p & Hp & _). by eapply lookup_lt_Some.
    + intros j Hj. by apply Hnone in Hj.
Qed.

Lemma exactly_one_active_inv k : exactly_one_active k -> sched_inv k.
Proof.
  intros (a & p & Ha & Hp & Hs & Huniq). split.
  - intros a' Ha'. rewrite Ha in Ha'. injection Ha' as <-.
    by eapply lookup_lt_Some.
  - intros j Hj. apply states_lookup_inv in Hj as (q & Hq & Hsq).
    by rewrite (Huniq j q Hq Hsq).
Qed.

Lemma scheduler_run_wp k :
  sched_inv k -> wp (scheduler_run k) exactly_one_active.
Proof.
  intros Hinv. unfold scheduler_run.
  apply wp_bind.
  eapply wp_mono; [by apply scheduler_run_unschedule_wp|].
  intros k1 Hinv1. apply wp_bind.
  eapply wp_mono; [by apply scheduler_run_schedule_wp|].
  intros k2 Hinv2.
  destruct (active_proc k2) as [a|] eqn:Ha; [|done].
  destruct (active_valid_lookup k2 a) as [p Hp]; [apply Hinv2|done|].
  apply wp_bind, (wp_load _ _ p); [done|].
  change (exactly_one_active (store a (set_state ACTIVE p) k2)).
  exists a, (set_state ACTIVE p). split_and!; try done.
  - by eapply lookup_store_same.
  - intros j q Hq Hsq. unfold store in Hq. cbn [proc_table set_proc_table] in Hq.
    destruct (decide (j = a)) as [|Hne]; [done|].
    rewrite list_lookup_insert_ne in Hq by done.
    apply states_lookup in Hq. rewrite Hsq in Hq.
    apply Hinv2 in Hq. congruence.
Qed.

(** *** The invariant along executions *)

Lemma wp_Ok {A : Type} (r : result A) (Q : A -> Prop) a :
  wp r Q -> r = Ok a -> Q a.
Proof. intros Hwp ->. exact Hwp. Qed.

Lemma bind_Ok {A B : Type} (m : result A) (f : A -> result B) b :
  bind m f = Ok b -> exists a, m = Ok a /\ f a = Ok b.
Proof. destruct m; simpl; [eauto|done..]. Qed.

Lemma load_Ok i k p : load i k = Ok p -> proc_table k !! i = Some p.
Proof. unfold load. destruct (_ !! _); [|done]. by intros [= ->]. Qed.

Lemma sched_inv_store k i p :
  sched_inv k -> state p <> ACTIVE -> sched_inv (store i p k).
Proof.
  intros Hinv Hne. apply (sched_inv_update k _ i (state p)); try done.
  - apply states_store.
  - unfold store. simpl. by rewrite length_insert.
  - by left.
Qed.

Lemma scheduler_add_inv i k k' :
  sched_inv k -> scheduler_add (Some i) k = Ok k' -> sched_inv k'.
Proof.
  intros Hinv Hok.
  assert (exists p, proc_table k !! i = Some p) as [p Hp].
  { unfold scheduler_add in Hok. apply bind_Ok in Hok as (p & Hp & _).
    apply load_Ok in Hp. eauto. }
  pose proof (wp_Ok _ _ _ (scheduler_add_wp i k p Hp) Hok) as (Hs & Ha & _ & Hn).
  apply (sched_inv_update k _ i IDLE); try done. by left.
Qed.

Lemma sched_inv_states k k' :
  states k' = states k -> active_proc k' = active_proc k ->
  sched_inv k -> sched_inv k'.
Proof.
  intros Hs Ha [Hv Ho]. split.
  - intros a. rewrite Ha, <- !states_length, Hs. rewrite states_length. apply Hv.
  - intros i. rewrite Ha, Hs. apply Ho.
Qed.

Lemma scheduler_timer_inv k k' :
  sched_inv k -> scheduler_timer k = Ok k' -> sched_inv k'.
Proof.
  intros Hinv. unfold scheduler_timer.
  destruct (active_proc k) as [a|] eqn:Ha; [|by intros [= <-]].
  intros Hok. apply bind_Ok in Hok as (p & Hp & Hok).
  apply load_Ok in Hp. injection Hok as <-.
  apply (sched_inv_states k); [|done..].
  by eapply states_store_same.
Qed.

Lemma kproc_create_inv proc_ptr proc_name proc_type k rc k' :
  sched_inv k ->
  kproc_create proc_ptr proc_name proc_type k = Ok (rc, k') ->
  sched_inv k'.
Proof.
  intros Hinv. unfold kproc_create.
  destruct (queue_out (proc_allocator k)) as [[entry alloc]|];
    [|by intros [= _ <-]].
  destruct (entry <? 0); [done|].
  intros Hok. apply bind_Ok in Hok as (p & Hp & Hok).
  destruct (proc_trapframe _ !! _) as [tf|]; [|done].
  apply bind_Ok in Hok as (k3 & Hadd & Hok).
  apply bind_Ok in Hok as (p3 & _ & Hok). injection Hok as _ <-.
  eapply scheduler_add_inv; [|exact Hadd].
  match goal with
  | |- sched_inv (set_proc_trapframe _ (set_next_pid _ (store ?e ?q ?k0))) =>
      apply (sched_inv_ext (store e q k0)); [done..|];
      apply sched_inv_store; [|done]
  end.
  by apply (sched_inv_ext k).
Qed.

Lemma kproc_destroy_inv proc k rc k' :
  sched_inv k -> kproc_destroy proc k = Ok (rc, k') -> sched_inv k'.
Proof.
  intros Hinv. unfold kproc_destroy.
  destruct proc as [i|]; [|by intros [= _ <-]].
  intros Hok. apply bind_Ok in Hok as (p & Hp & Hok). apply load_Ok in Hp.
  destruct (_ || _); [by injection Hok as _ <-|].
  apply bind_Ok in Hok as (k1 & Hrem & Hok).
  apply bind_Ok in Hok as (p2 & _ & Hok). injection Hok as _ <-.
  pose proof (wp_Ok _ _ _ (scheduler_remove_wp i k p Hp) Hrem) as (Hs & Ha & Hn).
  apply (sched_inv_update k _ i NONE); try done.
  - unfold states in *.
    destruct (stack p2); simpl; rewrite list_fmap_insert; simpl;
      by rewrite Hs.
  - destruct (stack p2); simpl; by rewrite length_insert.
  - right. by destruct (stack p2).
Qed.

Lemma ksyscall_proc_sleep_inv seconds k rc k' :
  sched_inv k -> ksyscall_proc_sleep seconds k = Ok (rc, k') -> sched_inv k'.
Proof.
  intros Hinv. unfold ksyscall_proc_sleep.
  destruct (active_proc k) as [a|] eqn:Hact; [|by intros [= _ <-]].
  intros Hok. apply bind_Ok in Hok as (k1 & Hsl & Hok). injection Hok as _ <-.
  destruct (active_valid_lookup k a) as [p Hp]; [apply Hinv|done|].
  pose proof (wp_Ok _ _ _ (scheduler_sleep_wp a _ k p Hp) Hsl) as (Hs & Ha & Hn).
  apply (sched_inv_update k _ a SLEEPING); try done. by right.
Qed.

Lemma scheduler_run_inv k k' :
  sched_inv k -> scheduler_run k = Ok k' -> sched_inv k'.
Proof.
  intros Hinv Hok. apply exactly_one_active_inv.
  exact (wp_Ok _ _ _ (scheduler_run_wp k Hinv) Hok).
Qed.

Lemma ksyscall_proc_exit_inv k rc k' :
  sched_inv k -> ksyscall_proc_exit k = Ok (rc, k') -> sched_inv k'.
Proof.
  intros Hinv. unfold ksyscall_proc_exit.
  destruct (active_proc k) as [a|] eqn:Hact; [|by intros [= _ <-]].
  intros Hok. apply bind_Ok in Hok as (p & Hp & Hok).
  apply bind_Ok in Hok as (k1 & Hrun & Hok). injection Hok as _ <-.
  eapply scheduler_run_inv; [|exact Hrun]. by apply sched_inv_store.
Qed.

Lemma write_back_inv r k' :
  sched_inv (snd r) -> write_back r = Ok k' -> sched_inv k'.
Proof.
  destruct r as [rc k]. simpl. intros Hinv Hok.
  apply bind_Ok in Hok as ([e tf] & _ & Hok). injection Hok as <-.
  by apply (sched_inv_ext k).
Qed.

Lemma ksyscall_irq_handler_inv k k' :
  sched_inv k -> ksyscall_irq_handler k = Ok k' -> sched_inv k'.
Proof.
  intros Hinv. unfold ksyscall_irq_handler.
  destruct (active_proc k) as [a|] eqn:Hact; [|done].
  intros Hok. apply bind_Ok in Hok as (p & _ & Hok).
  destruct (trapframe p); [|done].
  apply bind_Ok in Hok as ([e tf] & _ & Hok).
  repeat match type of Hok with
         | (if ?c then _ else _) = _ => destruct c
         end;
    try done;
    apply bind_Ok in Hok as ([rc k1] & Hh & Hok);
    (eapply write_back_inv; [|exact Hok]); simpl.
  - by injection Hh as _ <-.
  - unfold ksyscall_sys_get_name in Hh.
    destruct (ebx tf =? 0); injection Hh as _ <-; [done|].
    by apply (sched_inv_ext k).
  - by eapply ksyscall_proc_exit_inv.
  - unfold ksyscall_proc_get_pid in Hh. rewrite Hact in Hh.
    apply bind_Ok in Hh as (? & _ & Hh). by injection Hh as _ <-.
  - unfold ksyscall_proc_get_name in Hh. rewrite Hact in Hh.
    destruct (ebx tf =? 0); [by injection Hh as _ <-|].
    apply bind_Ok in Hh as (? & _ & Hh). injection Hh as _ <-.
    by apply (sched_inv_ext k).
Qed.

Lemma save_registers_inv eax' ebx' k :
  sched_inv k -> sched_inv (save_registers eax' ebx' k).
Proof.
  intros Hinv. unfold save_registers.
  destruct (active_trapframe k) as [[e tf]| |]; [|done..].
  by apply (sched_inv_ext k).
Qed.

Lemma step_inv ev k k' : sched_inv k -> step ev k = Ok k' -> sched_inv k'.
Proof.
  intros Hinv. destruct ev; simpl; intros Hok.
  - unfold timer_irq_handler in Hok.
    eapply scheduler_timer_inv; [|exact Hok]. by apply (sched_inv_ext k).
  - by eapply scheduler_run_inv.
  - apply bind_Ok in Hok as ([rc k1] & Hc & Hok). injection Hok as <-.
    by eapply kproc_create_inv.
  - apply bind_Ok in Hok as ([rc k1] & Hc & Hok). injection Hok as <-.
    by eapply kproc_destroy_inv.
  - eapply ksyscall_irq_handler_inv; [|exact Hok]. by apply save_registers_inv.
  - apply bind_Ok in Hok as ([rc k1] & Hc & Hok). injection Hok as <-.
    by eapply ksyscall_proc_sleep_inv.
Qed.

Lemma boot_inv mem k : boot mem = Ok k -> sched_inv k.
Proof.
  unfold boot, kproc_init. intros Hok.
  apply bind_Ok in Hok as ([rc k4] & Hc & Hok).
  destruct (rc =? -1); [done|]. injection Hok as <-.
  eapply kproc_create_inv; [|exact Hc].
  split; [done|].
  intros j. unfold states. simpl.
  rewrite !list_lookup_fmap.
  destruct (replicate PROC_MAX proc_zero !! j) as [p|] eqn:Hp; [|done].
  apply lookup_replicate in Hp as [-> _]. done.
Qed.

Lemma reachable_inv k : reachable k -> sched_inv k.
Proof.
  induction 1 as [mem k Hboot|ev k k' _ IH Hstep].
  - by eapply boot_inv.
  - by eapply step_inv.
Qed.

(** *** When [scheduler_run] returns *)

Lemma live_ext v k k' :
  proc_table k' = proc_table k -> live v k -> live v k'.
Proof. unfold live. by intros ->. Qed.

Lemma live_store v i p q k :
  proc_table k !! i = Some p -> pid q = pid p -> state q <> NONE ->
  live v k -> live v (store i q k).
Proof.
  intros Hp Hpid Hst (j & r & Hr & Hv & Hs).
  destruct (decide (j = i)) as [->|Hne].
  - exists i, q. split; [by eapply lookup_store_same|].
    split; [congruence|done].
  - exists j, r. split; [|done].
    unfold store. simpl. by rewrite list_lookup_insert_ne.
Qed.

Lemma pid_to_proc_from_live tbl pid' :
  forall n j p, tbl !! j = Some p -> pid_matches pid' p = true ->
                is_Some (pid_to_proc_from n tbl pid').
Proof.
  induction tbl as [|q tbl IH]; intros n j p Hj Hm; [done|].
  simpl. destruct (pid_matches pid' q) eqn:Hq; [eauto|].
  destruct j as [|j]; simpl in Hj.
  - injection Hj as ->. congruence.
  - by eapply IH.
Qed.

Lemma pid_to_proc_live v k :
  live v k ->
  exists a p, pid_to_proc v k = Some a /\ proc_table k !! a = Some p /\
              pid p = v /\ state p <> NONE.
Proof.
  intros (j & r & Hr & Hv & Hs).
  destruct (pid_to_proc_from_live (proc_table k) v 0 j r) as [a Ha]; [done|..].
  { unfold pid_matches. apply andb_true_iff. split; [lia|].
    by apply negb_true_iff, bool_decide_eq_false. }
  destruct (pid_to_proc_Some v k a Ha) as (p & Hp & Hpid & Hst).
  exists a, p. done.
Qed.

(** [scheduler_add] on a run queue that has room. *)
Lemma scheduler_add_Ok i k p :
  proc_table k !! i = Some p ->
  queue_size (run_queue k) < QUEUE_SIZE ->
  scheduler_add (Some i) k =
  Ok (set_run_queue
        (mkQueue (items (run_queue k) ++ [pid p]))
        (store i (set_cpu_time 0
                    (set_state IDLE
                       (set_scheduler_queue (Some RUN_QUEUE) p))) k)).
Proof.
  intros Hp Hroom. unfold scheduler_add, load. rewrite Hp. simpl.
  unfold queue_in, queue_in_cap.
  destruct (Z.ltb_spec (queue_size (run_queue k)) QUEUE_SIZE); [done|lia].
Qed.

(** [scheduler_add] on a full run queue. *)
Lemma scheduler_add_Panic i k p :
  proc_table k !! i = Some p ->
  QUEUE_SIZE <= queue_size (run_queue k) ->
  scheduler_add (Some i) k =
  Panic "Unable to add the process to the scheduler".
Proof.
  intros Hp Hfull. unfold scheduler_add, load. rewrite Hp. simpl.
  unfold queue_in, queue_in_cap.
  destruct (Z.ltb_spec (queue_size (run_queue k)) QUEUE_SIZE); [lia|done].
Qed.

Lemma queue_size_items l : queue_size (mkQueue l) = Z.of_nat (length l).
Proof. done. Qed.

#[local] Arguments scheduler_add : simpl never.

Lemma sleep_sweep_returns current_time fuel :
  forall i k,
    0 <= i ->
    queue_size (sleep_queue k) - i <= Z.of_nat fuel ->
    queues_sound k ->
    exists k', sleep_sweep fuel current_time i k = Ok k' /\
               queues_sound k' /\ active_proc k' = active_proc k.
Proof.
  induction fuel as [|fuel IH]; intros i k Hi Hfuel (Hlive & Hfit & Hidle).
  - exists k. simpl.
    destruct (Z.ltb_spec i (queue_size (sleep_queue k))); [lia|done].
  - simpl. destruct (Z.ltb_spec i (queue_size (sleep_queue k))); [|by exists k].
    unfold queue_out.
    destruct (items (sleep_queue k)) as [|v rest] eqn:Hitems.
    { unfold queue_size in *. rewrite Hitems in *. simpl in *. lia. }
    assert (Hsize : queue_size (sleep_queue k) = Z.of_nat (length rest) + 1).
    { unfold queue_size. rewrite Hitems. simpl. lia. }
    assert (Hfit' : Z.of_nat (length (items (run_queue k))) +
                    Z.of_nat (length rest) + 1 <= QUEUE_SIZE)
      by (unfold queue_size in Hfit, Hsize; lia).
    set (k1 := set_sleep_queue (mkQueue rest) k).
    destruct (pid_to_proc_live v k1) as (sp & p & Hsp & Hp & Hpid & Hst).
    { apply (live_ext v k); [done|]. apply Hlive.
      rewrite Hitems. apply elem_of_app. right. apply elem_of_cons. by left. }
    rewrite Hsp. unfold load at 1. rewrite Hp. simpl bind.
    destruct (current_time >=? sleep_time p).
    + rewrite (scheduler_add_Ok sp k1 p Hp)
        by (simpl; unfold queue_size; lia).
      simpl bind.
      match goal with
      | |- exists k', sleep_sweep _ _ _ ?k2 = _ /\ _ =>
          destruct (IH (i + 1) k2) as (k' & Hk' & Hs' & Ha');
            [lia|simpl; rewrite queue_size_items; lia|
            |exists k'; by rewrite Ha']
      end.
      split_and!.
      * intros w Hw. simpl in Hw.
        eapply (live_ext w (store sp _ k1)); [done|].
        apply (live_store w sp p); [done..|].
        apply (live_ext w k); [done|]. apply Hlive.
        rewrite Hitems.
        rewrite !elem_of_app, list_elem_of_singleton in Hw.
        rewrite elem_of_app, elem_of_cons.
        destruct Hw as [[Hw|Hw]|Hw];
          [by left|right; left; congruence|by right; right].
      * simpl. rewrite !queue_size_items, length_app. simpl. lia.
      * eapply (live_ext 0 (store sp _ k1)); [done|].
        apply (live_store 0 sp p); [done..|]. by apply (live_ext 0 k).
    + simpl bind. unfold queue_in_unchecked, queue_in, queue_in_cap.
      simpl sleep_queue. rewrite queue_size_items.
      destruct (Z.ltb_spec (Z.of_nat (length rest)) QUEUE_SIZE) as [_|Hge];
        [|lia].
      match goal with
      | |- exists k', sleep_sweep _ _ _ ?k2 = _ /\ _ =>
          destruct (IH (i + 1) k2) as (k' & Hk' & Hs' & Ha');
            [lia|simpl; rewrite queue_size_items, length_app; simpl; lia|
            |exists k'; by rewrite Ha']
      end.
      split_and!.
      * intros w Hw. simpl in Hw.
        apply (live_ext w k); [done|]. apply Hlive.
        rewrite Hitems.
        rewrite !elem_of_app, list_elem_of_singleton in Hw.
        rewrite elem_of_app, elem_of_cons.
        destruct Hw as [Hw|[Hw|Hw]];
          [by left|by right; right|right; left; congruence].
      * simpl. rewrite queue_size_items, length_app. simpl.
        unfold queue_size. lia.
      * by apply (live_ext 0 k).
Qed.

Lemma scheduler_run_unschedule_returns k :
  active_valid k -> live 0 k -> queues_live k -> queues_fit k ->
  exists k1, scheduler_run_unschedule k = Ok k1 /\
             active_valid k1 /\
             (active_proc k1 = None -> queues_sound k1).
Proof.
  intros Hv Hidle Hlive Hfit. unfold scheduler_run_unschedule, queues_fit in *.
  destruct (active_proc k) as [a|] eqn:Ha.
  2:{ exists k. simpl. rewrite Ha. split_and!; try done.
      intros _. split_and!; [done|lia|done]. }
  assert (Hsleep : 0 <= queue_size (sleep_queue k)) by (unfold queue_size; lia).
  destruct (active_valid_lookup k a Hv Ha) as [p Hp].
  unfold load at 1. rewrite Hp. simpl bind at 1.
  case_bool_decide as Hact; simpl bind at 1.
  2:{ exists (set_active_proc None k). split_and!; try done.
      intros _. split_and!; [done|simpl; lia|done]. }
  rewrite Ha. unfold load at 1. rewrite Hp. simpl bind at 1.
  destruct (cpu_time p >=? SCHEDULER_TIMESLICE).
  2:{ exists k. split_and!; try done. by rewrite Ha. }
  set (p2 := set_cpu_time 0 p). set (k2 := store a p2 k).
  assert (Hp2 : proc_table k2 !! a = Some p2) by by eapply lookup_store_same.
  assert (Hlive2 : forall w, live w k -> live w k2).
  { intros w. apply (live_store w a p); [done..|]. simpl. by rewrite Hact. }
  unfold load at 1. rewrite Hp2. simpl bind at 1.
  destruct (negb (_ =? 0)).
  - rewrite (scheduler_add_Ok a k2 p2 Hp2) by (simpl; lia). simpl bind.
    eexists. split; [done|]. split; [done|]. intros _.
    assert (Hlive3 : forall w, live w k2 ->
              live w (store a (set_cpu_time 0
                                 (set_state IDLE
                                    (set_scheduler_queue (Some RUN_QUEUE) p2)))
                            k2))
      by (intros w; by apply (live_store w a p2)).
    split_and!.
    + intros w Hw. simpl in Hw.
      eapply live_ext; [|apply Hlive3]; [done|].
      rewrite !elem_of_app, list_elem_of_singleton in Hw.
      destruct Hw as [[Hw|Hw]|Hw].
      * apply Hlive2, Hlive, elem_of_app. by left.
      * exists a, p2. split_and!; [done|done|]. simpl. by rewrite Hact.
      * apply Hlive2, Hlive, elem_of_app. by right.
    + simpl. rewrite queue_size_items, length_app. simpl.
      unfold queue_size in *. lia.
    + eapply live_ext; [|apply Hlive3, Hlive2, Hidle]. done.
  - simpl bind. eexists. split; [done|]. split; [done|]. intros _.
    assert (Hlive3 : forall w, live w k2 ->
              live w (store a (set_state IDLE p2) k2))
      by (intros w; by apply (live_store w a p2)).
    split_and!.
    + intros w Hw. simpl in Hw.
      eapply live_ext; [|apply Hlive3, Hlive2, Hlive, Hw]. done.
    + simpl. lia.
    + eapply live_ext; [|apply Hlive3, Hlive2, Hidle]. done.
Qed.

(** With live pids in the queues and room for them, [scheduler_run]
    reaches its end. *)
Lemma scheduler_run_returns k :
  active_valid k -> live 0 k -> queues_live k -> queues_fit k ->
  exists k', scheduler_run k = Ok k'.
Proof.
  intros Hv Hidle Hlive Hfit. unfold scheduler_run.
  destruct (scheduler_run_unschedule_returns k Hv Hidle Hlive Hfit)
    as (k1 & -> & Hv1 & Hsound).
  simpl bind at 1. unfold scheduler_run_schedule.
  destruct (active_proc k1) as [a|] eqn:Ha.
  { simpl bind. rewrite Ha.
    destruct (active_valid_lookup k1 a Hv1 Ha) as [p Hp].
    unfold load. rewrite Hp. simpl. eauto. }
  specialize (Hsound eq_refl).
  assert (exists k2,
             (if negb (queue_is_empty (sleep_queue k1))
              then sleep_sweep (Z.to_nat (queue_size (sleep_queue k1)))
                               (ticks k1) 0 k1
              else Ok k1) = Ok k2 /\ queues_sound k2)
    as (k2 & -> & Hlive2 & _ & Hidle2).
  { destruct (negb _); [|by exists k1].
    destruct (sleep_sweep_returns (ticks k1)
                (Z.to_nat (queue_size (sleep_queue k1))) 0 k1)
      as (k2 & Hk2 & Hs2 & _); [lia|unfold queue_size; lia|done|].
    by exists k2. }
  simpl bind at 1.
  assert (exists k3 a p,
             (let '(pid', k3) :=
                match queue_out (run_queue k2) with
                | Some (v, q) => (v, set_run_queue q k2)
                | None => (0, k2)
                end in
              Ok (set_active_proc (pid_to_proc pid' k3) k3)) = Ok k3 /\
             active_proc k3 = Some a /\ proc_table k3 !! a = Some p)
    as (k3 & a & p & -> & Ha3 & Hp3).
  { unfold queue_out.
    destruct (items (run_queue k2)) as [|v rest] eqn:Hitems.
    - destruct (pid_to_proc_live 0 k2 Hidle2) as (a & p & Ha' & Hp' & _).
      eexists _, a, p. split; [done|]. simpl. by rewrite Ha'.
    - destruct (pid_to_proc_live v (set_run_queue (mkQueue rest) k2))
        as (a & p & Ha' & Hp' & _).
      { apply (live_ext v k2); [done|]. apply Hlive2.
        rewrite Hitems. apply elem_of_app. left. apply elem_of_cons. by left. }
      eexists _, a, p. split; [done|]. simpl. by rewrite Ha'. }
  simpl bind. rewrite Ha3. unfold load. rewrite Hp3. simpl. eauto.
Qed.

Lemma run_events_reachable evs :
  forall k k', reachable k -> run_events evs k = Ok k' -> reachable k'.
Proof.
  induction evs as [|ev evs IH]; intros k k' Hr; simpl.
  - by intros [= <-].
  - intros Hok. apply bind_Ok in Hok as (k1 & Hstep & Hrest).
    eapply IH; [|exact Hrest]. by eapply reachable_step.
Qed.

(** ** Exact results of [scheduler_remove] *)

Lemma queue_eta q : mkQueue (items q) = q.
Proof. by destruct q. Qed.

Lemma queue_size_to_nat q : Z.to_nat (queue_size q) = length (items q).
Proof. unfold queue_size. lia. Qed.

(** A queue that does not hold the pid comes out of the loop as it was. *)
Lemma remove_loop_absent pid' (q : queue_t) :
  pid' ∉ items q -> queue_size q <= QUEUE_SIZE ->
  remove_loop (length (items q)) pid' 0 q = Ok q.
Proof.
  destruct q as [l]. unfold queue_size. simpl. intros Hnotin Hcap.
  pose proof (remove_loop_rotate pid' l [] (length l) 0 Hnotin) as Hrot.
  rewrite app_nil_r in Hrot. rewrite Hrot; [|simpl; lia..].
  apply remove_loop_done. unfold queue_size. simpl. lia.
Qed.

(** A queue without duplicates that holds the pid comes out without it. *)
Lemma remove_loop_present pid' (q : queue_t) :
  NoDup (items q) -> pid' ∈ items q -> queue_size q <= QUEUE_SIZE ->
  exists q', remove_loop (length (items q)) pid' 0 q = Ok q' /\
             pid' ∉ items q'.
Proof.
  destruct q as [l]. unfold queue_size. simpl. intros Hnodup Hin Hcap.
  apply list_elem_of_split in Hin as (l1 & l2 & ->).
  apply NoDup_app in Hnodup as (_ & Hl1 & Hl2).
  apply NoDup_cons in Hl2 as [Hl2 _].
  assert (Hn1 : pid' ∉ l1).
  { intros Hin. apply (Hl1 _ Hin). by left. }
  rewrite remove_loop_spec by done.
  eexists. split; [done|]. simpl.
  destruct l2 as [|z l2]; [done|].
  rewrite !elem_of_app. intros [Hin|[Hin|Hin]]; [|done|].
  - apply Hl2. rewrite <- (take_drop (pred (length (z :: l2))) (z :: l2)).
    apply elem_of_app. by right.
  - apply Hl2. rewrite <- (take_drop (pred (length (z :: l2))) (z :: l2)).
    apply elem_of_app. by left.
Qed.

Lemma scheduler_remove_queue i k p qid q' :
  proc_table k !! i = Some p ->
  scheduler_queue p = Some qid ->
  remove_loop (length (items (get_queue qid k))) (pid p) 0 (get_queue qid k)
  = Ok q' ->
  scheduler_remove (Some i) k =
  Ok (forget_active i
        (store i (set_scheduler_queue None p) (set_queue qid q' k))).
Proof.
  intros Hp Hq Hloop. unfold scheduler_remove, load. rewrite Hp. simpl.
  rewrite Hq, queue_size_to_nat, Hloop. simpl. unfold forget_active.
  by destruct (bool_decide _).
Qed.

Lemma scheduler_remove_no_queue i k p :
  proc_table k !! i = Some p ->
  scheduler_queue p = None ->
  scheduler_remove (Some i) k = Ok (forget_active i k).
Proof.
  intros Hp Hq. unfold scheduler_remove, load. rewrite Hp. simpl.
  rewrite Hq. simpl. unfold forget_active. by destruct (bool_decide _).
Qed.

Lemma forget_active_proj i k :
  proc_table (forget_active i k) = proc_table k /\
  run_queue (forget_active i k) = run_queue k /\
  sleep_queue (forget_active i k) = sleep_queue k.
Proof. unfold forget_active. by destruct (bool_decide _). Qed.

(** ** Add, then remove *)

(** C9.  [scheduler_add] of a process whose pid the run queue does not hold,
    followed at once by [scheduler_remove] of the same process, leaves the
    run queue as it was before the add, entry for entry.  The add returns
    unless the run queue is full; then it halts the kernel. *)
Theorem scheduler_add_remove_restores_run_queue i k p :
  proc_table k !! i = Some p ->
  pid p ∉ items (run_queue k) ->
  (queue_size (run_queue k) < QUEUE_SIZE ->
   exists k1 k2,
     scheduler_add (Some i) k = Ok k1 /\
     items (run_queue k1) = items (run_queue k) ++ [pid p] /\
     scheduler_remove (Some i) k1 = Ok k2 /\
     run_queue k2 = run_queue k) /\
  (QUEUE_SIZE <= queue_size (run_queue k) ->
   scheduler_add (Some i) k =
   Panic "Unable to add the process to the scheduler").
Proof.
  intros Hp Hnotin. split; [|by apply (scheduler_add_Panic i k p)].
  intros Hroom. rewrite (scheduler_add_Ok i k p Hp Hroom).
  set (p1 := set_cpu_time 0 _).
  set (k1 := set_run_queue _ _).
  assert (Hp1 : proc_table k1 !! i = Some p1)
    by exact (lookup_store_same i p p1 k Hp).
  assert (Hloop : remove_loop (length (items (get_queue RUN_QUEUE k1)))
                              (pid p1) 0 (get_queue RUN_QUEUE k1)
                  = Ok (run_queue k)).
  { simpl. rewrite (remove_loop_spec (pid p) (items (run_queue k)) []).
    - by rewrite queue_eta.
    - done.
    - apply not_elem_of_nil.
    - rewrite length_app. simpl. unfold queue_size in Hroom. lia. }
  exists k1, (forget_active i
                (store i (set_scheduler_queue None p1)
                       (set_queue RUN_QUEUE (run_queue k) k1))).
  split_and!; [done|done| |].
  - by apply scheduler_remove_queue.
  - by rewrite (proj1 (proj2 (forget_active_proj _ _))).
Qed.

(** ** Sleep-queue overflow *)

(** C10.  With the sleep queue full, [scheduler_sleep] returns: the pid is
    not stored, the sleep queue is as before, the process is [SLEEPING]
    with a null back-reference and its pid is in neither queue.
    [scheduler_add] on a full run queue halts the kernel. *)
Theorem scheduler_sleep_drops_pid_when_full i time k p :
  proc_table k !! i = Some p ->
  queue_size (sleep_queue k) = QUEUE_SIZE ->
  pid p ∉ items (sleep_queue k) ->
  NoDup (items (run_queue k)) ->
  queue_size (run_queue k) <= QUEUE_SIZE ->
  (pid p ∈ items (run_queue k) -> scheduler_queue p = Some RUN_QUEUE) ->
  (exists k' p',
      scheduler_sleep (Some i) time k = Ok k' /\
      sleep_queue k' = sleep_queue k /\
      proc_table k' !! i = Some p' /\
      pid p' = pid p /\ state p' = SLEEPING /\
      sleep_time p' = int_wrap (ticks k + time) /\
      scheduler_queue p' = None /\
      (pid p ∉ items (run_queue k')) /\ (pid p ∉ items (sleep_queue k'))) /\
  (QUEUE_SIZE <= queue_size (run_queue k) ->
   scheduler_add (Some i) k =
   Panic "Unable to add the process to the scheduler").
Proof.
  intros Hp Hfull Hnotin Hnodup Hcap Hback.
  split; [|by apply (scheduler_add_Panic i k p)].
  unfold scheduler_sleep, load at 1. rewrite Hp. cbn [bind].
  set (p1 := set_sleep_time _ p). set (k1 := store i p1 k).
  assert (Hp1 : proc_table k1 !! i = Some p1) by by eapply lookup_store_same.
  unfold load at 1. rewrite Hp1. cbn [bind].
  set (p2 := set_state SLEEPING p1). set (k2 := store i p2 k1).
  assert (Hp2 : proc_table k2 !! i = Some p2) by by eapply lookup_store_same.
  assert (Hdrop : forall q, queue_size q = QUEUE_SIZE ->
                            queue_in_unchecked q (pid p) = q).
  { intros q Hq. unfold queue_in_unchecked, queue_in, queue_in_cap.
    destruct (Z.ltb_spec (queue_size q) QUEUE_SIZE); [lia|done]. }
  assert (Htail : forall K p3,
             scheduler_remove (Some i) k2 = Ok (forget_active i K) ->
             proc_table K !! i = Some p3 ->
             pid p3 = pid p -> state p3 = SLEEPING ->
             sleep_time p3 = int_wrap (ticks k + time) ->
             scheduler_queue p3 = None ->
             sleep_queue K = sleep_queue k ->
             pid p ∉ items (run_queue K) ->
             exists k' p',
               (do k3 <- scheduler_remove (Some i) k2;
                do p3 <- load i k3;
                Ok (set_sleep_queue
                      (queue_in_unchecked (sleep_queue k3) (pid p3)) k3))
               = Ok k' /\
               sleep_queue k' = sleep_queue k /\
               proc_table k' !! i = Some p' /\
               pid p' = pid p /\ state p' = SLEEPING /\
               sleep_time p' = int_wrap (ticks k + time) /\
               scheduler_queue p' = None /\
               (pid p ∉ items (run_queue k')) /\
               (pid p ∉ items (sleep_queue k'))).
  { intros K p3 Hrem HpK Hpid Hst Htime Hnone Hsl Hrun.
    destruct (forget_active_proj i K) as (Ht & Hr & Hs).
    rewrite Hrem. cbn [bind]. unfold load. rewrite Ht, HpK. cbn [bind].
    exists (set_sleep_queue
              (queue_in_unchecked (sleep_queue (forget_active i K)) (pid p3))
              (forget_active i K)), p3.
    assert (Hsame : queue_in_unchecked (sleep_queue (forget_active i K))
                                       (pid p3) = sleep_queue k).
    { rewrite Hs, Hsl, Hpid. by apply Hdrop. }
    split; [done|].
    change (queue_in_unchecked (sleep_queue (forget_active i K)) (pid p3)
            = sleep_queue k /\
            proc_table (forget_active i K) !! i = Some p3 /\
            pid p3 = pid p /\ state p3 = SLEEPING /\
            sleep_time p3 = int_wrap (ticks k + time) /\
            scheduler_queue p3 = None /\
            (pid p ∉ items (run_queue (forget_active i K))) /\
            (pid p ∉ items (queue_in_unchecked
                              (sleep_queue (forget_active i K)) (pid p3)))).
    rewrite Hsame, Ht, Hr. by split_and!. }
  destruct (scheduler_queue p) as [[|]|] eqn:Hq.
  - (* the back-reference names the run queue *)
    assert (exists q', remove_loop (length (items (run_queue k))) (pid p) 0
                                   (run_queue k) = Ok q' /\
                       pid p ∉ items q') as (q' & Hloop & Hq').
    { destruct (decide (pid p ∈ items (run_queue k))) as [Hin|Hnin].
      - by apply remove_loop_present.
      - exists (run_queue k). split; [|done]. by apply remove_loop_absent. }
    apply (Htail (store i (set_scheduler_queue None p2)
                        (set_queue RUN_QUEUE q' k2))
                 (set_scheduler_queue None p2)); try done.
    + by apply (scheduler_remove_queue i k2 p2).
    + exact (lookup_store_same i p2 _ _ Hp2).
  - (* the back-reference names the sleep queue *)
    assert (Hloop : remove_loop (length (items (sleep_queue k))) (pid p) 0
                                (sleep_queue k) = Ok (sleep_queue k)).
    { apply remove_loop_absent; [done|lia]. }
    apply (Htail (store i (set_scheduler_queue None p2)
                        (set_queue SLEEP_QUEUE (sleep_queue k) k2))
                 (set_scheduler_queue None p2)); try done.
    + by apply (scheduler_remove_queue i k2 p2).
    + exact (lookup_store_same i p2 _ _ Hp2).
    + intros Hin. by specialize (Hback Hin).
  - (* no back-reference *)
    apply (Htail k2 p2); try done.
    + by apply (scheduler_remove_no_queue i k2 p2).
    + intros Hin. by specialize (Hback Hin).
Qed.

(** ** Destruction *)

(** [kproc_destroy] never writes to [proc_stack]. *)
Lemma kproc_destroy_keeps_stack proc k rc k' :
  kproc_destroy proc k = Ok (rc, k') -> proc_stack k' = proc_stack k.
Proof.
  unfold kproc_destroy. destruct proc as [i|]; [|by intros [= _ <-]].
  intros Hok. apply bind_Ok in Hok as (p & Hp & Hok). apply load_Ok in Hp.
  destruct (_ || _); [by injection Hok as _ <-|].
  apply bind_Ok in Hok as (k1 & Hrem & Hok).
  apply bind_Ok in Hok as (p2 & Hp2 & Hok). apply load_Ok in Hp2.
  assert (Hzero : p2 = proc_zero).
  { unfold store in Hp2. simpl in Hp2.
    assert (Hlt : (i < length (proc_table k1))%nat).
    { apply lookup_lt_is_Some.
      destruct (decide (i < length (proc_table k1))%nat) as [|Hge]; [|].
      - by apply lookup_lt_is_Some.
      - rewrite list_insert_ge in Hp2 by lia. eauto. }
    rewrite list_lookup_insert_eq in Hp2 by done. congruence. }
  subst p2. injection Hok as _ <-. simpl.
  assert (proc_stack k1 = proc_stack k); [|done].
  unfold scheduler_remove, load in Hrem. rewrite Hp in Hrem. simpl in Hrem.
  destruct (scheduler_queue p) as [qid|].
  - apply bind_Ok in Hrem as (k1' & Hloop & Hrem).
    apply bind_Ok in Hloop as (q' & _ & Hk1'). injection Hk1' as <-.
    destruct (bool_decide _); injection Hrem as <-; by destruct qid.
  - simpl in Hrem. destruct (bool_decide _); by injection Hrem as <-.
Qed.

(** [kproc_destroy] turns down the null pointer, a slot in state [NONE]
    and the idle process, and changes nothing then. *)
Lemma kproc_destroy_rejects proc k :
  (proc = None \/
   exists i p, proc = Some i /\ proc_table k !! i = Some p /\
               (state p = NONE \/ pid p = 0)) ->
  kproc_destroy proc k = Ok (-1, k).
Proof.
  intros [->|(i & p & -> & Hp & Hcase)]; [done|].
  unfold kproc_destroy, load. rewrite Hp. simpl.
  destruct Hcase as [Hs|Hpid].
  - by rewrite bool_decide_eq_true_2.
  - rewrite Hpid. by rewrite orb_true_r.
Qed.

(** ** The dispatcher *)

(** Whatever the active process saved in [eax], if it is none of the five
    identifiers the dispatcher compares it with, the kernel halts. *)
Lemma ksyscall_irq_handler_unknown k a p e tf :
  active_proc k = Some a ->
  proc_table k !! a = Some p ->
  trapframe p = Some e ->
  proc_trapframe k !! e = Some tf ->
  eax tf <> uint_wrap SYSCALL_SYS_GET_TIME ->
  eax tf <> uint_wrap SYSCALL_SYS_GET_NAME ->
  eax tf <> uint_wrap SYSCALL_PROC_EXIT ->
  eax tf <> uint_wrap SYSCALL_PROC_GET_PID ->
  eax tf <> uint_wrap SYSCALL_PROC_GET_NAME ->
  ksyscall_irq_handler k = Panic "Invalid system call %d!".
Proof.
  intros Ha Hp He Htf H1 H2 H3 H4 H5.
  unfold ksyscall_irq_handler, active_trapframe, load.
  rewrite Ha, Hp. simpl. rewrite He, Htf. simpl.
  repeat match goal with
         | |- context [?x =? ?y] => destruct (Z.eqb_spec x y); [done|]
         end.
  done.
Qed.

Lemma save_registers_Some eax' ebx' k a p e tf :
  active_proc k = Some a ->
  proc_table k !! a = Some p ->
  trapframe p = Some e ->
  proc_trapframe k !! e = Some tf ->
  save_registers eax' ebx' k =
  set_proc_trapframe
    (<[e := set_ebx (uint_wrap ebx') (set_eax (uint_wrap eax') tf)]>
       (proc_trapframe k)) k.
Proof.
  intros Ha Hp He Htf. unfold save_registers, active_trapframe, load.
  rewrite Ha, Hp. simpl. by rewrite He, Htf.
Qed.

(** The trap of an active process whose [eax] holds none of the five
    identifiers. *)
Lemma trap_unknown_identifier id ebx' k a p e tf :
  active_proc k = Some a ->
  proc_table k !! a = Some p ->
  trapframe p = Some e ->
  proc_trapframe k !! e = Some tf ->
  uint_wrap id <> uint_wrap SYSCALL_SYS_GET_TIME ->
  uint_wrap id <> uint_wrap SYSCALL_SYS_GET_NAME ->
  uint_wrap id <> uint_wrap SYSCALL_PROC_EXIT ->
  uint_wrap id <> uint_wrap SYSCALL_PROC_GET_PID ->
  uint_wrap id <> uint_wrap SYSCALL_PROC_GET_NAME ->
  step (EvTrap id ebx') k = Panic "Invalid system call %d!".
Proof.
  intros Ha Hp He Htf H1 H2 H3 H4 H5. unfold step.
  rewrite (save_registers_Some id ebx' k a p e tf) by done.
  apply (ksyscall_irq_handler_unknown _ a p e
           (set_ebx (uint_wrap ebx') (set_eax (uint_wrap id) tf)));
    try done.
  simpl. apply list_lookup_insert_eq. by eapply lookup_lt_Some.
Qed.

(** ** PROC_GET_PID and PROC_GET_NAME *)

Lemma strncpy_length src n : length (strncpy src n) = n.
Proof.
  revert src. induction n as [|n IH]; intros src; [done|].
  simpl. destruct src as [|c rest]; simpl; [by rewrite IH|].
  destruct (c =? 0); simpl; by rewrite IH.
Qed.

Lemma store_bytes_inside addr bytes m j b :
  bytes !! j = Some b ->
  store_bytes addr bytes m (addr + Z.of_nat j) = b.
Proof.
  intros Hb. unfold store_bytes.
  pose proof (lookup_lt_Some _ _ _ Hb) as Hlt.
  destruct (Z.leb_spec addr (addr + Z.of_nat j)); [|lia].
  destruct (Z.ltb_spec (addr + Z.of_nat j)
                       (addr + Z.of_nat (length bytes))); [|lia].
  simpl. replace (Z.to_nat (addr + Z.of_nat j - addr)) with j by lia.
  by rewrite Hb.
Qed.

Lemma store_bytes_outside addr bytes m a :
  a < addr \/ addr + Z.of_nat (length bytes) <= a ->
  store_bytes addr bytes m a = m a.
Proof.
  intros Hout. unfold store_bytes.
  destruct (Z.leb_spec addr a); simpl; [|done].
  destruct (Z.ltb_spec a (addr + Z.of_nat (length bytes))); [lia|done].
Qed.

(** C8, as amended.  Without an active process both handlers return -1.
    With one, PROC_GET_PID returns its pid; PROC_GET_NAME returns -1 for a
    null buffer pointer and otherwise stores the [PROC_NAME_LEN] bytes that
    [strncpy] makes of the process name at the buffer and returns 0.  No
    PCB changes in any of these cases. *)
Theorem ksyscall_proc_get_pid_and_name k buf :
  (active_proc k = None ->
   ksyscall_proc_get_pid k = Ok (-1, k) /\
   ksyscall_proc_get_name buf k = Ok (-1, k)) /\
  (forall a p,
      active_proc k = Some a -> proc_table k !! a = Some p ->
      ksyscall_proc_get_pid k = Ok (pid p, k) /\
      (buf = 0 -> ksyscall_proc_get_name buf k = Ok (-1, k)) /\
      (buf <> 0 ->
       exists k',
         ksyscall_proc_get_name buf k = Ok (0, k') /\
         proc_table k' = proc_table k /\
         active_proc k' = active_proc k /\
         (forall j b, strncpy (name p) PROC_NAME_LEN !! j = Some b ->
                      memory k' (buf + Z.of_nat j) = b) /\
         (forall addr, addr < buf \/ buf + Z.of_nat PROC_NAME_LEN <= addr ->
                       memory k' addr = memory k addr))).
Proof.
  split.
  - intros Ha. unfold ksyscall_proc_get_pid, ksyscall_proc_get_name.
    by rewrite Ha.
  - intros a p Ha Hp.
    unfold ksyscall_proc_get_pid, ksyscall_proc_get_name, load.
    rewrite Ha, Hp. simpl. split_and!; [done|by intros ->|].
    intros Hbuf. destruct (Z.eqb_spec buf 0) as [|_]; [done|].
    eexists. split; [done|]. simpl. split_and!; [done|done| |].
    + intros j b Hb. by apply store_bytes_inside.
    + intros addr Haddr. apply store_bytes_outside.
      by rewrite strncpy_length.
Qed.

(** ** Supporting facts on sleep, creation and removal *)

Lemma sleep_sweep_done fuel current_time i k :
  queue_size (sleep_queue k) <= i ->
  sleep_sweep fuel current_time i k = Ok k.
Proof.
  intros Hle. destruct fuel; simpl;
    destruct (Z.ltb_spec i (queue_size (sleep_queue k))); try lia; reflexivity.
Qed.

(** A process that [scheduler_sleep] put to sleep has a null
    back-reference, whatever it was before. *)
Lemma scheduler_sleep_back_reference i time k k' :
  scheduler_sleep (Some i) time k = Ok k' ->
  exists p', proc_table k' !! i = Some p' /\
             state p' = SLEEPING /\ scheduler_queue p' = None.
Proof.
  unfold scheduler_sleep. intros Hok.
  apply bind_Ok in Hok as (p & Hp & Hok). apply load_Ok in Hp.
  set (p1 := set_sleep_time _ p) in Hok. set (k1 := store i p1 k) in Hok.
  assert (Hp1 : proc_table k1 !! i = Some p1) by by eapply lookup_store_same.
  apply bind_Ok in Hok as (p1' & Hp1' & Hok). apply load_Ok in Hp1'.
  assert (p1' = p1) as -> by congruence.
  set (p2 := set_state SLEEPING p1) in Hok. set (k2 := store i p2 k1) in Hok.
  assert (Hp2 : proc_table k2 !! i = Some p2) by by eapply lookup_store_same.
  apply bind_Ok in Hok as (k3 & Hrem & Hok).
  apply bind_Ok in Hok as (p3 & Hp3 & Hok). apply load_Ok in Hp3.
  injection Hok as <-. exists p3. split; [done|].
  destruct (scheduler_queue p2) as [qid|] eqn:Hq.
  - unfold scheduler_remove, load in Hrem. rewrite Hp2 in Hrem.
    cbn [bind] in Hrem. rewrite Hq in Hrem.
    apply bind_Ok in Hrem as (k3' & Hloop & Hrem).
    apply bind_Ok in Hloop as (q' & _ & Hk3'). injection Hk3' as <-.
    assert (Hp3' : proc_table k3 !! i = Some (set_scheduler_queue None p2)).
    { destruct (bool_decide _); injection Hrem as <-;
        destruct qid; (eapply lookup_store_same; exact Hp2). }
    assert (p3 = set_scheduler_queue None p2) as -> by congruence.
    done.
  - rewrite (scheduler_remove_no_queue i k2 p2 Hp2 Hq) in Hrem.
    injection Hrem as <-.
    rewrite (proj1 (forget_active_proj i k2)) in Hp3.
    assert (p3 = p2) as -> by congruence. done.
Qed.

(** Where the pid sought is not the last entry of the run queue,
    [scheduler_remove] moves the last entry to the front. *)
Lemma scheduler_remove_moves_last_to_front i k p (l1 l2 : list Z) z :
  proc_table k !! i = Some p ->
  scheduler_queue p = Some RUN_QUEUE ->
  items (run_queue k) = l1 ++ pid p :: l2 ++ [z] ->
  pid p ∉ l1 -> pid p ∉ l2 ++ [z] ->
  queue_size (run_queue k) <= QUEUE_SIZE ->
  exists k', scheduler_remove (Some i) k = Ok k' /\
             items (run_queue k') = z :: l1 ++ l2.
Proof.
  intros Hp Hq Hitems Hl1 Hl2 Hcap.
  assert (Hloop : remove_loop (length (items (get_queue RUN_QUEUE k)))
                              (pid p) 0 (get_queue RUN_QUEUE k)
                  = Ok (mkQueue (z :: l1 ++ l2))).
  { simpl. rewrite <- (queue_eta (run_queue k)) at 2. rewrite Hitems.
    rewrite remove_loop_spec; [|done|done|].
    - destruct (l2 ++ [z]) as [|y l] eqn:Hl; [by destruct l2|].
      rewrite <- Hl, length_app. simpl.
      replace (pred (length l2 + 1)) with (length l2) by lia.
      rewrite drop_app_length, take_app_length. done.
    - unfold queue_size in Hcap. by rewrite Hitems in Hcap. }
  eexists. split; [by apply (scheduler_remove_queue i k p)|].
  by rewrite (proj1 (proj2 (forget_active_proj _ _))).
Qed.

(** Of two sleepers, the first one due: the sweep wakes it and ends
    without a look at the second, whatever its deadline. *)
Lemma sleep_sweep_stops_after_wake current_time k v1 v2 i1 p1 :
  items (sleep_queue k) = [v1; v2] ->
  pid_to_proc v1 k = Some i1 ->
  proc_table k !! i1 = Some p1 ->
  sleep_time p1 <= current_time ->
  queue_size (run_queue k) < QUEUE_SIZE ->
  exists k',
    sleep_sweep (Z.to_nat (queue_size (sleep_queue k))) current_time 0 k
    = Ok k' /\
    items (sleep_queue k') = [v2] /\
    items (run_queue k') = items (run_queue k) ++ [pid p1].
Proof.
  intros Hitems Hv1 Hp1 Hdue Hroom.
  unfold queue_size at 1. rewrite Hitems.
  change (Z.to_nat (Z.of_nat (length [v1; v2]))) with 2%nat.
  cbn [sleep_sweep]. unfold queue_size at 1. rewrite Hitems.
  change (0 <? Z.of_nat (length [v1; v2])) with true. cbn iota.
  unfold queue_out. rewrite Hitems.
  set (k1 := set_sleep_queue (mkQueue [v2]) k).
  change (pid_to_proc v1 k1) with (pid_to_proc v1 k). rewrite Hv1.
  unfold load at 1. change (proc_table k1) with (proc_table k).
  rewrite Hp1. cbn [bind].
  destruct (Z.geb_spec current_time (sleep_time p1)) as [_|]; [|lia].
  rewrite (scheduler_add_Ok i1 k1 p1 Hp1 Hroom). cbn [bind].
  eexists. split; [simpl; reflexivity|]. split; reflexivity.
Qed.

Lemma scheduler_add_Ok_inv i k k' :
  scheduler_add (Some i) k = Ok k' ->
  exists p, proc_table k !! i = Some p /\
            items (run_queue k') = items (run_queue k) ++ [pid p] /\
            proc_table k' =
              <[i := set_cpu_time 0
                       (set_state IDLE
                          (set_scheduler_queue (Some RUN_QUEUE) p))]>
                (proc_table k).
Proof.
  unfold scheduler_add. intros Hok.
  apply bind_Ok in Hok as (p & Hp & Hok). apply load_Ok in Hp.
  exists p. split; [done|]. simpl in Hok.
  unfold queue_in, queue_in_cap in Hok.
  destruct (_ <? _); [|done]. by injection Hok as <-.
Qed.

(** A successful [kproc_create] hands the new pid to the run queue. *)
Lemma kproc_create_Ok_inv proc_ptr proc_name proc_type k rc k' :
  kproc_create proc_ptr proc_name proc_type k = Ok (rc, k') ->
  (queue_out (proc_allocator k) = None /\ rc = -1) \/
  (rc = next_pid k /\
   items (run_queue k') = items (run_queue k) ++ [next_pid k]).
Proof.
  unfold kproc_create.
  destruct (queue_out (proc_allocator k)) as [[entry alloc]|];
    [|intros [= <- _]; by left].
  destruct (entry <? 0); [done|].
  intros Hok. apply bind_Ok in Hok as (p & Hp & Hok). apply load_Ok in Hp.
  destruct (proc_trapframe _ !! _) as [tf|]; [|done].
  apply bind_Ok in Hok as (k3 & Hadd & Hok).
  apply bind_Ok in Hok as (p3 & Hp3 & Hok). apply load_Ok in Hp3.
  injection Hok as <- <-. right.
  assert (Hlt : (Z.to_nat entry < length (proc_table k))%nat)
    by (by eapply lookup_lt_Some).
  apply scheduler_add_Ok_inv in Hadd as (q & Hq & Hrun & Htab).
  cbn [proc_table set_proc_trapframe set_next_pid store set_proc_table
       set_proc_allocator] in Hq.
  rewrite list_lookup_insert_eq in Hq by done. injection Hq as <-.
  rewrite Htab in Hp3.
  cbn [proc_table set_proc_trapframe set_next_pid store set_proc_table
       set_proc_allocator] in Hp3.
  rewrite list_lookup_insert_eq in Hp3 by (by rewrite length_insert).
  injection Hp3 as <-. split; [done|exact Hrun].
Qed.

(** Whatever the constants, the run queue holds pid 0 when initialisation
    is over. *)
Lemma boot_run_queue mem k : boot mem = Ok k -> items (run_queue k) = [0].
Proof.
  unfold boot, kproc_init. intros Hok.
  apply bind_Ok in Hok as ([rc k4] & Hc & Hok).
  destruct (Z.eqb_spec rc (-1)) as [->|Hrc]; [done|]. injection Hok as <-.
  apply kproc_create_Ok_inv in Hc as [[_ ->]|[_ Hrun]]; [done|].
  exact Hrun.
Qed.

(** ** The scheduling invariant *)

(** C1.  From a reachable state in which the idle process is live, a call
    of [scheduler_run] either halts the kernel through [kernel_panic] or
    returns in a state where exactly one PCB is [ACTIVE] and [active_proc]
    points to it.  It returns whenever the pids in the queues are live and
    the queues have room; and with nothing active and both queues empty,
    the process it makes active is the idle process. *)
Theorem scheduler_run_exactly_one_active k :
  reachable k -> live 0 k ->
  match scheduler_run k with
  | Ok k' => exactly_one_active k'
  | Panic _ => True
  | Stuck => False
  end /\
  (queues_live k -> queues_fit k -> exists k', scheduler_run k = Ok k') /\
  (active_proc k = None ->
   items (run_queue k) = [] -> items (sleep_queue k) = [] ->
   exists k' a p,
     scheduler_run k = Ok k' /\ active_proc k' = Some a /\
     proc_table k' !! a = Some p /\ pid p = 0 /\ state p = ACTIVE).
Proof.
  intros Hreach Hidle.
  pose proof (reachable_inv k Hreach) as Hinv.
  split; [exact (scheduler_run_wp k Hinv)|]. split.
  - intros Hlive Hfit. apply scheduler_run_returns; [apply Hinv|done..].
  - intros Hact Hrun Hsleep.
    destruct (pid_to_proc_live 0 k Hidle) as (a & p & Ha & Hp & Hpid & _).
    exists (store a (set_state ACTIVE p) (set_active_proc (Some a) k)),
           a, (set_state ACTIVE p).
    split_and!; [|done| |done..].
    + unfold scheduler_run, scheduler_run_unschedule.
      rewrite Hact. cbn [bind]. rewrite Hact. cbn [bind].
      unfold scheduler_run_schedule. rewrite Hact.
      unfold queue_is_empty, queue_out. rewrite Hsleep.
      cbn [negb bind]. rewrite Hrun.
      cbn [bind active_proc set_active_proc]. rewrite Ha.
      unfold load. cbn [proc_table set_active_proc]. rewrite Hp. done.
    + by eapply lookup_store_same.
Qed.
End Proofs.

(** * Executions of the small configuration *)

Section ScenarioProofs.
#[local] Existing Instance sample_config.

Lemma after_reachable evs :
  is_ok (run_from_boot evs) = true -> reachable (after evs).
Proof.
  unfold after, run_from_boot.
  destruct (boot mem0) as [k0| |] eqn:Hboot; [|done..]. simpl.
  destruct (run_events evs k0) as [k| |] eqn:Hrun; [|done..]. intros _.
  eapply run_events_reachable; [|exact Hrun]. by eapply reachable_boot.
Qed.

(** The state in which A has just gone to sleep: B is in the run queue,
    nothing is active, and the call schedules B. *)
Lemma scheduler_run_exactly_one_active_witness :
  reachable A_sleeping /\ live 0 A_sleeping /\
  queues_live A_sleeping /\ queues_fit A_sleeping /\
  exists k', scheduler_run A_sleeping = Ok k' /\ exactly_one_active k'.
Proof.
  assert (Hr : reachable A_sleeping)
    by (apply after_reachable; vm_compute; reflexivity).
  assert (Hlive : forall v i, (v = 0 /\ i = 0%nat) \/ (v = 1 /\ i = 1%nat) \/
                              (v = 2 /\ i = 2%nat) -> live v A_sleeping).
  { intros v i Hvi. exists i.
    destruct Hvi as [[-> ->]|[[-> ->]|[-> ->]]];
      (eexists; split; [vm_compute; reflexivity|];
       split; [reflexivity|discriminate]). }
  assert (Hl : live 0 A_sleeping)
    by (apply (Hlive 0 0%nat); left; split; reflexivity).
  assert (Hitems : items (run_queue A_sleeping) ++
                   items (sleep_queue A_sleeping) = [2; 1])
    by (vm_compute; reflexivity).
  assert (Hq : queues_live A_sleeping).
  { intros v Hv. rewrite Hitems in Hv. clear Hitems.
    apply elem_of_cons in Hv as [Hv|Hv].
    - apply (Hlive v 2%nat). right. right. split; [exact Hv|reflexivity].
    - apply list_elem_of_singleton in Hv.
      apply (Hlive v 1%nat). right. left. split; [exact Hv|reflexivity]. }
  clear Hitems Hlive.
  assert (Hf : queues_fit A_sleeping) by (vm_compute; discriminate).
  destruct (scheduler_run_exactly_one_active A_sleeping Hr Hl)
    as (Hone & Hret & _).
  destruct (Hret Hq Hf) as [k' Hk'].
  rewrite Hk' in Hone.
  split; [exact Hr|]. split; [exact Hl|]. split; [exact Hq|].
  split; [exact Hf|]. exists k'. split; [exact Hk'|exact Hone].
Defined.

(** ** Removal from a queue *)

(** C2.  With idle and three processes in the run queue, removing the
    process of pid 1 leaves the queue [3; 0; 2]: the entries that were
    behind it no longer follow pid 0, and pid 3 has overtaken both. *)
Theorem scheduler_remove_reorders_queue :
  reachable three_created /\
  items (run_queue three_created) = [0; 1; 2; 3] /\
  (exists p, proc_table three_created !! 1%nat = Some p /\ pid p = 1 /\
             scheduler_queue p = Some RUN_QUEUE) /\
  exists k', scheduler_remove (Some 1%nat) three_created = Ok k' /\
             items (run_queue k') = [3; 0; 2].
Proof.
  split; [apply after_reachable; vm_compute; reflexivity|].
  split; [vm_compute; reflexivity|]. split.
  - eexists. split; [vm_compute; reflexivity|]. split; reflexivity.
  - eexists. split; vm_compute; reflexivity.
Qed.

(** ** The sweep of the sleep queue *)

(** C3.  Two sleepers are due at tick 101 and nothing else is runnable.  The
    call of [scheduler_run] at tick 101 wakes the sleeper of pid 1 and ends
    its sweep there: pid 2 is not looked at and stays in the sleep queue,
    [SLEEPING], its deadline reached. *)
Theorem sleep_sweep_skips_due_sleeper :
  reachable both_due /\
  ticks both_due = 101 /\
  items (sleep_queue both_due) = [1; 2] /\
  (exists p1 p2, proc_table both_due !! 1%nat = Some p1 /\
                 proc_table both_due !! 2%nat = Some p2 /\
                 pid p1 = 1 /\ pid p2 = 2 /\
                 sleep_time p1 = 101 /\ sleep_time p2 = 101) /\
  exists k' p2',
    scheduler_run both_due = Ok k' /\
    items (sleep_queue k') = [2] /\
    items (run_queue k') = [] /\
    active_proc k' = Some 1%nat /\
    proc_table k' !! 2%nat = Some p2' /\
    state p2' = SLEEPING /\ sleep_time p2' <= ticks k'.
Proof.
  split; [apply after_reachable; vm_compute; reflexivity|].
  split; [vm_compute; reflexivity|]. split; [vm_compute; reflexivity|]. split.
  - eexists _, _. split; [vm_compute; reflexivity|].
    split; [vm_compute; reflexivity|]. split_and!; reflexivity.
  - eexists _, _. split; [vm_compute; reflexivity|].
    split; [reflexivity|]. split; [reflexivity|]. split; [reflexivity|].
    split; [vm_compute; reflexivity|]. split; [reflexivity|].
    vm_compute. discriminate.
Qed.

(** ** Queues and back-references *)

(** C4.  After the active process of pid 1 went to sleep, its pid is in the
    sleep queue and its back-reference is null; [scheduler_remove] then
    leaves the pid in the sleep queue.  So does [kproc_destroy], and the
    call of [scheduler_run] that follows finds a pid without a process in
    the sleep queue and halts the kernel. *)
Theorem scheduler_sleep_loses_back_reference :
  reachable A_sleeping /\
  items (sleep_queue A_sleeping) = [1] /\
  (exists p, proc_table A_sleeping !! 1%nat = Some p /\ pid p = 1 /\
             state p = SLEEPING /\ scheduler_queue p = None) /\
  (exists k', scheduler_remove (Some 1%nat) A_sleeping = Ok k' /\
              items (sleep_queue k') = [1]) /\
  reachable A_destroyed_asleep /\
  items (sleep_queue A_destroyed_asleep) = [1] /\
  scheduler_run A_destroyed_asleep = Panic "Invalid process in sleep queue".
Proof.
  split; [apply after_reachable; vm_compute; reflexivity|].
  split; [vm_compute; reflexivity|]. split.
  { eexists. split; [vm_compute; reflexivity|]. split_and!; reflexivity. }
  split.
  { eexists. split; vm_compute; reflexivity. }
  split; [apply after_reachable; vm_compute; reflexivity|].
  split; vm_compute; reflexivity.
Qed.

(** ** The idle process *)

(** C5.  Initialisation creates the idle process through [kproc_create],
    which hands it to [scheduler_add]: the run queue holds pid 0 when
    [kproc_init] returns, and [0; 1; 2] after two more processes were
    created. *)
Theorem kproc_init_enqueues_idle :
  (forall mem, exists k p,
      boot mem = Ok k /\ items (run_queue k) = [0] /\
      proc_table k !! 0%nat = Some p /\ pid p = 0 /\
      scheduler_queue p = Some RUN_QUEUE) /\
  items (run_queue (after [create_A; create_B])) = [0; 1; 2].
Proof.
  split; [|vm_compute; reflexivity].
  intros mem. eexists _, _. split; [vm_compute; reflexivity|].
  split; [reflexivity|]. split; [vm_compute; reflexivity|].
  split; reflexivity.
Qed.

(** ** Add, then remove; sleep on a full queue *)

(** A is active and B is in the run queue: adding A and removing it again
    leaves [2]. *)
Lemma scheduler_add_remove_restores_run_queue_witness :
  (exists p, proc_table A_active !! 1%nat = Some p /\
             (pid p ∉ items (run_queue A_active)) /\
             queue_size (run_queue A_active) < QUEUE_SIZE) /\
  exists k1 k2,
    scheduler_add (Some 1%nat) A_active = Ok k1 /\
    items (run_queue k1) = [2; 1] /\
    scheduler_remove (Some 1%nat) k1 = Ok k2 /\
    items (run_queue k2) = [2].
Proof.
  assert (Hp : exists p, proc_table A_active !! 1%nat = Some p /\ pid p = 1)
    by (eexists; split; [vm_compute; reflexivity|reflexivity]).
  destruct Hp as (p & Hp & Hpid).
  assert (Hrun : items (run_queue A_active) = [2]) by (vm_compute; reflexivity).
  assert (Hnotin : pid p ∉ items (run_queue A_active)).
  { rewrite Hpid, Hrun. intros Hin.
    apply list_elem_of_singleton in Hin. discriminate. }
  assert (Hroom : queue_size (run_queue A_active) < QUEUE_SIZE)
    by (vm_compute; reflexivity).
  split; [exists p; split; [exact Hp|]; split; [exact Hnotin|exact Hroom]|].
  destruct (proj1 (scheduler_add_remove_restores_run_queue 1 A_active p
                     Hp Hnotin) Hroom) as (k1 & k2 & Hadd & Hk1 & Hrem & Hk2).
  exists k1, k2. split; [exact Hadd|].
  split; [rewrite Hk1, Hrun, Hpid; reflexivity|].
  split; [exact Hrem|]. rewrite Hk2. exact Hrun.
Defined.

(** A is active, the sleep queue holds four other pids: [scheduler_sleep]
    of A returns and pid 1 is in no queue. *)
Lemma scheduler_sleep_drops_pid_when_full_witness :
  (exists p, proc_table sleep_queue_full !! 1%nat = Some p /\ pid p = 1) /\
  items (sleep_queue sleep_queue_full) = [5; 6; 7; 8] /\
  items (run_queue sleep_queue_full) = [2] /\
  exists k' p',
    scheduler_sleep (Some 1%nat) 5 sleep_queue_full = Ok k' /\
    items (sleep_queue k') = [5; 6; 7; 8] /\
    proc_table k' !! 1%nat = Some p' /\
    state p' = SLEEPING /\
    (1 ∉ items (run_queue k')) /\ (1 ∉ [5; 6; 7; 8]).
Proof.
  assert (Hp : exists p, proc_table sleep_queue_full !! 1%nat = Some p /\
                         pid p = 1)
    by (eexists; split; [vm_compute; reflexivity|reflexivity]).
  assert (Hsleep : items (sleep_queue sleep_queue_full) = [5; 6; 7; 8])
    by reflexivity.
  assert (Hrun : items (run_queue sleep_queue_full) = [2])
    by (vm_compute; reflexivity).
  split; [exact Hp|]. split; [exact Hsleep|]. split; [exact Hrun|].
  destruct Hp as (p & Hp & Hpid).
  assert (H1 : queue_size (sleep_queue sleep_queue_full) = QUEUE_SIZE)
    by reflexivity.
  assert (H2 : pid p ∉ items (sleep_queue sleep_queue_full)).
  { rewrite Hpid, Hsleep. intros Hin.
    repeat (apply elem_of_cons in Hin as [Hin|Hin]; [discriminate|]).
    by apply elem_of_nil in Hin. }
  assert (H3 : NoDup (items (run_queue sleep_queue_full)))
    by (rewrite Hrun; apply NoDup_singleton).
  assert (H4 : queue_size (run_queue sleep_queue_full) <= QUEUE_SIZE)
    by (unfold queue_size; rewrite Hrun; vm_compute; discriminate).
  assert (H5 : pid p ∈ items (run_queue sleep_queue_full) ->
               scheduler_queue p = Some RUN_QUEUE).
  { rewrite Hpid, Hrun. intros Hin.
    apply list_elem_of_singleton in Hin. discriminate. }
  destruct (scheduler_sleep_drops_pid_when_full 1 5 sleep_queue_full p
              Hp H1 H2 H3 H4 H5)
    as [(k' & p' & Hok & Hs & Hp' & _ & Hst & _ & _ & Hr & Hsl) _].
  exists k', p'. rewrite Hs, Hsleep. rewrite Hpid in Hr, Hsl.
  split; [exact Hok|]. split; [reflexivity|]. split; [exact Hp'|].
  split; [exact Hst|]. split; [exact Hr|].
  rewrite Hs, Hsleep in Hsl. exact Hsl.
Defined.

(** ** The dispatcher *)

(** C6.  Process A is active.  With one of the identifiers 4, 5, 7, 8, 9
    in its saved [eax] the dispatcher returns; with any other, the
    identifier of SLEEP or of an I/O operation included, the kernel halts:
    [ksyscall_proc_sleep] and the three [ksyscall_io_] handlers are never
    called by it.  And the result of PROC_EXIT does not go to the caller's
    frame: when A exits while B's frame holds 2 in [eax], the dispatcher
    leaves the 7 in A's frame and overwrites B's 2 with 0. *)
Theorem dispatcher_rejects_sleep_and_io :
  reachable A_active /\
  active_proc A_active = Some 1%nat /\
  Forall (fun id => is_ok (step (EvTrap id 0) A_active) = true)
         [4; 5; 7; 8; 9] /\
  (forall id ebx',
      id <> 4 -> id <> 5 -> id <> 7 -> id <> 8 -> id <> 9 ->
      0 <= id < 2 ^ 32 ->
      step (EvTrap id ebx') A_active = Panic "Invalid system call %d!") /\
  reachable B_waits_for_result /\
  active_proc B_waits_for_result = Some 1%nat /\
  eax <$> proc_trapframe B_waits_for_result = [0; 0; 2; 0] /\
  exists k',
    step (EvTrap 7 0) B_waits_for_result = Ok k' /\
    active_proc k' = Some 2%nat /\
    eax <$> proc_trapframe k' = [0; 7; 0; 0].
Proof.
  split; [apply after_reachable; vm_compute; reflexivity|].
  split; [vm_compute; reflexivity|]. split.
  { repeat (constructor; [vm_compute; reflexivity|]). constructor. }
  split.
  { intros id ebx' H4 H5 H7 H8 H9 Hid.
    assert (Hx : uint_wrap id = id) by (unfold uint_wrap; by apply Z.mod_small).
    assert (Hp : exists p, proc_table A_active !! 1%nat = Some p /\
                           trapframe p = Some 1%nat)
      by (eexists; split; [vm_compute; reflexivity|reflexivity]).
    destruct Hp as (p & Hp & He).
    assert (Htf : exists tf, proc_trapframe A_active !! 1%nat = Some tf)
      by (eexists; vm_compute; reflexivity).
    destruct Htf as (tf & Htf).
    apply (trap_unknown_identifier id ebx' A_active 1%nat p 1%nat tf);
      [vm_compute; reflexivity|exact Hp|exact He|exact Htf|..];
      rewrite Hx; assumption. }
  split; [apply after_reachable; vm_compute; reflexivity|].
  split; [vm_compute; reflexivity|]. split; [vm_compute; reflexivity|].
  eexists. split; [vm_compute; reflexivity|]. split; vm_compute; reflexivity.
Qed.

(** ** Destruction *)

(** C7.  Process A is destroyed while the bytes of its stack are in use.
    [kproc_destroy] returns 0, the PCB is cleared and slot 1 is back in the
    allocator; the eight bytes of [proc_stack[1]] are as they were.  The
    pointer the PCB held before it was cleared is no better a destination:
    it is the address of the byte after [proc_stack[1]]. *)
Theorem kproc_destroy_leaves_stack_bytes :
  stack_region 1 A_stack_used = replicate 8 170 /\
  (exists p, proc_table A_stack_used !! 1%nat = Some p /\
             pid p = 1 /\ state p = ACTIVE /\ stack p = Some 16 /\
             stack_region 1 (memset_stack (stack p) PROC_STACK_SIZE
                                          A_stack_used)
             = replicate 8 170) /\
  exists k',
    kproc_destroy (Some 1%nat) A_stack_used = Ok (0, k') /\
    proc_table k' !! 1%nat = Some proc_zero /\
    active_proc k' = None /\
    items (proc_allocator k') = [3; 1] /\
    stack_region 1 k' = replicate 8 170.
Proof.
  split; [vm_compute; reflexivity|]. split.
  - eexists. split; [vm_compute; reflexivity|].
    split_and!; [reflexivity..|vm_compute; reflexivity].
  - eexists. split; [vm_compute; reflexivity|].
    split_and!; vm_compute; reflexivity.
Qed.

(** ** PROC_GET_PID and PROC_GET_NAME *)

(** C8, as stated, fails: with process A active and a null buffer pointer,
    PROC_GET_NAME returns -1. *)
Lemma ksyscall_proc_get_name_null_buffer :
  active_proc A_active = Some 1%nat /\
  ksyscall_proc_get_name 0 A_active = Ok (-1, A_active).
Proof. split; vm_compute; reflexivity. Qed.

(** With A active, PROC_GET_PID returns 1 and PROC_GET_NAME stores the
    eight bytes of A's name at the buffer, here at address 5000. *)
Lemma ksyscall_proc_get_pid_and_name_witness :
  active_proc A_active = Some 1%nat /\
  ksyscall_proc_get_pid A_active = Ok (1, A_active) /\
  exists k',
    ksyscall_proc_get_name 5000 A_active = Ok (0, k') /\
    proc_table k' = proc_table A_active /\
    map (memory k') [5000; 5001; 5002; 5003; 5004; 5005; 5006; 5007; 5008]
    = [65; 0; 0; 0; 0; 0; 0; 0; 0].
Proof.
  assert (Ha : active_proc A_active = Some 1%nat) by (vm_compute; reflexivity).
  assert (Hp : exists p, proc_table A_active !! 1%nat = Some p /\ pid p = 1 /\
                         name p = [65; 0; 0; 0; 0; 0; 0; 0])
    by (eexists; split; [vm_compute; reflexivity|split; reflexivity]).
  destruct Hp as (p & Hp & Hpid & Hname).
  destruct (proj2 (ksyscall_proc_get_pid_and_name A_active 5000) 1%nat p Ha Hp)
    as (Hgetpid & _ & Hgetname).
  destruct Hgetname as (k' & Hok & Ht & _ & Hin & Hout); [discriminate|].
  split; [exact Ha|]. split; [rewrite Hgetpid, Hpid; reflexivity|].
  exists k'. split; [exact Hok|]. split; [exact Ht|].
  rewrite Hname in Hin.
  assert (H0 : memory k' 5000 = 65) by exact (Hin 0%nat 65 eq_refl).
  assert (H1 : memory k' 5001 = 0) by exact (Hin 1%nat 0 eq_refl).
  assert (H2 : memory k' 5002 = 0) by exact (Hin 2%nat 0 eq_refl).
  assert (H3 : memory k' 5003 = 0) by exact (Hin 3%nat 0 eq_refl).
  assert (H4 : memory k' 5004 = 0) by exact (Hin 4%nat 0 eq_refl).
  assert (H5 : memory k' 5005 = 0) by exact (Hin 5%nat 0 eq_refl).
  assert (H6 : memory k' 5006 = 0) by exact (Hin 6%nat 0 eq_refl).
  assert (H7 : memory k' 5007 = 0) by exact (Hin 7%nat 0 eq_refl).
  assert (H8 : memory k' 5008 = 0).
  { rewrite (Hout 5008) by (right; vm_compute; discriminate).
    vm_compute. reflexivity. }
  cbn [map]. rewrite H0, H1, H2, H3, H4, H5, H6, H7, H8. reflexivity.
Defined.

End ScenarioProofs.

(** * The rest of process management, the scheduler and the system calls *)

Section MoreProofs.
Context `{Config}.
#[local] Arguments scheduler_add : simpl never.

Lemma pid_to_proc_from_first tbl pid' :
  forall n i, pid_to_proc_from n tbl pid' = Some i ->
    forall j q, (j < i - n)%nat -> tbl !! j = Some q ->
                pid_matches pid' q = false.
Proof.
  induction tbl as [|p tbl IH]; intros n i; simpl; [done|].
  destruct (pid_matches pid' p) eqn:Hm.
  - intros [= <-] j q Hj. lia.
  - intros Hi j q Hj Hq. destruct j as [|j]; simpl in Hq.
    + by injection Hq as <-.
    + apply (IH (S n) i Hi j q); [|done].
      apply pid_to_proc_from_Some in Hi as [Hle _]. lia.
Qed.

Lemma pid_to_proc_from_None tbl pid' :
  forall n, pid_to_proc_from n tbl pid' = None ->
    forall j q, tbl !! j = Some q -> pid_matches pid' q = false.
Proof.
  induction tbl as [|p tbl IH]; intros n; simpl; [done|].
  destruct (pid_matches pid' p) eqn:Hm; [done|].
  intros Hn j q Hq. destruct j as [|j]; simpl in Hq.
  - by injection Hq as <-.
  - by eapply IH.
Qed.

Lemma pid_matches_false pid' q :
  pid_matches pid' q = false -> pid q <> pid' \/ state q = NONE.
Proof.
  unfold pid_matches. intros Hm. apply andb_false_iff in Hm as [Hm|Hm].
  - left. lia.
  - right. apply negb_false_iff, bool_decide_eq_true in Hm. done.
Qed.

(** X1: [pid_to_proc] returns the first slot, in table order, whose pid
    is the one asked for and whose state is not [NONE]: every slot before
    it has another pid or is unused.  It returns the null pointer exactly
    when no slot of the table qualifies. *)
Theorem pid_to_proc_first_live_match pid' k :
  match pid_to_proc pid' k with
  | Some i =>
      exists p, proc_table k !! i = Some p /\ pid p = pid' /\ state p <> NONE /\
                forall j q, (j < i)%nat -> proc_table k !! j = Some q ->
                            pid q <> pid' \/ state q = NONE
  | None =>
      forall j q, proc_table k !! j = Some q -> pid q <> pid' \/ state q = NONE
  end.
Proof.
  destruct (pid_to_proc pid' k) as [i|] eqn:Hi.
  - destruct (pid_to_proc_Some pid' k i Hi) as (p & Hp & Hpid & Hst).
    exists p. split_and!; try done.
    intros j q Hj Hq. apply pid_matches_false.
    apply (pid_to_proc_from_first (proc_table k) pid' 0 i Hi j q); [lia|done].
  - intros j q Hq. apply pid_matches_false.
    by apply (pid_to_proc_from_None (proc_table k) pid' 0 Hi j q).
Qed.

(** X2: [entry_to_proc] and [proc_to_entry] are inverse to each other on
    the slots in use: [entry_to_proc entry] is the slot [i] exactly when
    [proc_to_entry i] is [entry], [i] is below [PROC_MAX] and the PCB of
    slot [i] is not in state [NONE]. *)
Theorem entry_to_proc_iff entry k i :
  entry_to_proc entry k = Some i <->
  proc_to_entry i = entry /\ (i < PROC_MAX)%nat /\
  exists p, proc_table k !! i = Some p /\ state p <> NONE.
Proof.
  unfold entry_to_proc, proc_to_entry. split.
  - destruct (Z.leb_spec 0 entry); simpl; [|done].
    destruct (Z.ltb_spec entry (Z.of_nat PROC_MAX)); [|done].
    destruct (proc_table k !! Z.to_nat entry) as [p|] eqn:Hp; [|done].
    case_bool_decide as Hs; [done|]. intros [= <-].
    split_and!; [lia|lia|]. by exists p.
  - intros (<- & Hlt & p & Hp & Hs).
    destruct (Z.leb_spec 0 (Z.of_nat i)); [|lia]. simpl.
    destruct (Z.ltb_spec (Z.of_nat i) (Z.of_nat PROC_MAX)); [|lia].
    rewrite Nat2Z.id, Hp. by rewrite bool_decide_eq_false_2.
Qed.

Lemma proc_eta_state p s : state p = s -> set_state s p = p.
Proof. intros <-. by destruct p. Qed.

Lemma store_same i p k : proc_table k !! i = Some p -> store i p k = k.
Proof.
  intros Hp. unfold store. rewrite list_insert_id by done. by destruct k.
Qed.

(** X3: [scheduler_run] leaves the kernel as it is when the active
    process is [ACTIVE] and has not used up its time slice: no queue is
    touched, not even the sleep queue, and no process is woken. *)
Theorem scheduler_run_keeps_active k a p :
  active_proc k = Some a ->
  proc_table k !! a = Some p ->
  state p = ACTIVE ->
  cpu_time p < SCHEDULER_TIMESLICE ->
  scheduler_run k = Ok k.
Proof.
  intros Ha Hp Hs Hc.
  unfold scheduler_run, scheduler_run_unschedule, load.
  rewrite Ha, Hp. cbn [bind]. rewrite bool_decide_eq_true_2 by done.
  cbn [bind]. rewrite Ha, Hp. cbn [bind].
  destruct (Z.geb_spec (cpu_time p) SCHEDULER_TIMESLICE); [lia|].
  cbn [bind]. unfold scheduler_run_schedule. rewrite Ha. cbn [bind].
  rewrite Ha, Hp. cbn [bind].
  by rewrite proc_eta_state, store_same.
Qed.
Lemma same_process_refl p : same_process p p.
Proof. by repeat split. Qed.

Lemma same_process_trans p q r :
  same_process p q -> same_process q r -> same_process p r.
Proof.
  unfold same_process. intuition congruence.
Qed.

Lemma Forall2_same_process_refl (l : list proc_t) : Forall2 same_process l l.
Proof. induction l; constructor; auto using same_process_refl. Qed.

Lemma sched_frame_refl k : sched_frame k k.
Proof. repeat split. apply Forall2_same_process_refl. Qed.

Lemma sched_frame_trans k1 k2 k3 :
  sched_frame k1 k2 -> sched_frame k2 k3 -> sched_frame k1 k3.
Proof.
  intros (?&?&?&?&?&?&H12) (?&?&?&?&?&?&H23).
  repeat split; try congruence.
  eapply Forall2_trans; [|exact H12|exact H23].
  apply same_process_trans.
Qed.

Lemma sched_frame_store i p q k :
  proc_table k !! i = Some p -> same_process p q ->
  sched_frame k (store i q k).
Proof.
  intros Hp Hpq. repeat split. unfold store. simpl.
  apply Forall2_same_length_lookup_2; [by rewrite length_insert|].
  intros j x y Hx Hy. destruct (decide (j = i)) as [->|Hne].
  - rewrite list_lookup_insert_eq in Hy by by eapply lookup_lt_Some.
    congruence.
  - rewrite list_lookup_insert_ne in Hy by done.
    rewrite Hx in Hy. injection Hy as <-. apply same_process_refl.
Qed.

Lemma sched_frame_lookup k k' i p :
  sched_frame k k' -> proc_table k !! i = Some p ->
  exists q, proc_table k' !! i = Some q /\ same_process p q.
Proof.
  intros (_&_&_&_&_&_&HF) Hp.
  destruct (Forall2_lookup_l _ _ _ _ _ HF Hp) as (q & Hq & Hpq). eauto.
Qed.

Lemma sched_frame_lookup_r k k' i q :
  sched_frame k k' -> proc_table k' !! i = Some q ->
  exists p, proc_table k !! i = Some p /\ same_process p q.
Proof.
  intros (_&_&_&_&_&_&HF) Hq.
  destruct (Forall2_lookup_r _ _ _ _ _ HF Hq) as (p & Hp & Hpq). eauto.
Qed.

Lemma pid_matches_same pid' p q :
  same_process p q -> pid_matches pid' q = pid_matches pid' p.
Proof.
  intros (Hpid&_&_&_&_&_&_&Hst). unfold pid_matches. rewrite Hpid. f_equal.
  f_equal. apply bool_decide_ext. done.
Qed.

Lemma pid_to_proc_from_ext pid' (t1 : list proc_t) :
  forall (t2 : list proc_t) n,
    pid_matches pid' <$> t1 = pid_matches pid' <$> t2 ->
    pid_to_proc_from n t1 pid' = pid_to_proc_from n t2 pid'.
Proof.
  induction t1 as [|p t1 IH]; intros [|q t2] n Heq; try done.
  simpl in *. injection Heq as Hpq Heq. rewrite Hpq.
  destruct (pid_matches pid' q); [done|]. by apply IH.
Qed.

Lemma pid_to_proc_frame pid' k k' :
  sched_frame k k' -> pid_to_proc pid' k' = pid_to_proc pid' k.
Proof.
  intros (_&_&_&_&_&_&HF). unfold pid_to_proc.
  apply pid_to_proc_from_ext.
  induction HF as [|p q l l' Hpq _ IH]; [done|].
  rewrite !fmap_cons. by rewrite IH, (pid_matches_same pid' p q).
Qed.

Lemma scheduler_add_frame i k k' p :
  proc_table k !! i = Some p -> state p <> NONE ->
  scheduler_add (Some i) k = Ok k' ->
  sched_frame k k' /\ active_proc k' = active_proc k /\
  sleep_queue k' = sleep_queue k /\
  items (run_queue k') = items (run_queue k) ++ [pid p] /\
  exists q, proc_table k' !! i = Some q /\ state q = IDLE /\
            forall j, j <> i -> proc_table k' !! j = proc_table k !! j.
Proof.
  intros Hp Hs Hadd.
  destruct (Z.lt_ge_cases (queue_size (run_queue k)) QUEUE_SIZE) as [Hlt|Hge];
    [|by rewrite (scheduler_add_Panic i k p Hp Hge) in Hadd].
  rewrite (scheduler_add_Ok i k p Hp Hlt) in Hadd. injection Hadd as <-.
  split_and!; try done.
  - apply (sched_frame_trans _ (store i (set_cpu_time 0 (set_state IDLE
             (set_scheduler_queue (Some RUN_QUEUE) p))) k)).
    + apply (sched_frame_store i p); [done|].
      by repeat split.
    + repeat split. apply Forall2_same_process_refl.
  - eexists. split; [by eapply lookup_store_same|]. split; [done|].
    intros j Hj. unfold store. simpl. by rewrite list_lookup_insert_ne.
Qed.

Lemma sched_frame_queues k k' :
  proc_table k' = proc_table k -> proc_allocator k' = proc_allocator k ->
  next_pid k' = next_pid k -> proc_trapframe k' = proc_trapframe k ->
  proc_stack k' = proc_stack k -> ticks k' = ticks k ->
  memory k' = memory k -> sched_frame k k'.
Proof.
  intros Ht ? ? ? ? ? ?. repeat split; try done.
  rewrite Ht. apply Forall2_same_process_refl.
Qed.

Lemma scheduler_remove_frame i k k' :
  scheduler_remove (Some i) k = Ok k' ->
  sched_frame k k' /\ states k' = states k /\
  active_proc k' =
    (if bool_decide (active_proc k = Some i) then None else active_proc k).
Proof.
  unfold scheduler_remove. intros Hr.
  apply bind_Ok in Hr as (p & Hp%load_Ok & Hr).
  apply bind_Ok in Hr as (k1 & Hk1 & Hr).
  assert (sched_frame k k1 /\ states k1 = states k /\
          active_proc k1 = active_proc k) as (Hf & Hst & Ha).
  { destruct (scheduler_queue p) as [qid|];
      [|injection Hk1 as <-; split; [apply sched_frame_refl|done]].
    apply bind_Ok in Hk1 as (q' & _ & Hk1). injection Hk1 as <-.
    split; [|split; [|by destruct qid]].
    - apply (sched_frame_trans _ (set_queue qid q' k)).
      + by destruct qid; apply sched_frame_queues.
      + apply (sched_frame_store i p); [by destruct qid|by repeat split].
    - rewrite (states_store_same i p); by destruct qid. }
  rewrite Ha in Hr.
  case_bool_decide; injection Hr as <-; (split; [|done]); [|done].
  eapply sched_frame_trans; [exact Hf|]. by apply sched_frame_queues.
Qed.

Lemma sleep_sweep_effects current_time fuel :
  forall i k k',
    sleep_sweep fuel current_time i k = Ok k' ->
    sched_frame k k' /\ active_proc k' = active_proc k /\
    (exists sfx, items (run_queue k') = items (run_queue k) ++ sfx) /\
    (forall j, proc_table k' !! j = proc_table k !! j \/
               exists q, proc_table k' !! j = Some q /\ state q = IDLE).
Proof.
  induction fuel as [|fuel IH]; intros i k k' Hs; cbn [sleep_sweep] in Hs;
    (destruct (i <? queue_size (sleep_queue k));
     [|injection Hs as <-; split_and!;
       [apply sched_frame_refl|done|by exists []; rewrite app_nil_r|by left]]);
    [done|].
  destruct (queue_out (sleep_queue k)) as [[v q]|]; [|done].
  set (k1 := set_sleep_queue q k) in *.
  destruct (pid_to_proc v k1) as [j|] eqn:Hj; [|done].
  destruct (pid_to_proc_Some v k1 j Hj) as (p & Hp & Hpid & Hst).
  unfold load in Hs at 1. rewrite Hp in Hs. cbn [bind] in Hs.
  apply bind_Ok in Hs as (k2 & Hk2 & Hs).
  destruct (IH _ _ _ Hs) as (Hf & Ha & (sfx & Hrun) & Htab).
  assert (sched_frame k k2 /\ active_proc k2 = active_proc k /\
          (exists sfx, items (run_queue k2) = items (run_queue k) ++ sfx) /\
          (forall j, proc_table k2 !! j = proc_table k !! j \/
                     exists q, proc_table k2 !! j = Some q /\ state q = IDLE))
    as (Hf2 & Ha2 & (sfx2 & Hrun2) & Htab2).
  { destruct (current_time >=? sleep_time p).
    - destruct (scheduler_add_frame j k1 k2 p Hp Hst Hk2)
        as (Hfa & Haa & _ & Hra & q2 & Hq2 & Hq2s & Hother).
      split_and!; [| |by exists [pid p]|].
      + eapply sched_frame_trans; [|exact Hfa]. by apply sched_frame_queues.
      + done.
      + intros j'. destruct (decide (j' = j)) as [->|Hne].
        * right. by exists q2.
        * left. by rewrite Hother.
    - injection Hk2 as <-.
      split_and!; [by apply sched_frame_queues|done| |by left].
      exists []. by rewrite app_nil_r. }
  split_and!.
  - by eapply sched_frame_trans.
  - congruence.
  - exists (sfx2 ++ sfx). by rewrite Hrun, Hrun2, app_assoc.
  - intros j'. destruct (Htab j') as [Heq|Hidle]; [|by right].
    rewrite Heq. apply Htab2.
Qed.

Lemma scheduler_run_unschedule_frame k k1 :
  scheduler_run_unschedule k = Ok k1 ->
  sched_frame k k1 /\
  forall a, active_proc k1 = Some a ->
            exists p, proc_table k1 !! a = Some p /\ state p = ACTIVE.
Proof.
  unfold scheduler_run_unschedule. intros Hu.
  apply bind_Ok in Hu as (k0 & Hk0 & Hu).
  assert (sched_frame k k0 /\
          forall a, active_proc k0 = Some a ->
                    exists p, proc_table k0 !! a = Some p /\ state p = ACTIVE)
    as [Hf0 Ha0].
  { destruct (active_proc k) as [a|] eqn:Ha;
      [|injection Hk0 as <-; split; [apply sched_frame_refl|congruence]].
    apply bind_Ok in Hk0 as (p & Hp%load_Ok & Hk0).
    case_bool_decide as Hs; injection Hk0 as <-.
    - split; [apply sched_frame_refl|]. intros a' Ha'.
      rewrite Ha in Ha'. injection Ha' as <-. by exists p.
    - split; [by apply sched_frame_queues|done]. }
  destruct (active_proc k0) as [a|] eqn:Ha;
    [|injection Hu as <-; split; [done|congruence]].
  destruct (Ha0 a eq_refl) as (p & Hp & Hs).
  unfold load in Hu at 1. rewrite Hp in Hu. cbn [bind] in Hu.
  destruct (cpu_time p >=? SCHEDULER_TIMESLICE).
  - set (p2 := set_cpu_time 0 p) in *. set (k2 := store a p2 k0) in *.
    assert (Hp2 : proc_table k2 !! a = Some p2) by by eapply lookup_store_same.
    assert (Hf2 : sched_frame k0 k2)
      by by apply (sched_frame_store a p); [|repeat split].
    unfold load in Hu at 1. rewrite Hp2 in Hu. cbn [bind] in Hu.
    apply bind_Ok in Hu as (k3 & Hk3 & Hu). injection Hu as <-.
    split; [|done].
    eapply sched_frame_trans; [exact Hf0|].
    eapply sched_frame_trans; [exact Hf2|].
    apply (sched_frame_trans _ k3); [|by apply sched_frame_queues].
    destruct (negb (_ =? 0)).
    + eapply (scheduler_add_frame a k2 k3 p2 Hp2); [|done].
      simpl. congruence.
    + injection Hk3 as <-. apply (sched_frame_store a p2); [done|].
      repeat split; try done. simpl. congruence.
  - injection Hu as <-. split; [done|]. intros a' Ha'.
    rewrite Ha in Ha'. injection Ha' as <-. by exists p.
Qed.

Lemma scheduler_run_schedule_frame k k2 :
  scheduler_run_schedule k = Ok k2 ->
  (forall a, active_proc k = Some a ->
             exists p, proc_table k !! a = Some p /\ state p <> NONE) ->
  sched_frame k k2 /\
  forall a, active_proc k2 = Some a ->
            exists p, proc_table k2 !! a = Some p /\ state p <> NONE.
Proof.
  unfold scheduler_run_schedule. intros Hs Hact.
  destruct (active_proc k) as [a|] eqn:Ha.
  { injection Hs as <-. split; [apply sched_frame_refl|].
    intros a'. rewrite Ha. exact (Hact a'). }
  apply bind_Ok in Hs as (k1 & Hk1 & Hs).
  assert (Hf1 : sched_frame k k1).
  { destruct (negb _); [|injection Hk1 as <-; apply sched_frame_refl].
    by destruct (sleep_sweep_effects _ _ _ _ _ Hk1). }
  destruct (queue_out (run_queue k1)) as [[v q]|]; injection Hs as <-.
  - split.
    + eapply sched_frame_trans; [exact Hf1|]. by apply sched_frame_queues.
    + intros a' Ha'. cbn [active_proc set_active_proc] in Ha'.
      destruct (pid_to_proc_Some _ _ _ Ha') as (p & Hp & _ & Hst).
      by exists p.
  - split.
    + eapply sched_frame_trans; [exact Hf1|]. by apply sched_frame_queues.
    + intros a' Ha'. cbn [active_proc set_active_proc] in Ha'.
      destruct (pid_to_proc_Some _ _ _ Ha') as (p & Hp & _ & Hst).
      by exists p.
Qed.

Lemma scheduler_run_frame k k' :
  scheduler_run k = Ok k' -> sched_frame k k'.
Proof.
  unfold scheduler_run. intros Hr.
  apply bind_Ok in Hr as (k1 & Hk1 & Hr).
  apply bind_Ok in Hr as (k2 & Hk2 & Hr).
  destruct (scheduler_run_unschedule_frame _ _ Hk1) as [Hf1 Ha1].
  destruct (scheduler_run_schedule_frame _ _ Hk2) as [Hf2 Ha2].
  { intros a Ha. destruct (Ha1 a Ha) as (p & Hp & Hs). exists p.
    split; [done|congruence]. }
  destruct (active_proc k2) as [a|] eqn:Ha; [|done].
  destruct (Ha2 a eq_refl) as (p & Hp & Hs).
  unfold load in Hr. rewrite Hp in Hr. injection Hr as <-.
  eapply sched_frame_trans; [exact Hf1|].
  eapply sched_frame_trans; [exact Hf2|].
  apply (sched_frame_store a p); [done|]. by repeat split.
Qed.

Lemma scheduler_timer_frame k k' :
  scheduler_timer k = Ok k' -> sched_frame k k' /\ states k' = states k /\
  active_proc k' = active_proc k /\ run_queue k' = run_queue k /\
  sleep_queue k' = sleep_queue k.
Proof.
  unfold scheduler_timer. intros Ht.
  destruct (active_proc k) as [a|] eqn:Ha;
    [|injection Ht as <-; split; [apply sched_frame_refl|done]].
  apply bind_Ok in Ht as (p & Hp%load_Ok & Ht). injection Ht as <-.
  split_and!; try done.
  - apply (sched_frame_store a p); [done|]. by repeat split.
  - by rewrite (states_store_same a p).
Qed.

Lemma scheduler_sleep_frame i time k k' p :
  proc_table k !! i = Some p -> state p <> NONE ->
  scheduler_sleep (Some i) time k = Ok k' ->
  sched_frame k k' /\
  active_proc k' =
    (if bool_decide (active_proc k = Some i) then None else active_proc k).
Proof.
  intros Hp Hst Hs. unfold scheduler_sleep in Hs. unfold load in Hs at 1.
  rewrite Hp in Hs. cbn [bind] in Hs.
  set (p1 := set_sleep_time _ p) in *. set (k1 := store i p1 k) in *.
  assert (Hp1 : proc_table k1 !! i = Some p1) by by eapply lookup_store_same.
  unfold load in Hs at 1. rewrite Hp1 in Hs. cbn [bind] in Hs.
  set (p2 := set_state SLEEPING p1) in *. set (k2 := store i p2 k1) in *.
  apply bind_Ok in Hs as (k3 & Hk3 & Hs).
  apply bind_Ok in Hs as (p3 & _ & Hs). injection Hs as <-.
  destruct (scheduler_remove_frame _ _ _ Hk3) as (Hf3 & _ & Ha3).
  split; [|done].
  apply (sched_frame_trans _ k1);
    [by apply (sched_frame_store i p); [|repeat split]|].
  apply (sched_frame_trans _ k2).
  { apply (sched_frame_store i p1); [done|]. by repeat split. }
  eapply sched_frame_trans; [exact Hf3|]. by apply sched_frame_queues.
Qed.
Lemma pid_to_proc_store pid' i p q k :
  proc_table k !! i = Some p ->
  pid q = pid p -> state p <> NONE -> state q <> NONE ->
  pid_to_proc pid' (store i q k) = pid_to_proc pid' k.
Proof.
  intros Hp Hpid Hsp Hsq. unfold pid_to_proc, store. simpl.
  apply pid_to_proc_from_ext. rewrite list_fmap_insert.
  apply list_insert_id. rewrite list_lookup_fmap, Hp. simpl. f_equal.
  unfold pid_matches. rewrite Hpid.
  by rewrite !bool_decide_eq_false_2.
Qed.

(** X4: round robin.  When the active process, not the idle task, has
    used up its time slice and nobody sleeps, [scheduler_run] appends its
    pid to the run queue and schedules the head of the queue so extended:
    that pid leaves the queue, its PCB becomes [ACTIVE] and [active_proc]
    points to it.  The process preempted is [IDLE] with a CPU time of zero
    and a back-reference to the run queue. *)
Theorem scheduler_run_round_robin k a p v rest i :
  active_proc k = Some a ->
  proc_table k !! a = Some p ->
  state p = ACTIVE ->
  SCHEDULER_TIMESLICE <= cpu_time p ->
  pid p <> 0 ->
  items (sleep_queue k) = [] ->
  queue_size (run_queue k) < QUEUE_SIZE ->
  items (run_queue k) ++ [pid p] = v :: rest ->
  pid_to_proc v k = Some i ->
  exists k' q,
    scheduler_run k = Ok k' /\
    items (run_queue k') = rest /\
    items (sleep_queue k') = [] /\
    active_proc k' = Some i /\
    proc_table k' !! i = Some q /\ pid q = v /\ state q = ACTIVE /\
    (i <> a ->
     exists p', proc_table k' !! a = Some p' /\ pid p' = pid p /\
                state p' = IDLE /\ cpu_time p' = 0 /\
                scheduler_queue p' = Some RUN_QUEUE).
Proof.
  intros Ha Hp Hs Hc Hpid Hsleep Hroom Hrun Hv.
  unfold scheduler_run, scheduler_run_unschedule, load.
  rewrite Ha, Hp. cbn [bind]. rewrite bool_decide_eq_true_2 by done.
  cbn [bind]. rewrite Ha, Hp. cbn [bind].
  destruct (Z.geb_spec (cpu_time p) SCHEDULER_TIMESLICE); [|lia].
  set (p2 := set_cpu_time 0 p). set (k2 := store a p2 k).
  assert (Hp2 : proc_table k2 !! a = Some p2) by by eapply lookup_store_same.
  rewrite Hp2. cbn [bind].
  destruct (Z.eqb_spec (pid p2) 0) as [Hz|_]; [done|]. cbn [negb].
  rewrite (scheduler_add_Ok a k2 p2 Hp2) by done. cbn [bind].
  set (p3 := set_cpu_time 0 (set_state IDLE _)).
  set (k3 := store a p3 k2).
  unfold scheduler_run_schedule.
  cbn [active_proc set_active_proc bind].
  unfold queue_is_empty.
  cbn [sleep_queue set_active_proc set_run_queue]. 
  change (sleep_queue k3) with (sleep_queue k). rewrite Hsleep. cbn [negb bind].
  unfold queue_out.
  cbn [run_queue set_active_proc set_run_queue items].
  change (run_queue k2) with (run_queue k). change (pid p2) with (pid p).
  rewrite Hrun.
  set (k4 := set_run_queue (mkQueue rest) _).
  assert (Hv4 : pid_to_proc v k4 = Some i).
  { change (pid_to_proc v k4) with (pid_to_proc v k3). unfold k3.
    rewrite (pid_to_proc_store v a p2 p3 k2 Hp2); [|done|simpl; congruence|done].
    unfold k2. rewrite (pid_to_proc_store v a p p2 k Hp); try done;
      simpl; congruence. }
  rewrite Hv4. cbn [bind active_proc set_active_proc].
  destruct (pid_to_proc_Some v k4 i Hv4) as (q & Hq & Hqv & _).
  unfold load.
  cbn [proc_table set_active_proc]. rewrite Hq. cbn [bind].
  eexists _, (set_state ACTIVE q). split; [reflexivity|].
  split; [reflexivity|]. split; [exact Hsleep|]. split; [reflexivity|].
  split; [by eapply lookup_store_same|]. split; [exact Hqv|].
  split; [reflexivity|].
  intros Hne. exists p3. split; [|done].
  unfold store. cbn [proc_table set_proc_table set_active_proc].
  rewrite list_lookup_insert_ne by done.
  change (proc_table k4) with (proc_table k3).
  by eapply lookup_store_same.
Qed.
(** X5: the idle task is never queued.  When the active process has pid 0
    and has used up its time slice, [scheduler_run] does not append pid 0
    to the run queue: the queue loses its head and gains nothing, the head
    (or pid 0 again, when the queue was empty) becomes the active
    process. *)
Theorem scheduler_run_idle_not_requeued k a p i :
  active_proc k = Some a ->
  proc_table k !! a = Some p ->
  state p = ACTIVE ->
  SCHEDULER_TIMESLICE <= cpu_time p ->
  pid p = 0 ->
  items (sleep_queue k) = [] ->
  pid_to_proc (next_pid_to_run (items (run_queue k))) k = Some i ->
  exists k' q,
    scheduler_run k = Ok k' /\
    items (run_queue k') = tail (items (run_queue k)) /\
    active_proc k' = Some i /\
    proc_table k' !! i = Some q /\ state q = ACTIVE /\
    pid q = next_pid_to_run (items (run_queue k)) /\
    (i = a -> cpu_time q = 0).
Proof.
  intros Ha Hp Hs Hc Hpid Hsleep Hv.
  unfold scheduler_run, scheduler_run_unschedule, load.
  rewrite Ha, Hp. cbn [bind]. rewrite bool_decide_eq_true_2 by done.
  cbn [bind]. rewrite Ha, Hp. cbn [bind].
  destruct (Z.geb_spec (cpu_time p) SCHEDULER_TIMESLICE); [|lia].
  set (p2 := set_cpu_time 0 p). set (k2 := store a p2 k).
  assert (Hp2 : proc_table k2 !! a = Some p2) by by eapply lookup_store_same.
  rewrite Hp2. cbn [bind].
  destruct (Z.eqb_spec (pid p2) 0) as [_|Hz]; [|done]. cbn [negb bind].
  set (p3 := set_state IDLE p2). set (k3 := store a p3 k2).
  assert (Hp3 : proc_table k3 !! a = Some p3) by by eapply lookup_store_same.
  assert (Hlook : forall v, pid_to_proc v k3 = pid_to_proc v k).
  { intros v. unfold k3.
    rewrite (pid_to_proc_store v a p2 p3 k2 Hp2); [|done|simpl; congruence|done].
    unfold k2. rewrite (pid_to_proc_store v a p p2 k Hp); try done;
      simpl; congruence. }
  unfold scheduler_run_schedule.
  cbn [active_proc set_active_proc bind]. unfold queue_is_empty.
  cbn [sleep_queue set_active_proc].
  change (sleep_queue k3) with (sleep_queue k). rewrite Hsleep. cbn [negb bind].
  unfold queue_out. cbn [run_queue set_active_proc].
  change (run_queue k3) with (run_queue k).
  assert (Hfin : forall k4,
             proc_table k4 = proc_table k3 ->
             pid_to_proc (next_pid_to_run (items (run_queue k))) k4 = Some i ->
             exists k' q,
               (match active_proc
                        (set_active_proc
                           (pid_to_proc (next_pid_to_run (items (run_queue k)))
                                        k4) k4) with
                | None => kernel_panic "Unable to schedule a process!"
                | Some a0 =>
                    do p0 <- load a0
                               (set_active_proc
                                  (pid_to_proc
                                     (next_pid_to_run (items (run_queue k)))
                                     k4) k4);
                    Ok (store a0 (set_state ACTIVE p0)
                              (set_active_proc
                                 (pid_to_proc
                                    (next_pid_to_run (items (run_queue k)))
                                    k4) k4))
                end) = Ok k' /\
               run_queue k' = run_queue k4 /\
               active_proc k' = Some i /\
               proc_table k' !! i = Some q /\ state q = ACTIVE /\
               pid q = next_pid_to_run (items (run_queue k)) /\
               (i = a -> cpu_time q = 0)).
  { intros k4 Ht Hv4. rewrite Hv4. cbn [active_proc set_active_proc].
    destruct (pid_to_proc_Some _ k4 i Hv4) as (q & Hq & Hqv & _).
    unfold load. cbn [proc_table set_active_proc]. rewrite Hq. cbn [bind].
    eexists _, (set_state ACTIVE q). split; [reflexivity|].
    split; [reflexivity|]. split; [reflexivity|].
    split; [by eapply lookup_store_same|]. split; [reflexivity|].
    split; [exact Hqv|]. intros ->. rewrite Ht, Hp3 in Hq.
    by injection Hq as <-. }
  destruct (items (run_queue k)) as [|v rest] eqn:Hrun.
  - destruct (Hfin k3 eq_refl) as (k' & q & Hk' & Hr & Hrest).
    { by rewrite Hlook. }
    exists k', q. split; [exact Hk'|]. split; [|exact Hrest].
    rewrite Hr. exact Hrun.
  - destruct (Hfin (set_run_queue (mkQueue rest) k3) eq_refl)
      as (k' & q & Hk' & Hr & Hrest).
    { change (pid_to_proc (next_pid_to_run (v :: rest))
                          (set_run_queue (mkQueue rest) k3))
        with (pid_to_proc (next_pid_to_run (v :: rest)) k3).
      by rewrite Hlook. }
    exists k', q. split; [exact Hk'|]. split; [|exact Hrest].
    by rewrite Hr.
Qed.

Lemma kernel_eta_sleep k : set_sleep_queue (sleep_queue k) k = k.
Proof. by destruct k. Qed.

Lemma sleep_sweep_rotate current_time (a : list Z) :
  forall (rest : list Z) (fuel : nat) (i : Z) (k : kernel),
    items (sleep_queue k) = a ++ rest ->
    (forall v, v ∈ a ->
       exists j p, pid_to_proc v k = Some j /\ proc_table k !! j = Some p /\
                   pid p = v /\ current_time < sleep_time p) ->
    (length a <= fuel)%nat ->
    0 <= i -> i <= Z.of_nat (length rest) ->
    Z.of_nat (length (a ++ rest)) <= QUEUE_SIZE ->
    sleep_sweep fuel current_time i k =
    sleep_sweep (fuel - length a) current_time (i + Z.of_nat (length a))
                (set_sleep_queue (mkQueue (rest ++ a)) k).
Proof.
  induction a as [|v a IH]; intros rest fuel i k Hitems Hdue Hfuel Hi Hle Hcap.
  - simpl. rewrite app_nil_r, Z.add_0_r, Nat.sub_0_r.
    simpl in Hitems. rewrite <- Hitems, queue_eta, kernel_eta_sleep. done.
  - destruct fuel as [|fuel]; [simpl in Hfuel; lia|].
    cbn [sleep_sweep]. unfold queue_size at 1. rewrite Hitems.
    rewrite length_app in Hcap. simpl length in *.
    destruct (Z.ltb_spec i (Z.of_nat (S (length (a ++ rest))))) as [_|Hge];
      [|rewrite length_app in Hge; lia].
    unfold queue_out. rewrite Hitems. simpl app.
    destruct (Hdue v) as (j & p & Hj & Hp & Hpid & Hlate); [by left|].
    set (k1 := set_sleep_queue (mkQueue (a ++ rest)) k).
    change (pid_to_proc v k1) with (pid_to_proc v k). rewrite Hj.
    unfold load at 1. change (proc_table k1) with (proc_table k).
    rewrite Hp. cbn [bind].
    destruct (Z.geb_spec current_time (sleep_time p)) as [|_]; [lia|].
    cbn [bind]. unfold queue_in_unchecked, queue_in, queue_in_cap.
    cbn [sleep_queue set_sleep_queue k1]. unfold queue_size. cbn [items].
    destruct (Z.ltb_spec (Z.of_nat (length (a ++ rest))) QUEUE_SIZE) as [_|Hge];
      [|rewrite length_app in Hge; lia].
    rewrite Hpid, <- app_assoc.
    rewrite (IH (rest ++ [v]) fuel (i + 1)); try lia.
    + rewrite <- app_assoc. simpl. f_equal. lia.
    + done.
    + intros w Hw. apply (Hdue w). by right.
    + rewrite length_app. simpl. lia.
    + rewrite !length_app. simpl. lia.
Qed.

(** X6: a sweep of the sleep queue in which no sleeper is due changes
    nothing: every pid is dequeued and enqueued again, and the queue ends
    in its original order. *)
Theorem sleep_sweep_none_due_identity current_time k :
  none_due current_time (items (sleep_queue k)) k ->
  queue_size (sleep_queue k) <= QUEUE_SIZE ->
  sleep_sweep (Z.to_nat (queue_size (sleep_queue k))) current_time 0 k = Ok k.
Proof.
  intros Hdue Hcap.
  rewrite (sleep_sweep_rotate current_time (items (sleep_queue k)) []
             _ 0 k).
  - simpl. rewrite queue_eta, kernel_eta_sleep.
    apply sleep_sweep_done. unfold queue_size. lia.
  - by rewrite app_nil_r.
  - intros v Hv. destruct (Hdue v Hv) as (j & p & Hj & Hp & Hlate).
    exists j, p. split_and!; try done.
    by destruct (pid_to_proc_Some v k j Hj) as (p' & Hp' & <- & _);
      rewrite Hp in Hp'; injection Hp' as <-.
  - unfold queue_size. lia.
  - done.
  - simpl. lia.
  - rewrite app_nil_r. exact Hcap.
Qed.
(** X7: a sleeper at the head of the sleep queue whose deadline has come
    is woken by the sweep: the sweep returns, the pid is in the run queue
    afterwards and its PCB is [IDLE]. *)
Theorem sleep_sweep_wakes_due_head current_time k v rest j p :
  queues_sound k ->
  items (sleep_queue k) = v :: rest ->
  pid_to_proc v k = Some j ->
  proc_table k !! j = Some p ->
  sleep_time p <= current_time ->
  exists k' q,
    sleep_sweep (Z.to_nat (queue_size (sleep_queue k))) current_time 0 k
    = Ok k' /\
    v ∈ items (run_queue k') /\
    pid_to_proc v k' = Some j /\
    proc_table k' !! j = Some q /\ state q = IDLE.
Proof.
  intros Hsound Hitems Hj Hp Hdue.
  destruct (sleep_sweep_returns current_time
              (Z.to_nat (queue_size (sleep_queue k))) 0 k)
    as (k' & Hk' & _ & _); [done|lia|done|].
  exists k'. pose proof Hk' as Hsweep.
  destruct (sleep_sweep_effects _ _ _ _ _ Hk') as (Hf & _ & _ & _).
  rewrite queue_size_to_nat, Hitems in Hk'. cbn [length sleep_sweep] in Hk'.
  unfold queue_size, queue_out in Hk'. rewrite Hitems in Hk'.
  cbn [length] in Hk'.
  destruct (Z.ltb_spec 0 (Z.of_nat (S (length rest)))) as [_|]; [|lia].
  set (k1 := set_sleep_queue (mkQueue rest) k) in *.
  change (pid_to_proc v k1) with (pid_to_proc v k) in Hk'. rewrite Hj in Hk'.
  unfold load in Hk' at 1. change (proc_table k1) with (proc_table k) in Hk'.
  rewrite Hp in Hk'. cbn [bind] in Hk'.
  destruct (Z.geb_spec current_time (sleep_time p)) as [_|]; [|lia].
  apply bind_Ok in Hk' as (k2 & Hadd & Hk').
  destruct (pid_to_proc_Some v k j Hj) as (p' & Hp' & Hpid & Hst).
  rewrite Hp in Hp'. injection Hp' as <-.
  destruct (scheduler_add_frame j k1 k2 p Hp Hst Hadd)
    as (_ & _ & _ & Hrun2 & q2 & Hq2 & Hq2s & _).
  destruct (sleep_sweep_effects _ _ _ _ _ Hk') as (_ & _ & (sfx & Hrun) & Htab).
  assert (Hq : exists q, proc_table k' !! j = Some q /\ state q = IDLE).
  { destruct (Htab j) as [Heq|Hidle]; [|done].
    exists q2. by rewrite Heq. }
  destruct Hq as (q & Hq & Hqs). exists q.
  split_and!; try done.
  - rewrite Hrun, Hrun2, Hpid. apply elem_of_app. left.
    apply elem_of_app. right. by apply list_elem_of_singleton.
  - by rewrite (pid_to_proc_frame v k k' Hf).
Qed.

(** X8: [scheduler_run], [scheduler_timer] and [scheduler_remove] change
    scheduling state only.  The free-list, [next_pid], the trap frames,
    the stacks, the tick counter and the memory outside the kernel stay as
    they are; every PCB keeps its pid, type, name, start time, stack,
    frame pointer and I/O handles; and a slot is in use afterwards exactly
    when it was before. *)
Theorem scheduler_keeps_process_identity k k' :
  scheduler_run k = Ok k' \/ scheduler_timer k = Ok k' \/
  (exists i, scheduler_remove (Some i) k = Ok k') ->
  sched_frame k k'.
Proof.
  intros [Hr|[Ht|[i Hrm]]].
  - by apply scheduler_run_frame.
  - by destruct (scheduler_timer_frame _ _ Ht).
  - by destruct (scheduler_remove_frame _ _ _ Hrm).
Qed.

Lemma kproc_create_effects proc_ptr proc_name proc_type k rc k' :
  kproc_create proc_ptr proc_name proc_type k = Ok (rc, k') ->
  (items (proc_allocator k) = [] /\ rc = -1 /\ k' = k) \/
  exists e alloc p tf,
    items (proc_allocator k) = Z.of_nat e :: alloc /\
    proc_table k !! e = Some p /\
    proc_trapframe k !! e = Some tf /\
    rc = next_pid k /\
    k' = mkKernel
           (<[e := created_proc e p proc_name proc_type k]> (proc_table k))
           (<[e := created_frame e tf proc_ptr]> (proc_trapframe k))
           (proc_stack k) (mkQueue alloc) (int_wrap (next_pid k + 1))
           (mkQueue (items (run_queue k) ++ [next_pid k]))
           (sleep_queue k) (active_proc k) (ticks k) (memory k).
Proof.
  unfold kproc_create, queue_out.
  destruct (items (proc_allocator k)) as [|entry alloc] eqn:Halloc.
  { intros [= <- <-]. by left. }
  destruct (Z.ltb_spec entry 0) as [|Hpos]; [done|].
  intros Hok. right.
  apply bind_Ok in Hok as (p & Hp%load_Ok & Hok).
  cbn [proc_table set_proc_allocator] in Hp.
  cbn [proc_trapframe set_next_pid store set_proc_table set_proc_allocator]
    in Hok.
  destruct (proc_trapframe k !! Z.to_nat entry) as [tf|] eqn:Htf; [|done].
  apply bind_Ok in Hok as (k3 & Hadd & Hok).
  apply bind_Ok in Hok as (p3 & Hp3%load_Ok & Hok). injection Hok as <- <-.
  exists (Z.to_nat entry), alloc, p, tf.
  rewrite Z2Nat.id by done.
  match type of Hadd with
  | scheduler_add _ ?k2 = _ =>
      assert (Hp2 : proc_table k2 !! Z.to_nat entry =
                    Some (mkProc (next_pid k) IDLE proc_type
                            (<[pred PROC_NAME_LEN := 0]>
                               (strncpy proc_name PROC_NAME_LEN))
                            (ticks k) 0 0 (sleep_time p)
                            (Some ((entry + 1) * PROC_STACK_SIZE))
                            (Some (Z.to_nat entry))
                            (scheduler_queue p) (io p)))
  end.
  { simpl. apply list_lookup_insert_eq. by eapply lookup_lt_Some. }
  destruct (Z.lt_ge_cases (queue_size (run_queue k)) QUEUE_SIZE)
    as [Hlt|Hge];
    [|by rewrite (scheduler_add_Panic _ _ _ Hp2 Hge) in Hadd].
  rewrite (scheduler_add_Ok _ _ _ Hp2 Hlt) in Hadd. injection Hadd as <-.
  cbn [proc_table store set_run_queue set_proc_table set_proc_trapframe
       set_next_pid] in Hp3.
  rewrite list_insert_insert_eq in Hp3.
  rewrite list_lookup_insert_eq in Hp3 by by eapply lookup_lt_Some.
  injection Hp3 as <-.
  split_and!; try done.
  unfold store, set_run_queue, created_proc, created_frame. simpl.
  rewrite list_insert_insert_eq, !Z2Nat.id by done. done.
Qed.

Lemma kproc_create_Ok proc_ptr proc_name proc_type k e alloc p tf :
  items (proc_allocator k) = Z.of_nat e :: alloc ->
  proc_table k !! e = Some p ->
  proc_trapframe k !! e = Some tf ->
  queue_size (run_queue k) < QUEUE_SIZE ->
  kproc_create proc_ptr proc_name proc_type k =
  Ok (next_pid k,
      mkKernel
        (<[e := created_proc e p proc_name proc_type k]> (proc_table k))
        (<[e := created_frame e tf proc_ptr]> (proc_trapframe k))
        (proc_stack k) (mkQueue alloc) (int_wrap (next_pid k + 1))
        (mkQueue (items (run_queue k) ++ [next_pid k]))
        (sleep_queue k) (active_proc k) (ticks k) (memory k)).
Proof.
  intros Halloc Hp Htf Hlt.
  unfold kproc_create, queue_out. rewrite Halloc.
  destruct (Z.ltb_spec (Z.of_nat e) 0) as [|_]; [lia|].
  rewrite Nat2Z.id. unfold load at 1.
  cbn [proc_table set_proc_allocator]. rewrite Hp. cbn [bind].
  cbn [proc_trapframe set_next_pid store set_proc_table set_proc_allocator].
  rewrite Htf.
  match goal with
  | |- context [scheduler_add _ ?k2] =>
      assert (Hp2 : proc_table k2 !! e =
                    Some (mkProc (next_pid k) IDLE proc_type
                            (<[pred PROC_NAME_LEN := 0]>
                               (strncpy proc_name PROC_NAME_LEN))
                            (ticks k) 0 0 (sleep_time p)
                            (Some ((Z.of_nat e + 1) * PROC_STACK_SIZE))
                            (Some e)
                            (scheduler_queue p) (io p)))
  end.
  { simpl. apply list_lookup_insert_eq. by eapply lookup_lt_Some. }
  rewrite (scheduler_add_Ok _ _ _ Hp2 Hlt). cbn [bind].
  unfold load.
  cbn [proc_table store set_run_queue set_proc_table set_proc_trapframe
       set_next_pid].
  rewrite list_insert_insert_eq.
  rewrite list_lookup_insert_eq by by eapply lookup_lt_Some.
  cbn [bind]. unfold store, set_run_queue, created_proc, created_frame.
  simpl. by rewrite list_insert_insert_eq.
Qed.

Lemma pid_to_proc_from_insert v (q : proc_t) (tbl : list proc_t) :
  forall n e,
    (e < length tbl)%nat ->
    (forall j p, (j < e)%nat -> tbl !! j = Some p ->
                 pid_matches v p = false) ->
    pid_matches v q = true ->
    pid_to_proc_from n (<[e := q]> tbl) v = Some (n + e)%nat.
Proof.
  induction tbl as [|p tbl IH]; intros n e He Hno Hq; [simpl in He; lia|].
  destruct e as [|e]; simpl.
  - rewrite Hq. f_equal. lia.
  - rewrite (Hno 0%nat p); [|lia|done].
    rewrite (IH (S n) e); [f_equal; lia| |..]; try done.
    + simpl in He. lia.
    + intros j p' Hj Hp'. apply (Hno (S j) p'); [lia|done].
Qed.

Lemma free_list_sound_frame k k' :
  sched_frame k k' -> free_list_sound k -> free_list_sound k'.
Proof.
  intros Hf [Hnd Hfree]. pose proof Hf as (Ha&_). unfold free_list_sound.
  rewrite Ha. split; [done|]. intros v Hv.
  destruct (Hfree v Hv) as (i & p & -> & Hp & Hs).
  destruct (sched_frame_lookup k k' i p Hf Hp) as (q & Hq & Hpq).
  exists i, q. split_and!; try done. by apply Hpq.
Qed.

Lemma free_list_sound_ext k k' :
  proc_table k' = proc_table k -> proc_allocator k' = proc_allocator k ->
  free_list_sound k -> free_list_sound k'.
Proof. unfold free_list_sound. by intros -> ->. Qed.

Lemma active_is_ACTIVE_ext k k' :
  proc_table k' = proc_table k -> active_proc k' = active_proc k ->
  active_is_ACTIVE k -> active_is_ACTIVE k'.
Proof. unfold active_is_ACTIVE. by intros -> ->. Qed.

Lemma alloc_inv_ext k k' :
  proc_table k' = proc_table k -> proc_allocator k' = proc_allocator k ->
  active_proc k' = active_proc k -> alloc_inv k -> alloc_inv k'.
Proof.
  intros ? ? ? [? ?].
  split; [by eapply free_list_sound_ext|by eapply active_is_ACTIVE_ext].
Qed.

Lemma exactly_one_active_is_ACTIVE k :
  exactly_one_active k -> active_is_ACTIVE k.
Proof.
  intros (a & p & Ha & Hp & Hs & _) a' Ha'. rewrite Ha in Ha'.
  injection Ha' as <-. by exists p.
Qed.

Lemma scheduler_run_alloc_inv k k' :
  sched_inv k -> free_list_sound k -> scheduler_run k = Ok k' -> alloc_inv k'.
Proof.
  intros Hinv Hfree Hrun. split.
  - eapply free_list_sound_frame; [|exact Hfree]. by apply scheduler_run_frame.
  - apply exactly_one_active_is_ACTIVE.
    exact (wp_Ok _ _ _ (scheduler_run_wp k Hinv) Hrun).
Qed.

Lemma scheduler_timer_alloc_inv k k' :
  alloc_inv k -> scheduler_timer k = Ok k' -> alloc_inv k'.
Proof.
  intros [Hfree Hact] Ht.
  destruct (scheduler_timer_frame _ _ Ht) as (Hf & Hst & Ha & _).
  split; [by eapply free_list_sound_frame|].
  intros a Ha'. rewrite Ha in Ha'. destruct (Hact a Ha') as (p & Hp & Hs).
  apply states_lookup in Hp. rewrite <- Hst in Hp.
  apply states_lookup_inv in Hp as (q & Hq & Hqs). exists q. split; [done|].
  congruence.
Qed.

Lemma kproc_create_alloc_inv proc_ptr proc_name proc_type k rc k' :
  alloc_inv k ->
  kproc_create proc_ptr proc_name proc_type k = Ok (rc, k') ->
  alloc_inv k' /\
  forall j q, proc_table k !! j = Some q -> state q <> NONE ->
              proc_table k' !! j = Some q.
Proof.
  intros [[Hnd Hfree] Hact] Hc.
  destruct (kproc_create_effects _ _ _ _ _ _ Hc)
    as [(_ & _ & ->)|(e & alloc & p & tf & Halloc & Hp & Htf & _ & ->)];
    [done|].
  rewrite Halloc in Hnd, Hfree. apply NoDup_cons in Hnd as [Hnin Hnd].
  destruct (Hfree (Z.of_nat e)) as (e' & p' & He & Hp' & Hs'); [by left|].
  apply Nat2Z.inj in He as <-. rewrite Hp in Hp'. injection Hp' as <-.
  assert (Hkeep : forall j q, proc_table k !! j = Some q -> state q <> NONE ->
                              <[e := created_proc e p proc_name proc_type k]>
                                (proc_table k) !! j = Some q).
  { intros j q Hq Hs. rewrite list_lookup_insert_ne; [done|].
    intros <-. congruence. }
  split; [|exact Hkeep]. split; [split|]; cbn [proc_allocator items].
  - done.
  - intros v Hv. destruct (Hfree v) as (i & q & -> & Hq & Hs); [by right|].
    exists i, q. split_and!; try done. cbn [proc_table].
    rewrite list_lookup_insert_ne; [done|]. by intros <-.
  - intros a Ha. cbn [active_proc] in Ha.
    destruct (Hact a Ha) as (q & Hq & Hs). exists q. split; [|done].
    apply Hkeep; [done|congruence].
Qed.

Lemma kproc_destroy_alloc_inv proc k rc k' :
  alloc_inv k -> kproc_destroy proc k = Ok (rc, k') -> alloc_inv k'.
Proof.
  intros [[Hnd Hfree] Hact]. unfold kproc_destroy.
  destruct proc as [i|]; [|by intros [= _ <-]].
  intros Hok. apply bind_Ok in Hok as (p & Hp%load_Ok & Hok).
  destruct (bool_decide (state p = NONE)) eqn:Hs; [by injection Hok as _ <-|].
  apply bool_decide_eq_false in Hs.
  destruct (pid p =? 0); [by injection Hok as _ <-|]. cbn [orb] in Hok.
  apply bind_Ok in Hok as (k1 & Hrem & Hok).
  apply bind_Ok in Hok as (p2 & _ & Hok). injection Hok as _ <-.
  destruct (scheduler_remove_frame _ _ _ Hrem) as (Hf & Hst & Ha).
  destruct (free_list_sound_frame _ _ Hf (conj Hnd Hfree)) as [Hnd1 Hfree1].
  pose proof Hf as (Halloc & _).
  assert (Hi : Z.of_nat i ∉ items (proc_allocator k)).
  { intros Hin. destruct (Hfree _ Hin) as (i' & p' & He & Hp' & Hs').
    apply Nat2Z.inj in He as <-. congruence. }
  destruct (sched_frame_lookup _ _ _ _ Hf Hp) as (p1 & Hp1 & _).
  assert (Htab : proc_table
                   (memset_stack (stack p2) PROC_STACK_SIZE
                      (store i proc_zero k1)) =
                 <[i := proc_zero]> (proc_table k1))
    by by destruct (stack p2).
  assert (Hal : proc_allocator
                   (memset_stack (stack p2) PROC_STACK_SIZE
                      (store i proc_zero k1)) = proc_allocator k)
    by by destruct (stack p2).
  assert (Hac : active_proc
                   (memset_stack (stack p2) PROC_STACK_SIZE
                      (store i proc_zero k1)) = active_proc k1)
    by by destruct (stack p2).
  unfold alloc_inv, free_list_sound, active_is_ACTIVE.
  split; [split|]; cbn [proc_allocator set_proc_allocator proc_table
                        active_proc]; rewrite ?Htab, ?Hal, ?Hac.
  - unfold queue_in_unchecked, queue_in, queue_in_cap.
    destruct (_ <? _); [|done]. cbn [items]. apply NoDup_app.
    split; [done|]. split; [|apply NoDup_singleton].
    intros v Hv Hv'. apply list_elem_of_singleton in Hv' as ->. done.
  - assert (Hsub : forall v,
               v ∈ items (queue_in_unchecked (proc_allocator k)
                                             (proc_to_entry i)) ->
               v ∈ items (proc_allocator k) \/ v = Z.of_nat i).
    { unfold queue_in_unchecked, queue_in, queue_in_cap.
      destruct (_ <? _); [|by left]. cbn [items]. intros v Hv.
      apply elem_of_app in Hv as [Hv|Hv]; [by left|].
      apply list_elem_of_singleton in Hv. by right. }
    intros v Hv. apply Hsub in Hv as [Hv| ->].
    + rewrite <- Halloc in Hv.
      destruct (Hfree1 v Hv) as (j & q & -> & Hq & Hqs).
      destruct (decide (j = i)) as [->|Hne].
      * exists i, proc_zero. split_and!; [done| |done].
        apply list_lookup_insert_eq. by eapply lookup_lt_Some.
      * exists j, q. split_and!; [done| |done].
        by rewrite list_lookup_insert_ne.
    + exists i, proc_zero. split_and!; [done| |done].
      apply list_lookup_insert_eq. by eapply lookup_lt_Some.
  - intros a Ha'. rewrite Ha in Ha'.
    case_bool_decide as Hai; [done|].
    destruct (Hact a Ha') as (q & Hq & Hqs).
    apply states_lookup in Hq. rewrite <- Hst in Hq.
    apply states_lookup_inv in Hq as (q1 & Hq1 & Hq1s).
    exists q1. split; [|congruence].
    rewrite list_lookup_insert_ne; [done|]. intros <-. congruence.
Qed.

Lemma ksyscall_proc_sleep_alloc_inv seconds k rc k' :
  alloc_inv k -> ksyscall_proc_sleep seconds k = Ok (rc, k') -> alloc_inv k'.
Proof.
  intros [Hfree Hact]. unfold ksyscall_proc_sleep.
  destruct (active_proc k) as [a|] eqn:Ha; [|by intros [= _ <-]].
  intros Hok. apply bind_Ok in Hok as (k1 & Hsl & Hok). injection Hok as _ <-.
  destruct (Hact a Ha) as (p & Hp & Hs).
  destruct (scheduler_sleep_frame a (int_wrap (seconds * 100)) k k1 p Hp)
    as [Hf Ha1]; [congruence|done|].
  split; [by eapply free_list_sound_frame|].
  intros a' Ha'. rewrite Ha1, Ha, bool_decide_eq_true_2 in Ha' by done. done.
Qed.

Lemma ksyscall_proc_exit_effects k rc k' :
  sched_inv k -> free_list_sound k ->
  ksyscall_proc_exit k = Ok (rc, k') ->
  alloc_inv k' /\ proc_allocator k' = proc_allocator k /\
  forall a, active_proc k = Some a ->
            rc = 0 /\ active_proc k' <> Some a /\
            exists q, proc_table k' !! a = Some q /\ state q = NONE.
Proof.
  intros Hinv [Hnd Hfree]. unfold ksyscall_proc_exit.
  destruct (active_proc k) as [a|] eqn:Ha.
  2:{ intros [= <- <-]. split; [|done]. split; [done|].
      intros a' Ha'. congruence. }
  intros Hok. apply bind_Ok in Hok as (p & Hp%load_Ok & Hok).
  apply bind_Ok in Hok as (k1 & Hrun & Hok). injection Hok as <- <-.
  set (k0 := store a (set_state NONE p) k) in *.
  assert (Hp0 : proc_table k0 !! a = Some (set_state NONE p))
    by by eapply lookup_store_same.
  assert (Hfree0 : free_list_sound k0).
  { split; [done|]. intros v Hv.
    destruct (Hfree v Hv) as (i & q & -> & Hq & Hs).
    destruct (decide (i = a)) as [->|Hne].
    - by exists a, (set_state NONE p).
    - exists i, q. split_and!; try done. unfold k0, store. simpl.
      by rewrite list_lookup_insert_ne. }
  assert (Hinv0 : sched_inv k0) by by apply sched_inv_store.
  pose proof (scheduler_run_alloc_inv _ _ Hinv0 Hfree0 Hrun) as Hinv1.
  pose proof (scheduler_run_frame _ _ Hrun) as Hf.
  split; [done|]. split; [apply Hf|].
  intros a' [= <-]. split; [done|].
  destruct (sched_frame_lookup _ _ _ _ Hf Hp0) as (q & Hq & Hpq).
  assert (Hqs : state q = NONE) by by apply Hpq.
  split; [|by exists q].
  intros Ha1. destruct ((proj2 Hinv1) a Ha1) as (q' & Hq' & Hq's). congruence.
Qed.

Lemma write_back_proj r k' :
  write_back r = Ok k' ->
  proc_table k' = proc_table (snd r) /\
  proc_allocator k' = proc_allocator (snd r) /\
  active_proc k' = active_proc (snd r).
Proof.
  destruct r as [rc k]. simpl. intros Hok.
  apply bind_Ok in Hok as ([e tf] & _ & Hok). by injection Hok as <-.
Qed.

Lemma ksyscall_irq_handler_alloc_inv k k' :
  sched_inv k -> alloc_inv k -> ksyscall_irq_handler k = Ok k' -> alloc_inv k'.
Proof.
  intros Hinv Hal. unfold ksyscall_irq_handler.
  destruct (active_proc k) as [a|] eqn:Hact; [|done].
  intros Hok. apply bind_Ok in Hok as (p & _ & Hok).
  destruct (trapframe p); [|done].
  apply bind_Ok in Hok as ([e tf] & _ & Hok).
  repeat match type of Hok with
         | (if ?c then _ else _) = _ => destruct c
         end;
    try done;
    apply bind_Ok in Hok as ([rc k1] & Hh & Hok);
    apply write_back_proj in Hok as (Ht & Ha & Hc); cbn [snd] in *;
    apply (alloc_inv_ext k1); try done.
  - by injection Hh as _ <-.
  - unfold ksyscall_sys_get_name in Hh.
    destruct (ebx tf =? 0); injection Hh as _ <-; [done|].
    by apply (alloc_inv_ext k).
  - by destruct (ksyscall_proc_exit_effects _ _ _ Hinv (proj1 Hal) Hh).
  - unfold ksyscall_proc_get_pid in Hh. rewrite Hact in Hh.
    apply bind_Ok in Hh as (? & _ & Hh). by injection Hh as _ <-.
  - unfold ksyscall_proc_get_name in Hh. rewrite Hact in Hh.
    destruct (ebx tf =? 0); [by injection Hh as _ <-|].
    apply bind_Ok in Hh as (? & _ & Hh). injection Hh as _ <-.
    by apply (alloc_inv_ext k).
Qed.

Lemma save_registers_proj eax' ebx' k :
  proc_table (save_registers eax' ebx' k) = proc_table k /\
  proc_allocator (save_registers eax' ebx' k) = proc_allocator k /\
  active_proc (save_registers eax' ebx' k) = active_proc k.
Proof.
  unfold save_registers. by destruct (active_trapframe k) as [[e tf]| |].
Qed.

Lemma step_alloc_inv ev k k' :
  sched_inv k -> alloc_inv k -> step ev k = Ok k' -> alloc_inv k'.
Proof.
  intros Hinv Hal. destruct ev; simpl; intros Hok.
  - unfold timer_irq_handler in Hok.
    eapply scheduler_timer_alloc_inv; [|exact Hok]. by apply (alloc_inv_ext k).
  - eapply scheduler_run_alloc_inv; [done|apply Hal|done].
  - apply bind_Ok in Hok as ([rc k1] & Hc & Hok). injection Hok as <-.
    by destruct (kproc_create_alloc_inv _ _ _ _ _ _ Hal Hc).
  - apply bind_Ok in Hok as ([rc k1] & Hc & Hok). injection Hok as <-.
    by eapply kproc_destroy_alloc_inv.
  - destruct (save_registers_proj eax' ebx' k) as (Ht & Ha & Hc).
    eapply ksyscall_irq_handler_alloc_inv; [| |exact Hok].
    + by apply save_registers_inv.
    + by apply (alloc_inv_ext k).
  - apply bind_Ok in Hok as ([rc k1] & Hc & Hok). injection Hok as <-.
    by eapply ksyscall_proc_sleep_alloc_inv.
Qed.
Lemma allocator_fill_items n :
  items (foldl (fun q i => queue_in_unchecked q (Z.of_nat i))
               queue_init (seq 0 n)) =
  Z.of_nat <$> seq 0 (min n (Z.to_nat QUEUE_SIZE)).
Proof.
  induction n as [|n IH]; [done|].
  rewrite seq_S, foldl_app. cbn [foldl].
  set (q := foldl _ _ _) in *. clearbody q.
  unfold queue_in_unchecked, queue_in, queue_in_cap.
  unfold queue_size. rewrite IH, length_fmap, length_seq.
  destruct (Z.ltb_spec (Z.of_nat (n `min` Z.to_nat QUEUE_SIZE)) QUEUE_SIZE)
    as [Hlt|Hge]; cbn [items].
  - assert (n < Z.to_nat QUEUE_SIZE)%nat by lia.
    rewrite (Nat.min_l (S n)), (Nat.min_l n) by lia.
    by rewrite seq_S, fmap_app.
  - rewrite IH. f_equal. f_equal. lia.
Qed.

Lemma kproc_create_no_slot proc_ptr proc_name proc_type k :
  items (proc_allocator k) = [] ->
  kproc_create proc_ptr proc_name proc_type k = Ok (-1, k).
Proof. intros Hal. unfold kproc_create, queue_out. by rewrite Hal. Qed.

(** The state [kproc_init] hands to [kproc_create]. *)
Lemma boot_before_create mem :
  exists k3,
    boot mem =
      (do r <- kproc_create kproc_idle (bytes_of_string "kernel_idle")
                            PROC_TYPE_KERNEL k3;
       let '(idle_pid, k4) := r in
       if idle_pid =? -1 then kernel_panic "Failed to create idle process"
       else Ok k4) /\
    proc_table k3 = replicate PROC_MAX (set_pid (-1) proc_zero) /\
    proc_trapframe k3 = replicate PROC_MAX trapframe_zero /\
    items (proc_allocator k3) =
      Z.of_nat <$> seq 0 (min PROC_MAX (Z.to_nat QUEUE_SIZE)) /\
    next_pid k3 = 0 /\ items (run_queue k3) = [] /\
    items (sleep_queue k3) = [] /\ active_proc k3 = None /\
    ticks k3 = 0 /\ memory k3 = mem.
Proof.
  eexists. split; [reflexivity|]. cbn.
  split_and!; try done.
  - by rewrite fmap_replicate.
  - apply allocator_fill_items.
Qed.

Lemma boot_alloc_inv mem k : boot mem = Ok k -> alloc_inv k.
Proof.
  destruct (boot_before_create mem)
    as (k3 & -> & Htab & _ & Hal & _ & _ & _ & Hact & _).
  intros Hok. apply bind_Ok in Hok as ([rc k4] & Hc & Hok).
  destruct (rc =? -1); [done|]. injection Hok as <-.
  refine (proj1 (kproc_create_alloc_inv _ _ _ k3 rc _ _ Hc)).
  split; [split|].
  - rewrite Hal. apply (NoDup_fmap_2 _), NoDup_seq.
  - intros v Hv. rewrite Hal in Hv.
    apply list_elem_of_fmap in Hv as (i & -> & Hi).
    apply elem_of_seq in Hi.
    exists i, (set_pid (-1) proc_zero). split_and!; try done.
    rewrite Htab. apply lookup_replicate. split; [done|lia].
  - intros a Ha. congruence.
Qed.

Lemma reachable_alloc_inv k : reachable k -> alloc_inv k.
Proof.
  induction 1 as [mem k Hboot|ev k k' Hr IH Hstep].
  - by eapply boot_alloc_inv.
  - eapply step_alloc_inv; [|exact IH|exact Hstep]. by apply reachable_inv.
Qed.

(** X9: in every state the kernel reaches, the free-list of
    [proc_allocator] holds no slot twice, and every slot it holds has a
    PCB in state [NONE]. *)
Theorem reachable_free_list_sound k : reachable k -> free_list_sound k.
Proof. intros Hr. apply (reachable_alloc_inv k Hr). Qed.

(** X10: in every state the kernel reaches, a PCB is in state [ACTIVE]
    exactly when [active_proc] points to it. *)
Theorem reachable_active_iff_ACTIVE k i p :
  reachable k -> proc_table k !! i = Some p ->
  state p = ACTIVE <-> active_proc k = Some i.
Proof.
  intros Hr Hp. split.
  - intros Hs. apply (reachable_inv k Hr). by rewrite (states_lookup k i p), Hs.
  - intros Ha. destruct (proj2 (reachable_alloc_inv k Hr) i Ha) as (q & Hq & Hs).
    congruence.
Qed.

(** X11: in a state the kernel reaches, [kproc_create] never overwrites a
    process: every PCB that is in use before the call is the same
    afterwards. *)
Theorem kproc_create_keeps_live_procs proc_ptr proc_name proc_type k rc k' :
  reachable k ->
  kproc_create proc_ptr proc_name proc_type k = Ok (rc, k') ->
  forall j q, proc_table k !! j = Some q -> state q <> NONE ->
              proc_table k' !! j = Some q.
Proof.
  intros Hr Hc.
  exact (proj2 (kproc_create_alloc_inv _ _ _ k rc k'
                  (reachable_alloc_inv k Hr) Hc)).
Qed.

(** X12: [ksyscall_proc_exit], called in a state the kernel reaches with
    a process active, returns 0 when it returns; the slot of the caller is
    in state [NONE] afterwards and is not the active process, and the
    free-list is the one before the call: the slot is not given back to
    [proc_allocator]. *)
Theorem ksyscall_proc_exit_leaves_slot_unused k a rc k' :
  reachable k -> active_proc k = Some a ->
  ksyscall_proc_exit k = Ok (rc, k') ->
  rc = 0 /\
  (exists q, proc_table k' !! a = Some q /\ state q = NONE) /\
  active_proc k' <> Some a /\
  proc_allocator k' = proc_allocator k /\
  Z.of_nat a ∉ items (proc_allocator k').
Proof.
  intros Hr Ha Hex.
  pose proof (reachable_alloc_inv k Hr) as [Hfree Hact].
  destruct (ksyscall_proc_exit_effects k rc k' (reachable_inv k Hr) Hfree Hex)
    as (_ & Hal & Heff).
  destruct (Heff a Ha) as (Hrc & Hna & Hq).
  split_and!; try done.
  rewrite Hal. intros Hin.
  destruct (proj2 Hfree _ Hin) as (i & p & Hi & Hp & Hs).
  apply Nat2Z.inj in Hi as <-.
  destruct (Hact a Ha) as (p' & Hp' & Hs'). congruence.
Qed.

(** X13: initialisation.  With at least one slot and queues of positive
    capacity, [scheduler_init] followed by [kproc_init] returns: slot 0
    holds the idle task (pid 0, [IDLE], of kernel type, queued in the run
    queue), every other slot has pid -1 and state [NONE], the free-list
    holds the slots from 1 on that fit a queue, the run queue holds pid 0
    alone, nobody sleeps, nothing is active and the next pid is 1.  With no
    slot, or queues without capacity, [kproc_init] panics. *)
Theorem boot_creates_idle_task mem :
  ((0 < PROC_MAX)%nat -> 0 < QUEUE_SIZE ->
   exists k p,
     boot mem = Ok k /\
     proc_table k !! 0%nat = Some p /\ pid p = 0 /\ state p = IDLE /\
     type p = PROC_TYPE_KERNEL /\ scheduler_queue p = Some RUN_QUEUE /\
     pid_to_proc 0 k = Some 0%nat /\
     (forall j q, (0 < j)%nat -> proc_table k !! j = Some q ->
                  pid q = -1 /\ state q = NONE) /\
     length (proc_table k) = PROC_MAX /\
     items (proc_allocator k) =
       Z.of_nat <$> seq 1 (min PROC_MAX (Z.to_nat QUEUE_SIZE) - 1) /\
     items (run_queue k) = [0] /\ items (sleep_queue k) = [] /\
     active_proc k = None /\ next_pid k = 1 /\ ticks k = 0 /\
     memory k = mem) /\
  (PROC_MAX = 0%nat \/ QUEUE_SIZE <= 0 ->
   boot mem = Panic "Failed to create idle process").
Proof.
  destruct (boot_before_create mem)
    as (k3 & -> & Htab & Htf & Hal & Hnext & Hrun & Hsleep & Hact & Htick
        & Hmem).
  split.
  - intros Hmax Hq.
    destruct (min PROC_MAX (Z.to_nat QUEUE_SIZE)) as [|m] eqn:Hm; [lia|].
    cbn [seq fmap list_fmap] in Hal.
    assert (Hp : proc_table k3 !! 0%nat = Some (set_pid (-1) proc_zero))
      by (rewrite Htab; apply lookup_replicate; split; [done|lia]).
    assert (Ht : proc_trapframe k3 !! 0%nat = Some trapframe_zero)
      by (rewrite Htf; apply lookup_replicate; split; [done|lia]).
    rewrite (kproc_create_Ok _ _ _ k3 0 _ _ _ Hal Hp Ht)
      by (unfold queue_size; rewrite Hrun; simpl; lia).
    cbn [bind]. rewrite Hnext. cbn [Z.eqb].
    eexists _, _. split; [reflexivity|]. cbn [proc_table].
    split; [apply list_lookup_insert_eq; rewrite Htab, length_replicate; lia|].
    unfold created_proc. cbn [pid state type scheduler_queue].
    split_and!; try done.
    + unfold pid_to_proc. cbn [proc_table].
      rewrite (pid_to_proc_from_insert 0 _ _ 0 0); try done.
      * rewrite Htab, length_replicate. lia.
      * intros j q Hj. lia.
      * unfold pid_matches. cbn [pid state]. by rewrite Hnext.
    + intros j q Hj Hq'. rewrite list_lookup_insert_ne in Hq' by lia.
      rewrite Htab in Hq'. apply lookup_replicate in Hq' as [-> _]. done.
    + by rewrite length_insert, Htab, length_replicate.
    + cbn [proc_allocator items]. do 2 f_equal. lia.
    + cbn [run_queue items]. by rewrite Hrun.
  - intros Hbad.
    rewrite kproc_create_no_slot; [done|].
    rewrite Hal. replace (min PROC_MAX (Z.to_nat QUEUE_SIZE)) with 0%nat by lia.
    done.
Qed.
Lemma not_live_check v k :
  forallb (fun p => negb (pid_matches v p)) (proc_table k) = true ->
  ~ live v k.
Proof.
  intros Hall (i & p & Hp & Hpid & Hs).
  rewrite forallb_forall in Hall.
  specialize (Hall p).
  rewrite <- list_elem_of_In in Hall.
  specialize (Hall (list_elem_of_lookup_2 _ _ _ Hp)).
  unfold pid_matches in Hall.
  rewrite Hpid, Z.eqb_refl, bool_decide_eq_false_2 in Hall by done. done.
Qed.

(** X14: creation and lookup.  With a free slot [e] at the head of the
    free-list, room in the run queue and no process in use under the pid
    [next_pid], [kproc_create] returns that pid; [pid_to_proc] then finds
    the process in slot [e].  Its PCB is [IDLE], of the type asked for,
    started at the current tick, with run and CPU time zero, queued in the
    run queue, and its name fills [PROC_NAME_LEN] bytes, the last of them
    zero.  Its frame has the entry point and the flags
    [EF_DEFAULT_VALUE | EF_INTR]; [next_pid] is incremented. *)
Theorem kproc_create_then_lookup proc_ptr proc_name proc_type k e alloc p tf :
  items (proc_allocator k) = Z.of_nat e :: alloc ->
  proc_table k !! e = Some p ->
  proc_trapframe k !! e = Some tf ->
  queue_size (run_queue k) < QUEUE_SIZE ->
  ~ live (next_pid k) k ->
  exists k' q tf',
    kproc_create proc_ptr proc_name proc_type k = Ok (next_pid k, k') /\
    pid_to_proc (next_pid k) k' = Some e /\
    proc_table k' !! e = Some q /\
    pid q = next_pid k /\ state q = IDLE /\ type q = proc_type /\
    start_time q = ticks k /\ run_time q = 0 /\ cpu_time q = 0 /\
    scheduler_queue q = Some RUN_QUEUE /\ trapframe q = Some e /\
    length (name q) = PROC_NAME_LEN /\
    ((0 < PROC_NAME_LEN)%nat -> name q !! pred PROC_NAME_LEN = Some 0) /\
    proc_trapframe k' !! e = Some tf' /\
    eip tf' = uint_wrap proc_ptr /\
    eflags tf' = Z.lor EF_DEFAULT_VALUE EF_INTR /\
    eax tf' = eax tf /\ ebx tf' = ebx tf /\
    next_pid k' = int_wrap (next_pid k + 1) /\
    items (run_queue k') = items (run_queue k) ++ [next_pid k] /\
    items (proc_allocator k') = alloc.
Proof.
  intros Hal Hp Htf Hlt Hfresh.
  rewrite (kproc_create_Ok proc_ptr proc_name proc_type k e alloc p tf)
    by done.
  eexists _, (created_proc e p proc_name proc_type k),
    (created_frame e tf proc_ptr).
  split; [reflexivity|].
  cbn [proc_table proc_trapframe next_pid run_queue proc_allocator items].
  split_and!; try done.
  - unfold pid_to_proc. cbn [proc_table].
    rewrite (pid_to_proc_from_insert (next_pid k) _ _ 0 e); try done.
    + by eapply lookup_lt_Some.
    + intros j q _ Hq. unfold pid_matches.
      destruct (Z.eqb_spec (pid q) (next_pid k)) as [Hpid|]; [|done].
      case_bool_decide as Hs; [done|]. exfalso. apply Hfresh. by exists j, q.
    + unfold pid_matches, created_proc. cbn [pid state].
      by rewrite Z.eqb_refl.
  - apply list_lookup_insert_eq. by eapply lookup_lt_Some.
  - unfold created_proc. cbn [name].
    by rewrite length_insert, strncpy_length.
  - intros Hn. unfold created_proc. cbn [name].
    apply list_lookup_insert_eq. rewrite strncpy_length. lia.
  - apply list_lookup_insert_eq. by eapply lookup_lt_Some.
Qed.

Lemma ksyscall_irq_handler_dispatch k a p e tf :
  active_proc k = Some a ->
  proc_table k !! a = Some p ->
  trapframe p = Some e ->
  proc_trapframe k !! e = Some tf ->
  active_trapframe k = Ok (e, tf) /\
  ksyscall_irq_handler k =
    if eax tf =? uint_wrap SYSCALL_SYS_GET_TIME then
      do r <- ksyscall_sys_get_time k; write_back r
    else if eax tf =? uint_wrap SYSCALL_SYS_GET_NAME then
      do r <- ksyscall_sys_get_name (ebx tf) k; write_back r
    else if eax tf =? uint_wrap SYSCALL_PROC_EXIT then
      do r <- ksyscall_proc_exit k; write_back r
    else if eax tf =? uint_wrap SYSCALL_PROC_GET_PID then
      do r <- ksyscall_proc_get_pid k; write_back r
    else if eax tf =? uint_wrap SYSCALL_PROC_GET_NAME then
      do r <- ksyscall_proc_get_name (ebx tf) k; write_back r
    else kernel_panic "Invalid system call %d!".
Proof.
  intros Ha Hp He Htf.
  unfold ksyscall_irq_handler, active_trapframe, load.
  rewrite Ha, Hp. cbn [bind]. rewrite He, Htf. done.
Qed.

(** X15: the dispatcher hands a handler's result back in the EAX of the
    active process's frame.  With the identifier of [SYSCALL_SYS_GET_TIME]
    in EAX the frame receives the tick count divided by 100, rounded
    towards zero; with the identifier of [SYSCALL_PROC_GET_PID], when that
    is none of the identifiers tested before it, the frame receives the pid
    of the active process.  Nothing else of the kernel state changes. *)
Theorem ksyscall_irq_handler_returns_in_eax k a p e tf :
  active_proc k = Some a ->
  proc_table k !! a = Some p ->
  trapframe p = Some e ->
  proc_trapframe k !! e = Some tf ->
  (eax tf = uint_wrap SYSCALL_SYS_GET_TIME ->
   ksyscall_irq_handler k =
   Ok (set_proc_trapframe
         (<[e := set_eax (uint_wrap (Z.quot (ticks k) 100)) tf]>
            (proc_trapframe k)) k)) /\
  (eax tf <> uint_wrap SYSCALL_SYS_GET_TIME ->
   eax tf <> uint_wrap SYSCALL_SYS_GET_NAME ->
   eax tf <> uint_wrap SYSCALL_PROC_EXIT ->
   eax tf = uint_wrap SYSCALL_PROC_GET_PID ->
   ksyscall_irq_handler k =
   Ok (set_proc_trapframe
         (<[e := set_eax (uint_wrap (pid p)) tf]> (proc_trapframe k)) k)).
Proof.
  intros Ha Hp He Htf.
  destruct (ksyscall_irq_handler_dispatch k a p e tf) as [Hat ->]; try done.
  assert (Hwb : forall rc,
             write_back (rc, k) =
             Ok (set_proc_trapframe
                   (<[e := set_eax (uint_wrap rc) tf]> (proc_trapframe k)) k)).
  { intros rc. cbn [write_back]. by rewrite Hat. }
  split.
  - intros ->. rewrite Z.eqb_refl. unfold ksyscall_sys_get_time.
    cbn [bind]. apply Hwb.
  - intros H1 H2 H3 H4.
    destruct (Z.eqb_spec (eax tf) (uint_wrap SYSCALL_SYS_GET_TIME));
      [done|].
    destruct (Z.eqb_spec (eax tf) (uint_wrap SYSCALL_SYS_GET_NAME));
      [done|].
    destruct (Z.eqb_spec (eax tf) (uint_wrap SYSCALL_PROC_EXIT));
      [done|].
    rewrite H4, Z.eqb_refl. unfold ksyscall_proc_get_pid, load.
    rewrite Ha, Hp. cbn [bind]. apply Hwb.
Qed.

Lemma strncpy_no_nul (src : list Z) :
  0 ∉ src -> strncpy src (S (length src)) = src ++ [0].
Proof.
  induction src as [|c src IH]; intros Hnin; [done|].
  change (strncpy (c :: src) (S (length (c :: src))))
    with (if c =? 0 then 0 :: strncpy [] (S (length src))
          else c :: strncpy src (S (length src))).
  destruct (Z.eqb_spec c 0) as [->|_].
  - exfalso. apply Hnin. by left.
  - rewrite IH; [done|]. intros Hin. apply Hnin. by right.
Qed.

(** X16: [ksyscall_sys_get_name] returns -1 and changes nothing for a
    null buffer.  For another buffer it returns 0, stores the characters of
    [OS_NAME] followed by a zero byte at the buffer (when the name holds no
    zero byte itself), and leaves the rest of memory, the process table
    and the queues as they are. *)
Theorem ksyscall_sys_get_name_copies_os_name buf k :
  (buf = 0 -> ksyscall_sys_get_name buf k = Ok (-1, k)) /\
  (buf <> 0 ->
   exists k',
     ksyscall_sys_get_name buf k = Ok (0, k') /\
     proc_table k' = proc_table k /\ active_proc k' = active_proc k /\
     run_queue k' = run_queue k /\ sleep_queue k' = sleep_queue k /\
     (0 ∉ OS_NAME ->
      (forall j b, OS_NAME !! j = Some b -> memory k' (buf + Z.of_nat j) = b) /\
      memory k' (buf + Z.of_nat (length OS_NAME)) = 0) /\
     (forall addr,
        addr < buf \/ buf + Z.of_nat (length OS_NAME) + 1 <= addr ->
        memory k' addr = memory k addr)).
Proof.
  unfold ksyscall_sys_get_name. split.
  - intros ->. done.
  - intros Hbuf. destruct (Z.eqb_spec buf 0) as [|_]; [done|].
    eexists. split; [reflexivity|]. cbn [proc_table active_proc run_queue
      sleep_queue memory set_memory].
    split_and!; try done.
    + intros Hnn. rewrite strncpy_no_nul by done. split.
      * intros j b Hj. apply store_bytes_inside.
        by rewrite lookup_app_l by by eapply lookup_lt_Some.
      * apply store_bytes_inside.
        rewrite lookup_app_r by done. by rewrite Nat.sub_diag.
    + intros addr Haddr. apply store_bytes_outside.
      rewrite strncpy_length. lia.
Qed.
Lemma int_wrap_add x y : int_wrap (int_wrap x + y) = int_wrap (x + y).
Proof.
  unfold int_wrap.
  replace ((x + 2 ^ 31) mod 2 ^ 32 - 2 ^ 31 + y + 2 ^ 31)
    with ((x + 2 ^ 31) mod 2 ^ 32 + y) by lia.
  rewrite Zplus_mod_idemp_l. f_equal. f_equal. lia.
Qed.

Lemma scheduler_timer_Ok k :
  active_valid k ->
  exists k',
    scheduler_timer k = Ok k' /\
    active_proc k' = active_proc k /\
    run_queue k' = run_queue k /\ sleep_queue k' = sleep_queue k /\
    ticks k' = ticks k /\
    (forall a p, active_proc k = Some a -> proc_table k !! a = Some p ->
       proc_table k' =
         <[a := set_cpu_time (int_wrap (cpu_time p + 1))
                  (set_run_time (int_wrap (run_time p + 1)) p)]>
           (proc_table k)) /\
    (active_proc k = None -> k' = k) /\
    active_valid k'.
Proof.
  intros Hv. unfold scheduler_timer, load.
  destruct (active_proc k) as [a|] eqn:Ha.
  - destruct (active_valid_lookup k a Hv Ha) as [p Hp]. rewrite Hp.
    eexists. split; [reflexivity|]. split_and!; try done.
    + intros a' p' [= <-] Hp'. rewrite Hp in Hp'. by injection Hp' as <-.
    + intros a' Ha'. cbn in *. rewrite length_insert. apply Hv. congruence.
  - eexists. split; [reflexivity|]. split_and!; try done.
Qed.

(** X17: [n] ticks of the timer, [n] at least one, add [n] to the run time
    and to the CPU time of the active process, in 32-bit arithmetic, and
    change nothing else: not the queues, not [active_proc], no other PCB.
    With no active process they change nothing at all. *)
Theorem scheduler_timer_accumulates (n : nat) k :
  (0 < n)%nat -> active_valid k ->
  exists k',
    scheduler_timer_n n k = Ok k' /\
    active_proc k' = active_proc k /\
    run_queue k' = run_queue k /\ sleep_queue k' = sleep_queue k /\
    ticks k' = ticks k /\
    (forall a p, active_proc k = Some a -> proc_table k !! a = Some p ->
       proc_table k' =
         <[a := set_cpu_time (int_wrap (cpu_time p + Z.of_nat n))
                  (set_run_time (int_wrap (run_time p + Z.of_nat n)) p)]>
           (proc_table k)) /\
    (active_proc k = None -> k' = k).
Proof.
  intros Hn. destruct n as [|n]; [lia|clear Hn].
  revert k. induction n as [|n IH]; intros k Hv;
    destruct (scheduler_timer_Ok k Hv)
      as (k1 & Hk1 & Ha1 & Hr1 & Hs1 & Ht1 & Hp1 & Hn1 & Hv1).
  - exists k1. cbn [scheduler_timer_n]. rewrite Hk1.
    split; [done|]. by split_and!.
  - destruct (IH k1 Hv1) as (k' & Hk' & Ha & Hr & Hs & Ht & Hp & Hnone).
    exists k'.
    change (scheduler_timer_n (S (S n)) k)
      with (do k1 <- scheduler_timer k; scheduler_timer_n (S n) k1).
    rewrite Hk1. cbn [bind].
    split; [exact Hk'|]. split_and!; try congruence.
    + intros a p Hact Hlook.
      rewrite (Hp a (set_cpu_time (int_wrap (cpu_time p + 1))
                       (set_run_time (int_wrap (run_time p + 1)) p)));
        [|congruence|].
      * rewrite (Hp1 a p Hact Hlook), list_insert_insert_eq.
        f_equal. cbn [cpu_time run_time set_cpu_time set_run_time].
        rewrite !int_wrap_add.
        replace (cpu_time p + 1 + Z.of_nat (S n))
          with (cpu_time p + Z.of_nat (S (S n))) by lia.
        replace (run_time p + 1 + Z.of_nat (S n))
          with (run_time p + Z.of_nat (S (S n))) by lia.
        done.
      * rewrite (Hp1 a p Hact Hlook). apply list_lookup_insert_eq.
        by eapply lookup_lt_Some.
    + intros Hnone'. rewrite Hnone by congruence. by apply Hn1.
Qed.

Lemma remove_loop_returns pid' fuel :
  forall i q,
    0 <= i -> queue_size q <= QUEUE_SIZE ->
    queue_size q - i <= Z.of_nat fuel ->
    exists q', remove_loop fuel pid' i q = Ok q' /\
               queue_size q' <= queue_size q.
Proof.
  induction fuel as [|fuel IH]; intros i q Hi Hcap Hfuel;
    cbn [remove_loop];
    destruct (Z.ltb_spec i (queue_size q)) as [Hlt|Hge];
    try (exists q; split; [done|lia]); [lia|].
  unfold queue_out, queue_size in *.
  destruct q as [[|v l]]; cbn [items length] in *; [lia|].
  destruct (pid' =? v).
  - destruct (IH (i + 1) (mkQueue l)) as (q' & Hq' & Hsz);
      cbn [items]; try lia.
    exists q'. split; [done|]. cbn [items] in Hsz. lia.
  - unfold queue_in, queue_in_cap, queue_size. cbn [items].
    destruct (Z.ltb_spec (Z.of_nat (length l)) QUEUE_SIZE); [|lia].
    destruct (IH (i + 1) (mkQueue (l ++ [v]))) as (q' & Hq' & Hsz);
      cbn [items]; rewrite ?length_app; cbn [length]; try lia.
    exists q'. split; [done|]. cbn [items] in Hsz.
    rewrite length_app in Hsz. cbn [length] in Hsz. lia.
Qed.

Lemma scheduler_remove_returns i k p :
  proc_table k !! i = Some p ->
  (forall qid, scheduler_queue p = Some qid ->
               queue_size (get_queue qid k) <= QUEUE_SIZE) ->
  exists k', scheduler_remove (Some i) k = Ok k'.
Proof.
  intros Hp Hcap. unfold scheduler_remove, load. rewrite Hp. cbn [bind].
  destruct (scheduler_queue p) as [qid|].
  - destruct (remove_loop_returns (pid p)
                (Z.to_nat (queue_size (get_queue qid k))) 0
                (get_queue qid k)) as (q' & -> & _); [done|by apply Hcap|lia|].
    cbn [bind]. destruct (bool_decide _); eauto.
  - cbn [bind]. destruct (bool_decide _); eauto.
Qed.

(** X18: [kproc_destroy] of a process in use, other than the idle task,
    returns 0 when the queue its back-reference names is within capacity.
    The PCB is zeroed, so [entry_to_proc] no longer finds the slot;
    [active_proc] is reset if it pointed to it; the slot is appended to the
    free-list unless that is full; every other PCB keeps its identity and
    its state. *)
Theorem kproc_destroy_frees_slot i k p :
  proc_table k !! i = Some p ->
  state p <> NONE -> pid p <> 0 ->
  (forall qid, scheduler_queue p = Some qid ->
               queue_size (get_queue qid k) <= QUEUE_SIZE) ->
  exists k',
    kproc_destroy (Some i) k = Ok (0, k') /\
    proc_table k' !! i = Some proc_zero /\
    entry_to_proc (proc_to_entry i) k' = None /\
    (forall j q, j <> i -> proc_table k !! j = Some q ->
                 exists q', proc_table k' !! j = Some q' /\
                            same_process q q' /\ state q' = state q) /\
    active_proc k' =
      (if bool_decide (active_proc k = Some i) then None else active_proc k) /\
    proc_allocator k' =
      queue_in_unchecked (proc_allocator k) (proc_to_entry i) /\
    next_pid k' = next_pid k.
Proof.
  intros Hp Hs Hpid Hcap.
  destruct (scheduler_remove_returns i k p Hp Hcap) as (k1 & Hrem).
  destruct (scheduler_remove_frame _ _ _ Hrem) as (Hf & Hst & Ha).
  unfold kproc_destroy, load. rewrite Hp. cbn [bind].
  rewrite bool_decide_eq_false_2 by done.
  destruct (Z.eqb_spec (pid p) 0) as [|_]; [done|]. cbn [orb].
  rewrite Hrem. cbn [bind].
  destruct (sched_frame_lookup _ _ _ _ Hf Hp) as (p1 & Hp1 & _).
  assert (Hz : proc_table (store i proc_zero k1) !! i = Some proc_zero)
    by by eapply lookup_store_same.
  rewrite Hz. cbn [bind stack proc_zero memset_stack].
  eexists. split; [reflexivity|].
  cbn [proc_table set_proc_allocator proc_allocator active_proc next_pid].
  split; [exact Hz|]. split_and!.
  - unfold entry_to_proc, proc_to_entry.
    cbn [proc_table set_proc_allocator]. rewrite Nat2Z.id, Hz.
    by destruct (_ && _).
  - intros j q Hne Hq.
    destruct (sched_frame_lookup _ _ _ _ Hf Hq) as (q' & Hq' & Hqq').
    exists q'. split_and!; [|done|].
    + unfold store. cbn [proc_table set_proc_table].
      by rewrite list_lookup_insert_ne.
    + apply states_lookup in Hq, Hq'. rewrite Hst in Hq'. congruence.
  - done.
  - f_equal. apply Hf.
  - apply Hf.
Qed.
End MoreProofs.

(** * bit.c *)

Section BitProofs.

Lemma uint_wrap_bits z n :
  0 <= n ->
  Z.testbit (uint_wrap z) n = (n <? 32) && Z.testbit z n.
Proof.
  intros Hn. unfold uint_wrap. destruct (Z.ltb_spec n 32).
  - by rewrite Z.mod_pow2_bits_low by lia.
  - by rewrite Z.mod_pow2_bits_high by lia.
Qed.

Lemma uint_range_bits z :
  uint_range z <-> uint_wrap z = z.
Proof.
  unfold uint_range, uint_wrap. split.
  - intros Hz. by apply Z.mod_small.
  - intros <-. apply Z.mod_pos_bound. lia.
Qed.

Lemma uint_range_high z n : uint_range z -> 32 <= n -> Z.testbit z n = false.
Proof.
  intros Hz%uint_range_bits Hn. rewrite <- Hz, uint_wrap_bits by lia.
  destruct (Z.ltb_spec n 32); [lia|done].
Qed.

Lemma uint_range_from_bits z :
  (forall n, 0 <= n -> Z.testbit z n = (n <? 32) && Z.testbit z n) ->
  uint_range z.
Proof.
  intros Hb. apply uint_range_bits. apply Z.bits_inj'. intros n Hn.
  rewrite uint_wrap_bits by done. symmetry. by apply Hb.
Qed.

Lemma int_wrap_bits z n :
  0 <= n < 32 -> Z.testbit (int_wrap z) n = Z.testbit z n.
Proof.
  intros Hn.
  rewrite <- (Z.mod_pow2_bits_low (int_wrap z) 32 n) by lia.
  rewrite <- (Z.mod_pow2_bits_low z 32 n) by lia.
  f_equal. unfold int_wrap. rewrite Zminus_mod_idemp_l.
  f_equal. lia.
Qed.

Lemma one_shl_bits bit n :
  0 <= bit -> 0 <= n ->
  Z.testbit (uint_wrap (one_shl bit)) n = (n <? 32) && (n =? bit).
Proof.
  intros Hb Hn. rewrite uint_wrap_bits by done.
  destruct (Z.ltb_spec n 32); [|done]. cbn [andb]. unfold one_shl.
  rewrite int_wrap_bits by lia.
  rewrite Z.shiftl_1_l, Z.pow2_bits_eqb by done.
  apply Z.eqb_sym.
Qed.

Lemma not_one_shl_bits bit n :
  0 <= bit -> 0 <= n ->
  Z.testbit (uint_wrap (Z.lnot (one_shl bit))) n =
  (n <? 32) && negb (n =? bit).
Proof.
  intros Hb Hn. rewrite uint_wrap_bits by done.
  destruct (Z.ltb_spec n 32); [|done]. cbn [andb]. unfold one_shl.
  rewrite Z.lnot_spec, int_wrap_bits by lia.
  rewrite Z.shiftl_1_l, Z.pow2_bits_eqb by done.
  by rewrite Z.eqb_sym.
Qed.

Lemma shift_defined_true bit : 0 <= bit < 32 -> shift_defined bit = true.
Proof.
  intros Hb. unfold shift_defined.
  destruct (Z.leb_spec 0 bit); [|lia]. destruct (Z.ltb_spec bit 32); [|lia].
  done.
Qed.

Lemma bit_test_testbit value bit :
  0 <= bit < 32 -> bit_test value bit = Ok (Z.b2z (Z.testbit value bit)).
Proof.
  intros Hb. unfold bit_test. rewrite shift_defined_true by done. f_equal.
  change 1 with (Z.ones 1). rewrite Z.land_ones by lia.
  change (2 ^ 1) with 2. rewrite <- Z.bit0_mod.
  rewrite Z.shiftr_spec by lia. by rewrite Z.add_0_l.
Qed.

Lemma bit_set_bits value bit :
  uint_range value -> 0 <= bit < 32 ->
  exists s, bit_set value bit = Ok s /\ uint_range s /\
            forall n, 0 <= n ->
                      Z.testbit s n = Z.testbit value n || (n =? bit).
Proof.
  intros Hv Hb. unfold bit_set. rewrite shift_defined_true by done.
  eexists. split; [done|].
  assert (Hbits : forall n, 0 <= n ->
             Z.testbit (Z.lor value (uint_wrap (one_shl bit))) n =
             Z.testbit value n || (n =? bit)).
  { intros n Hn. rewrite Z.lor_spec, one_shl_bits by lia.
    destruct (Z.ltb_spec n 32); [done|].
    destruct (Z.eqb_spec n bit); [lia|done]. }
  split; [|done]. apply uint_range_from_bits. intros n Hn.
  rewrite Hbits by done. destruct (Z.ltb_spec n 32); [done|].
  rewrite (uint_range_high value n) by done.
  destruct (Z.eqb_spec n bit); [lia|done].
Qed.

Lemma bit_clear_bits value bit :
  uint_range value -> 0 <= bit < 32 ->
  exists s, bit_clear value bit = Ok s /\ uint_range s /\
            forall n, 0 <= n ->
                      Z.testbit s n = Z.testbit value n && negb (n =? bit).
Proof.
  intros Hv Hb. unfold bit_clear. rewrite shift_defined_true by done.
  eexists. split; [done|].
  assert (Hbits : forall n, 0 <= n ->
             Z.testbit (Z.land value (uint_wrap (Z.lnot (one_shl bit)))) n =
             Z.testbit value n && negb (n =? bit)).
  { intros n Hn. rewrite Z.land_spec, not_one_shl_bits by lia.
    destruct (Z.ltb_spec n 32); [done|].
    by rewrite (uint_range_high value n). }
  split; [|done]. apply uint_range_from_bits. intros n Hn.
  rewrite Hbits by done. destruct (Z.ltb_spec n 32); [done|].
  by rewrite (uint_range_high value n).
Qed.

Lemma bit_toggle_bits value bit :
  uint_range value -> 0 <= bit < 32 ->
  exists s, bit_toggle value bit = Ok s /\ uint_range s /\
            forall n, 0 <= n ->
                      Z.testbit s n = xorb (Z.testbit value n) (n =? bit).
Proof.
  intros Hv Hb. unfold bit_toggle. rewrite shift_defined_true by done.
  eexists. split; [done|].
  assert (Hbits : forall n, 0 <= n ->
             Z.testbit (Z.lxor value (uint_wrap (one_shl bit))) n =
             xorb (Z.testbit value n) (n =? bit)).
  { intros n Hn. rewrite Z.lxor_spec, one_shl_bits by lia.
    destruct (Z.ltb_spec n 32); [done|].
    destruct (Z.eqb_spec n bit); [lia|done]. }
  split; [|done]. apply uint_range_from_bits. intros n Hn.
  rewrite Hbits by done. destruct (Z.ltb_spec n 32); [done|].
  rewrite (uint_range_high value n) by done.
  destruct (Z.eqb_spec n bit); [lia|done].
Qed.

(** X19: reading back a bit.  For a 32-bit value and bit numbers from 0
    to 31, [bit_test] of the result of [bit_set] is 1 at the bit set, of
    [bit_clear] 0 at the bit cleared, of [bit_toggle] the complement at the
    bit toggled; at every other bit it is [bit_test] of the value
    itself. *)
Theorem bit_test_after_update value bit bit' :
  uint_range value -> 0 <= bit < 32 -> 0 <= bit' < 32 ->
  (do s <- bit_set value bit; bit_test s bit') =
    (if bit' =? bit then Ok 1 else bit_test value bit') /\
  (do s <- bit_clear value bit; bit_test s bit') =
    (if bit' =? bit then Ok 0 else bit_test value bit') /\
  (do s <- bit_toggle value bit; bit_test s bit') =
    (if bit' =? bit then do t <- bit_test value bit; Ok (1 - t)
     else bit_test value bit').
Proof.
  intros Hv Hb Hb'.
  destruct (bit_set_bits value bit Hv Hb) as (s & -> & _ & Hs).
  destruct (bit_clear_bits value bit Hv Hb) as (c & -> & _ & Hc).
  destruct (bit_toggle_bits value bit Hv Hb) as (t & -> & _ & Ht).
  cbn [bind]. rewrite !bit_test_testbit by done. cbn [bind].
  rewrite Hs, Hc, Ht by lia.
  destruct (Z.eqb_spec bit' bit) as [->|_].
  - rewrite orb_true_r, andb_false_r. split_and!; try done.
    by destruct (Z.testbit value bit).
  - by rewrite orb_false_r, andb_true_r, xorb_false_r.
Qed.

(** X20: for a 32-bit value and a bit number from 0 to 31, [bit_toggle]
    twice gives the value back, clearing a bit just set is clearing it,
    setting a bit just cleared is setting it, and [bit_set] and [bit_clear]
    are idempotent. *)
Theorem bit_update_round_trips value bit :
  uint_range value -> 0 <= bit < 32 ->
  (do s <- bit_toggle value bit; bit_toggle s bit) = Ok value /\
  (do s <- bit_set value bit; bit_clear s bit) = bit_clear value bit /\
  (do s <- bit_clear value bit; bit_set s bit) = bit_set value bit /\
  (do s <- bit_set value bit; bit_set s bit) = bit_set value bit /\
  (do s <- bit_clear value bit; bit_clear s bit) = bit_clear value bit.
Proof.
  intros Hv Hb.
  destruct (bit_set_bits value bit Hv Hb) as (s & Hs & Hsr & Hsb).
  destruct (bit_clear_bits value bit Hv Hb) as (c & Hc & Hcr & Hcb).
  destruct (bit_toggle_bits value bit Hv Hb) as (t & Ht & Htr & Htb).
  destruct (bit_toggle_bits t bit Htr Hb) as (tt & Htt & _ & Httb).
  destruct (bit_clear_bits s bit Hsr Hb) as (sc & Hsc & _ & Hscb).
  destruct (bit_set_bits c bit Hcr Hb) as (cs & Hcs & _ & Hcsb).
  destruct (bit_set_bits s bit Hsr Hb) as (ss & Hss & _ & Hssb).
  destruct (bit_clear_bits c bit Hcr Hb) as (cc & Hcc & _ & Hccb).
  rewrite Hs, Hc, Ht. cbn [bind]. rewrite Htt, Hsc, Hcs, Hss, Hcc.
  split_and!; f_equal; apply Z.bits_inj'; intros n Hn.
  - rewrite Httb, Htb by done. by destruct (Z.testbit value n), (n =? bit).
  - rewrite Hscb, Hsb, Hcb by done.
    by destruct (Z.testbit value n), (n =? bit).
  - rewrite Hcsb, Hsb, Hcb by done.
    by destruct (Z.testbit value n), (n =? bit).
  - rewrite Hssb, Hsb by done. by destruct (Z.testbit value n), (n =? bit).
  - rewrite Hccb, Hcb by done. by destruct (Z.testbit value n), (n =? bit).
Qed.

Lemma count_bits_from_shiftr start n z :
  0 <= start ->
  count_bits_from start n (Z.shiftr z 1) = count_bits_from (start + 1) n z.
Proof.
  revert start. induction n as [|n IH]; intros start Hs; [done|].
  cbn [count_bits_from]. rewrite Z.shiftr_spec, IH by lia. done.
Qed.

Lemma count_bits_from_zero start n : count_bits_from start n 0 = 0.
Proof.
  revert start. induction n as [|n IH]; intros start; [done|].
  cbn [count_bits_from]. by rewrite Z.bits_0, IH.
Qed.

Lemma count_bits_from_range start n z :
  0 <= count_bits_from start n z <= Z.of_nat n.
Proof.
  revert start. induction n as [|n IH]; intros start; [done|].
  cbn [count_bits_from]. specialize (IH (start + 1)).
  destruct (Z.testbit z start); cbn [Z.b2z]; lia.
Qed.

Lemma count_bits_from_snoc start n z :
  count_bits_from start (S n) z =
  count_bits_from start n z + Z.b2z (Z.testbit z (start + Z.of_nat n)).
Proof.
  revert start. induction n as [|n IH]; intros start.
  - cbn [count_bits_from]. change (Z.of_nat 0) with 0.
    rewrite (Z.add_0_r start). lia.
  - change (count_bits_from start (S (S n)) z)
      with (Z.b2z (Z.testbit z start) + count_bits_from (start + 1) (S n) z).
    rewrite IH. cbn [count_bits_from].
    replace (start + 1 + Z.of_nat n) with (start + Z.of_nat (S n)) by lia.
    lia.
Qed.

Lemma bit_count_loop_spec fuel :
  forall count number,
    0 <= number < 2 ^ Z.of_nat fuel ->
    0 <= count -> count + Z.of_nat fuel < 2 ^ 32 ->
    bit_count_loop fuel count number =
    Ok (count + count_bits_from 1 fuel number).
Proof.
  induction fuel as [|fuel IH]; intros count number Hn Hc Hcf;
    cbn [bit_count_loop]; destruct (Z.gtb_spec number 0) as [Hpos|Hz].
  - change (2 ^ Z.of_nat 0) with 1 in Hn. lia.
  - cbn [count_bits_from]. f_equal. lia.
  - assert (Hbit : Z.land (Z.shiftr number 1) 1 =
                   Z.b2z (Z.testbit number 1)).
    { change 1 with (Z.ones 1) at 2. rewrite Z.land_ones by lia.
      change (2 ^ 1) with 2. rewrite <- Z.bit0_mod.
      by rewrite Z.shiftr_spec by lia. }
    rewrite Hbit.
    assert (Hw : uint_wrap (count + Z.b2z (Z.testbit number 1)) =
                 count + Z.b2z (Z.testbit number 1)).
    { apply Z.mod_small. destruct (Z.testbit number 1); cbn [Z.b2z]; lia. }
    rewrite Hw, IH.
    + cbn [count_bits_from]. rewrite count_bits_from_shiftr by lia.
      f_equal. lia.
    + rewrite Z.shiftr_div_pow2 by lia. change (2 ^ 1) with 2.
      rewrite Nat2Z.inj_succ, Z.pow_succ_r in Hn by lia.
      split; [apply Z.div_pos; lia|].
      apply Z.div_lt_upper_bound; lia.
    + destruct (Z.testbit number 1); cbn [Z.b2z]; lia.
    + destruct (Z.testbit number 1); cbn [Z.b2z]; lia.
  - assert (number = 0) as -> by lia.
    rewrite count_bits_from_zero. f_equal. lia.
Qed.

(** X21: [bit_count] of a 32-bit value returns the number of bits set
    among bits 1 to 31: the loop shifts before it looks at the lowest
    bit, so bit 0 is never counted, and a value with bit 0 set yields one
    less than the number of its set bits. *)
Theorem bit_count_skips_bit_zero value :
  uint_range value ->
  bit_count value = Ok (count_bits_from 1 31 value) /\
  (Z.testbit value 0 = true ->
   bit_count value = Ok (count_bits_from 0 32 value - 1)).
Proof.
  intros Hv.
  assert (Hc : bit_count value = Ok (count_bits_from 1 31 value)).
  { unfold bit_count. rewrite bit_count_loop_spec; [|done|lia|done].
    rewrite count_bits_from_snoc.
    rewrite (uint_range_high value (1 + Z.of_nat 31)) by (done || lia).
    cbn [Z.b2z]. f_equal. lia. }
  split; [done|]. intros H0. rewrite Hc. f_equal.
  change (count_bits_from 0 32 value)
    with (Z.b2z (Z.testbit value 0) + count_bits_from 1 31 value).
  rewrite H0. cbn [Z.b2z]. lia.
Qed.
End BitProofs.

(** * keyboard.c *)

Section KeyboardProofs.
Context `{KeyboardConfig}.

Lemma ascii_values_lookup (n : nat) :
  (n < 128)%nat -> ascii_values !! n = Some (Z.of_nat n).
Proof.
  intros Hn.
  change ascii_values with (Z.of_nat <$> seq 0 128).
  rewrite list_lookup_fmap, lookup_seq_lt by done. done.
Qed.

Lemma land_127_small c : 0 <= c < 128 -> Z.land c 127 = c.
Proof.
  intros Hc. change 127 with (Z.ones 7). rewrite Z.land_ones by lia.
  apply Z.mod_small. change (2 ^ 7) with 128. lia.
Qed.

Lemma land_127_range c : 0 <= Z.land c 127 < 128.
Proof.
  change 127 with (Z.ones 7). rewrite Z.land_ones by lia.
  change (2 ^ 7) with 128. apply Z.mod_pos_bound. lia.
Qed.

Lemma land_128_small c : 0 <= c < 128 -> Z.land c 128 = 0.
Proof.
  intros Hc. apply Z.bits_inj'. intros n Hn.
  rewrite Z.land_spec, Z.bits_0. change 128 with (2 ^ 7).
  rewrite Z.pow2_bits_eqb by lia.
  destruct (Z.eqb_spec 7 n) as [<-|]; [|by rewrite andb_false_r].
  rewrite <- (Z.mod_small c (2 ^ 7)) by (change (2 ^ 7) with 128; lia).
  by rewrite Z.mod_pow2_bits_high by lia.
Qed.

(** X22: [keyboard_decode] returns [KEY_NULL] for every key release (a
    scan code with bit 7 set).  A release never changes the Caps Lock
    flag, and the release of a key that is no modifier changes no flag. *)
Theorem keyboard_decode_release_returns_null c kb :
  Z.land c 128 <> 0 ->
  exists kb',
    keyboard_decode c kb = Ok (KEY_NULL, kb') /\
    caps_lock_on kb' = caps_lock_on kb /\
    (is_modifier (Z.land c 127) = false -> kb' = kb).
Proof.
  intros Hrel. unfold keyboard_decode, is_modifier.
  destruct (Z.eqb_spec (Z.land c 128) 0) as [|_]; [done|].
  pose proof (land_127_range c) as Hr.
  destruct (Z.land c 127 =? ASCII_LEFT_SHIFT),
           (Z.land c 127 =? ASCII_RIGHT_SHIFT); cbn [orb];
    try (eexists; split; [reflexivity|]; split; [done|]; done).
  destruct (Z.land c 127 =? ASCII_CAPS_LOCK); cbn [orb];
    [eexists; split; [reflexivity|]; split; [done|]; done|].
  destruct (Z.land c 127 =? ASCII_CTRL); cbn [orb];
    [eexists; split; [reflexivity|]; split; [done|]; done|].
  destruct (Z.land c 127 =? ASCII_ALT); cbn [orb];
    [eexists; split; [reflexivity|]; split; [done|]; done|].
  destruct (Z.ltb_spec (Z.land c 127) 128); [|lia].
  rewrite (ascii_values_lookup (Z.to_nat (Z.land c 127))) by lia.
  cbn [Z.eqb]. by exists kb.
Qed.

Lemma keyboard_decode_pressed_key_aux c kb :
  0 <= c < 128 -> is_modifier c = false ->
  keyboard_decode c kb =
  Ok (if (97 <=? c) && (c <=? 122)
      then (if upper_case kb then c - 32 else c + 32)
      else c, kb).
Proof.
  intros Hc Hmod. unfold keyboard_decode, is_modifier in *.
  rewrite land_127_small, land_128_small by done.
  apply orb_false_iff in Hmod as [Hmod ->].
  apply orb_false_iff in Hmod as [Hmod ->].
  apply orb_false_iff in Hmod as [Hmod ->].
  rewrite Hmod.
  destruct (Z.ltb_spec c 128); [|lia].
  rewrite (ascii_values_lookup (Z.to_nat c)) by lia.
  rewrite Z2Nat.id by lia. cbn [Z.eqb]. f_equal. f_equal.
  destruct (Z.leb_spec 97 c), (Z.leb_spec c 122); cbn [andb];
    try (apply Z.mod_small; lia).
  unfold upper_case.
  destruct (shift_pressed kb =? 0), (caps_lock_on kb =? 0);
    cbn [negb andb orb xorb]; apply Z.mod_small; lia.
Qed.

(** X23: [keyboard_decode] of the press of a key that is no modifier
    (a code from 0 to 127) changes no flag.  It returns the code itself
    unless the code is that of a lower-case letter (97 to 122), for which
    it returns the code minus 32 when exactly one of Shift and Caps Lock
    is on, and the code plus 32 otherwise. *)
Theorem keyboard_decode_pressed_key c kb :
  0 <= c < 128 -> is_modifier c = false ->
  exists r,
    keyboard_decode c kb = Ok (r, kb) /\
    (c < 97 \/ 122 < c -> r = c) /\
    (97 <= c <= 122 -> upper_case kb = true -> r = c - 32) /\
    (97 <= c <= 122 -> upper_case kb = false -> r = c + 32).
Proof.
  intros Hc Hmod. rewrite keyboard_decode_pressed_key_aux by done.
  eexists. split; [done|].
  destruct (Z.leb_spec 97 c), (Z.leb_spec c 122); cbn [andb];
    split_and!; try lia; try done; by intros _ ->.
Qed.

(** X24: the modifiers at work, for the code [c] of a lower-case letter.
    After the press of left Shift the letter decodes to [c - 32] with Caps
    Lock off and to [c + 32] with Caps Lock on; after the release of left
    Shift it is the other way round; and two presses of Caps Lock restore
    the flags. *)
Theorem keyboard_decode_shift_and_caps c kb :
  97 <= c <= 122 -> caps_lock_on kb = 0 \/ caps_lock_on kb = 1 ->
  (do r <- keyboard_decode ASCII_LEFT_SHIFT kb; keyboard_decode c (snd r)) =
    Ok ((if caps_lock_on kb =? 0 then c - 32 else c + 32),
        mkKeyboard 1 (caps_lock_on kb) (ctrl_pressed kb) (alt_pressed kb)) /\
  (do r <- keyboard_decode (ASCII_LEFT_SHIFT + 128) kb;
   keyboard_decode c (snd r)) =
    Ok ((if caps_lock_on kb =? 0 then c + 32 else c - 32),
        mkKeyboard 0 (caps_lock_on kb) (ctrl_pressed kb) (alt_pressed kb)) /\
  (do r1 <- keyboard_decode ASCII_CAPS_LOCK kb;
   do r2 <- keyboard_decode ASCII_CAPS_LOCK (snd r1); Ok (snd r2)) = Ok kb.
Proof.
  intros Hc Hcaps.
  assert (Hmod : is_modifier c = false).
  { unfold is_modifier, ASCII_LEFT_SHIFT, ASCII_RIGHT_SHIFT, ASCII_CAPS_LOCK,
      ASCII_CTRL, ASCII_ALT.
    repeat (apply orb_false_iff; split); apply Z.eqb_neq; lia. }
  assert (Hin : (97 <=? c) && (c <=? 122) = true).
  { destruct (Z.leb_spec 97 c), (Z.leb_spec c 122); (done || lia). }
  split_and!.
  - change (keyboard_decode ASCII_LEFT_SHIFT kb)
      with (Ok (KEY_NULL, mkKeyboard 1 (caps_lock_on kb) (ctrl_pressed kb)
                                     (alt_pressed kb))).
    cbn [bind snd]. rewrite keyboard_decode_pressed_key_aux by (lia || done).
    rewrite Hin. unfold upper_case. cbn [shift_pressed caps_lock_on Z.eqb negb].
    by destruct (caps_lock_on kb =? 0).
  - change (keyboard_decode (ASCII_LEFT_SHIFT + 128) kb)
      with (Ok (KEY_NULL, mkKeyboard 0 (caps_lock_on kb) (ctrl_pressed kb)
                                     (alt_pressed kb))).
    cbn [bind snd]. rewrite keyboard_decode_pressed_key_aux by (lia || done).
    rewrite Hin. unfold upper_case. cbn [shift_pressed caps_lock_on Z.eqb negb].
    by destruct (caps_lock_on kb =? 0).
  - change (keyboard_decode ASCII_CAPS_LOCK kb)
      with (Ok (KEY_NULL, mkKeyboard (shift_pressed kb)
                            (if caps_lock_on kb =? 0 then 1 else 0)
                            (ctrl_pressed kb) (alt_pressed kb))).
    cbn [bind snd].
    destruct kb as [s cl ct al]. cbn [caps_lock_on] in *.
    by destruct Hcaps as [-> | ->].
Qed.
End KeyboardProofs.

(** * vga.c *)

Section VgaProofs.
Context `{VgaConfig}.

Lemma int_wrap_small z : - 2 ^ 31 <= z < 2 ^ 31 -> int_wrap z = z.
Proof.
  intros Hz. unfold int_wrap. rewrite Z.mod_small; lia.
Qed.

Lemma vga_width_bound : vga_dims_ok -> VGA_WIDTH <= 2 ^ 16.
Proof. intros (Hw & Hh & Hwh). nia. Qed.

Lemma vga_height_bound : vga_dims_ok -> VGA_HEIGHT <= 2 ^ 16.
Proof. intros (Hw & Hh & Hwh). nia. Qed.

Lemma cell_index_small row col :
  vga_dims_ok -> 0 <= row < VGA_HEIGHT -> 0 <= col < VGA_WIDTH ->
  cell_index row col = row * VGA_WIDTH + col /\
  0 <= row * VGA_WIDTH + col < VGA_HEIGHT * VGA_WIDTH.
Proof.
  intros (Hw & Hh & Hwh) Hr Hc.
  assert (0 <= row * VGA_WIDTH) by (apply Z.mul_nonneg_nonneg; lia).
  assert (row * VGA_WIDTH <= (VGA_HEIGHT - 1) * VGA_WIDTH)
    by (apply Z.mul_le_mono_nonneg_r; lia).
  assert (0 <= row * VGA_WIDTH + col < VGA_HEIGHT * VGA_WIDTH) by lia.
  split; [|done]. unfold cell_index. apply int_wrap_small. lia.
Qed.

Lemma vga_cursor_update_proj s :
  cursor_enabled (vga_cursor_update s) = cursor_enabled s /\
  current_row (vga_cursor_update s) = current_row s /\
  current_col (vga_cursor_update s) = current_col s /\
  bg_color (vga_cursor_update s) = bg_color s /\
  fg_color (vga_cursor_update s) = fg_color s /\
  vga_buf (vga_cursor_update s) = vga_buf s.
Proof.
  unfold vga_cursor_update. destruct (cursor_enabled s) eqn:He; [|done].
  cbn [outportb cursor_enabled current_row current_col bg_color fg_color
       vga_buf]. by rewrite He.
Qed.

Lemma vga_ok_cursor_update s : vga_ok s -> vga_ok (vga_cursor_update s).
Proof.
  unfold vga_ok. destruct (vga_cursor_update_proj s) as (_ & -> & -> & _ & _ & ->).
  done.
Qed.

(** X25: [vga_set_rowcol] clamps: the row becomes the one asked for when
    that is on the screen, 0 when it is negative and [VGA_HEIGHT - 1] when
    it is too large, and likewise the column; the cursor is on the screen
    afterwards, and the text buffer and the colours are untouched. *)
Theorem vga_set_rowcol_clamps row col s :
  vga_dims_ok ->
  let s' := vga_set_rowcol row col s in
  vga_get_row s' = Z.max 0 (Z.min row (VGA_HEIGHT - 1)) /\
  vga_get_col s' = Z.max 0 (Z.min col (VGA_WIDTH - 1)) /\
  0 <= vga_get_row s' < VGA_HEIGHT /\ 0 <= vga_get_col s' < VGA_WIDTH /\
  vga_buf s' = vga_buf s /\ bg_color s' = bg_color s /\
  fg_color s' = fg_color s.
Proof.
  intros Hd. pose proof (vga_width_bound Hd). pose proof (vga_height_bound Hd).
  destruct Hd as (Hw & Hh & Hwh). cbn zeta.
  unfold vga_set_rowcol, vga_get_row, vga_get_col.
  destruct (vga_cursor_update_proj
              (set_rowcol
                 (if (row >=? 0) && (row <? VGA_HEIGHT) then row
                  else if row <? 0 then 0 else int_wrap (VGA_HEIGHT - 1))
                 (if (col >=? 0) && (col <? VGA_WIDTH) then col
                  else if col <? 0 then 0 else int_wrap (VGA_WIDTH - 1)) s))
    as (_ & -> & -> & -> & -> & ->).
  cbn [set_rowcol current_row current_col vga_buf bg_color fg_color].
  rewrite !int_wrap_small by lia.
  destruct (Z.geb_spec row 0), (Z.ltb_spec row VGA_HEIGHT),
    (Z.geb_spec col 0), (Z.ltb_spec col VGA_WIDTH); cbn [andb];
    try destruct (Z.ltb_spec row 0); try destruct (Z.ltb_spec col 0);
    split_and!; try done; lia.
Qed.

Ltac vga_finish :=
  split_and!; try done;
  try (intros; split_and!; try done; try lia;
       try (intros; split_and!; try done; try lia)).

Lemma land_lnot_3 x : Z.land x (Z.lnot (4 - 1)) = 4 * (x / 4).
Proof.
  change (4 - 1) with (Z.ones 2). rewrite <- Z.ldiff_land.
  rewrite Z.ldiff_ones_r by lia.
  rewrite Z.shiftl_mul_pow2, Z.shiftr_div_pow2 by lia.
  change (2 ^ 2) with 4. lia.
Qed.

Lemma buf_write_Ok idx v s :
  0 <= idx < Z.of_nat (length (vga_buf s)) ->
  buf_write idx v s = Ok (set_vga_buf (<[Z.to_nat idx := v]> (vga_buf s)) s).
Proof.
  intros Hi. unfold buf_write.
  destruct (Z.leb_spec 0 idx); [|lia].
  destruct (Z.ltb_spec idx (Z.of_nat (length (vga_buf s)))); [done|lia].
Qed.

Lemma putc_wrap_spec s1 :
  vga_dims_ok ->
  0 <= current_row s1 <= VGA_HEIGHT ->
  0 <= current_col s1 ->
  (VGA_WIDTH <= current_col s1 -> current_row s1 < VGA_HEIGHT) ->
  let s' := putc_wrap s1 in
  cursor_enabled s' = cursor_enabled s1 /\
  bg_color s' = bg_color s1 /\ fg_color s' = fg_color s1 /\
  vga_buf s' = vga_buf s1 /\
  current_row s' =
    (if current_col s1 <? VGA_WIDTH then current_row s1
     else current_row s1 + 1) mod VGA_HEIGHT /\
  current_col s' =
    (if current_col s1 <? VGA_WIDTH then current_col s1 else 0).
Proof.
  intros Hd Hr Hc Hrc. pose proof (vga_height_bound Hd).
  destruct Hd as (Hw & Hh & Hwh). cbn zeta. unfold putc_wrap.
  match goal with
  | |- context [vga_cursor_update ?s3] =>
      destruct (vga_cursor_update_proj s3) as (-> & -> & -> & -> & -> & ->)
  end.
  destruct (Z.geb_spec (current_col s1) VGA_WIDTH) as [Hge|Hlt];
    destruct (Z.ltb_spec (current_col s1) VGA_WIDTH); try lia;
    cbn [set_rowcol current_row current_col].
  - rewrite int_wrap_small by lia.
    destruct (Z.geb_spec (current_row s1 + 1) VGA_HEIGHT);
      cbn [set_rowcol current_row current_col cursor_enabled bg_color
           fg_color vga_buf]; split_and!; try done.
    + assert (current_row s1 + 1 = VGA_HEIGHT) as -> by lia.
      by rewrite Z.mod_same by lia.
    + rewrite Z.mod_small; lia.
  - destruct (Z.geb_spec (current_row s1) VGA_HEIGHT);
      cbn [set_rowcol current_row current_col cursor_enabled bg_color
           fg_color vga_buf]; split_and!; try done.
    + assert (current_row s1 = VGA_HEIGHT) as -> by lia.
      by rewrite Z.mod_same by lia.
    + rewrite Z.mod_small; lia.
Qed.

(** What one call of [vga_putc] does to an on-screen cursor. *)
Lemma vga_putc_spec c s :
  vga_dims_ok -> vga_ok s ->
  exists s',
    vga_putc c s = Ok s' /\ vga_ok s' /\
    cursor_enabled s' = cursor_enabled s /\
    bg_color s' = bg_color s /\ fg_color s' = fg_color s /\
    (c = 10 ->
     vga_buf s' = vga_buf s /\
     current_row s' = (current_row s + 1) mod VGA_HEIGHT /\
     current_col s' = 0) /\
    (c = 13 ->
     vga_buf s' = vga_buf s /\ current_row s' = current_row s /\
     current_col s' = 0) /\
    (c = 9 ->
     vga_buf s' = vga_buf s /\
     current_row s' =
       (if 4 * (current_col s / 4 + 1) <? VGA_WIDTH then current_row s
        else current_row s + 1) mod VGA_HEIGHT /\
     current_col s' =
       (if 4 * (current_col s / 4 + 1) <? VGA_WIDTH
        then 4 * (current_col s / 4 + 1) else 0)) /\
    (c = 8 ->
     current_row s' = current_row s /\
     (current_col s = 0 -> current_col s' = 0 /\ vga_buf s' = vga_buf s) /\
     (0 < current_col s ->
      current_col s' = current_col s - 1 /\
      vga_buf s' =
        <[Z.to_nat (current_row s * VGA_WIDTH + current_col s - 1) :=
            VGA_CHAR (bg_color s) (fg_color s) 32]> (vga_buf s))) /\
    (c <> 10 -> c <> 13 -> c <> 9 -> c <> 8 ->
     vga_buf s' =
       <[Z.to_nat (current_row s * VGA_WIDTH + current_col s) :=
           VGA_CHAR (bg_color s) (fg_color s) c]> (vga_buf s) /\
     current_row s' =
       (if current_col s + 1 <? VGA_WIDTH then current_row s
        else current_row s + 1) mod VGA_HEIGHT /\
     current_col s' =
       (if current_col s + 1 <? VGA_WIDTH then current_col s + 1 else 0)).
Proof.
  intros Hd (Hr & Hc & Hlen).
  pose proof (vga_width_bound Hd) as Hwb.
  pose proof (vga_height_bound Hd) as Hhb.
  pose proof Hd as (Hw & Hh & Hwh).
  unfold vga_putc.
  assert (Hfin : forall s1,
             0 <= current_row s1 <= VGA_HEIGHT ->
             0 <= current_col s1 ->
             (VGA_WIDTH <= current_col s1 -> current_row s1 < VGA_HEIGHT) ->
             Z.of_nat (length (vga_buf s1)) = VGA_HEIGHT * VGA_WIDTH ->
             vga_ok (putc_wrap s1)).
  { intros s1 H1 H2 H3 H4.
    destruct (putc_wrap_spec s1 Hd H1 H2 H3) as (_ & _ & _ & Hb & Hrow & Hcol).
    unfold vga_ok. rewrite Hb, Hrow, Hcol. split; [|split; [|done]].
    - apply Z.mod_pos_bound. lia.
    - destruct (Z.ltb_spec (current_col s1) VGA_WIDTH); lia. }
  destruct (Z.eqb_spec c 10) as [->|H10].
  { cbn [bind]. rewrite (int_wrap_small (current_row s + 1)) by lia.
    eexists. split; [reflexivity|].
    match goal with |- context [putc_wrap ?s1] =>
      destruct (putc_wrap_spec s1 Hd) as (He & Hbg & Hfg & Hb & Hrow & Hcol);
      [cbn; rewrite ?int_wrap_small by lia; lia..|];
      split; [apply Hfin; cbn; rewrite ?int_wrap_small by lia; try lia|]
    end.
    cbn [set_rowcol current_row current_col cursor_enabled bg_color fg_color
         vga_buf] in *.
    destruct (Z.ltb_spec 0 VGA_WIDTH); [|lia].
    vga_finish. }
  destruct (Z.eqb_spec c 13) as [->|H13].
  { cbn [bind]. eexists. split; [reflexivity|].
    match goal with |- context [putc_wrap ?s1] =>
      destruct (putc_wrap_spec s1 Hd) as (He & Hbg & Hfg & Hb & Hrow & Hcol);
      [cbn; lia..|]; split; [apply Hfin; cbn; try lia|]
    end.
    cbn [set_rowcol current_row current_col cursor_enabled bg_color fg_color
         vga_buf] in *.
    destruct (Z.ltb_spec 0 VGA_WIDTH); [|lia].
    rewrite Z.mod_small in Hrow by lia.
    vga_finish. }
  destruct (Z.eqb_spec c 9) as [->|H9].
  { assert (Htab : Z.land (int_wrap (current_col s + 4)) (Z.lnot (4 - 1)) =
                   4 * (current_col s / 4 + 1)).
    { rewrite int_wrap_small, land_lnot_3 by lia.
      replace (current_col s + 4) with (current_col s + 1 * 4) by lia.
      by rewrite Z.div_add by lia. }
    assert (0 <= current_col s / 4) by (apply Z.div_pos; lia).
    rewrite Htab. cbn [bind]. eexists. split; [reflexivity|].
    match goal with |- context [putc_wrap ?s1] =>
      destruct (putc_wrap_spec s1 Hd) as (He & Hbg & Hfg & Hb & Hrow & Hcol);
      [cbn; lia..|];
      split; [apply Hfin; cbn; try lia|]
    end.
    cbn [set_rowcol current_row current_col cursor_enabled bg_color fg_color
         vga_buf] in *.
    vga_finish. }
  destruct (Z.eqb_spec c 8) as [->|H8].
  { destruct (Z.gtb_spec (current_col s) 0) as [Hpos|Hzero].
    - cbn zeta. cbn [set_rowcol current_row current_col bg_color fg_color].
      rewrite int_wrap_small by lia.
      destruct (cell_index_small (current_row s) (current_col s - 1) Hd)
        as [-> Hidx]; [lia..|].
      rewrite buf_write_Ok by (cbn; lia). cbn [bind].
      eexists. split; [reflexivity|].
      match goal with |- context [putc_wrap ?s1] =>
        destruct (putc_wrap_spec s1 Hd) as (He & Hbg & Hfg & Hb & Hrow & Hcol);
        [cbn; lia..|];
        split; [apply Hfin; cbn; rewrite ?length_insert; try lia|]
      end.
      cbn [set_rowcol set_vga_buf current_row current_col cursor_enabled
           bg_color fg_color vga_buf] in *.
      destruct (Z.ltb_spec (current_col s - 1) VGA_WIDTH); [|lia].
      rewrite Z.mod_small in Hrow by lia.
      vga_finish. rewrite Hb. do 2 f_equal. lia.
    - cbn [bind]. eexists. split; [reflexivity|].
      destruct (putc_wrap_spec s Hd) as (He & Hbg & Hfg & Hb & Hrow & Hcol);
        [lia..|].
      split; [apply Hfin; lia|].
      destruct (Z.ltb_spec (current_col s) VGA_WIDTH); [|lia].
      rewrite Z.mod_small in Hrow by lia.
      vga_finish. }
  destruct (cell_index_small (current_row s) (current_col s) Hd)
    as [-> Hidx]; [lia..|].
  rewrite buf_write_Ok by lia. cbn [bind].
  eexists. split; [reflexivity|].
  cbn [set_rowcol set_vga_buf current_row current_col cursor_enabled
       bg_color fg_color vga_buf].
  rewrite int_wrap_small by lia.
  match goal with |- context [putc_wrap ?s1] =>
    destruct (putc_wrap_spec s1 Hd) as (He & Hbg & Hfg & Hb & Hrow & Hcol);
    [cbn; lia..|];
    split; [apply Hfin; cbn; rewrite ?length_insert; try lia|]
  end.
  cbn [set_rowcol set_vga_buf current_row current_col cursor_enabled
       bg_color fg_color vga_buf] in *.
  vga_finish.
Qed.

(** X26: [vga_puts], and so every [vga_putc] it makes, keeps the cursor
    on the screen and the buffer at its size, whatever the characters:
    it never stores outside the text buffer, and it changes neither the
    colours nor the cursor-enable flag. *)
Theorem vga_puts_keeps_cursor_on_screen str :
  forall s,
    vga_dims_ok -> vga_ok s ->
    exists s',
      vga_puts str s = Ok s' /\ vga_ok s' /\
      cursor_enabled s' = cursor_enabled s /\
      bg_color s' = bg_color s /\ fg_color s' = fg_color s.
Proof.
  induction str as [|c str IH]; intros s Hd Hok; cbn [vga_puts].
  - by exists s.
  - destruct (c =? 0); [by exists s|].
    destruct (vga_putc_spec (c mod 256) s Hd Hok)
      as (s1 & -> & Hok1 & He1 & Hbg1 & Hfg1 & _).
    cbn [bind]. destruct (IH s1 Hd Hok1) as (s' & -> & Hok' & He & Hbg & Hfg).
    exists s'. split_and!; congruence.
Qed.

(** X27: [vga_putc] of a character other than newline, carriage return,
    tab and backspace stores the character's cell, in the current colours,
    at the cursor and advances the cursor by one position in row-major
    order, from the last position of the screen back to the first.
    [vga_setc] does the same. *)
Theorem vga_putc_printable_character c s :
  vga_dims_ok -> vga_ok s ->
  c <> 10 -> c <> 13 -> c <> 9 -> c <> 8 ->
  exists s',
    vga_putc c s = Ok s' /\ vga_setc c s = Ok s' /\
    vga_buf s' =
      <[Z.to_nat (current_row s * VGA_WIDTH + current_col s) :=
          VGA_CHAR (bg_color s) (fg_color s) c]> (vga_buf s) /\
    current_row s' * VGA_WIDTH + current_col s' =
      (current_row s * VGA_WIDTH + current_col s + 1)
        mod (VGA_HEIGHT * VGA_WIDTH) /\
    0 <= current_row s' < VGA_HEIGHT /\ 0 <= current_col s' < VGA_WIDTH.
Proof.
  intros Hd Hok H10 H13 H9 H8.
  destruct (vga_putc_spec c s Hd Hok)
    as (s' & Hput & Hok' & _ & _ & _ & _ & _ & _ & _ & Hprint).
  destruct (Hprint H10 H13 H9 H8) as (Hb & Hrow & Hcol).
  exists s'. split; [done|].
  pose proof (vga_width_bound Hd) as Hwb.
  pose proof (vga_height_bound Hd) as Hhb.
  pose proof Hd as (Hw & Hh & Hwh). pose proof Hok as (Hr & Hc & Hlen).
  destruct (cell_index_small (current_row s) (current_col s) Hd Hr Hc)
    as [Hci Hidx].
  split_and!; try done; try apply Hok'.
  - rewrite <- Hput. unfold vga_setc, vga_putc.
    destruct (Z.eqb_spec c 10); [done|]. destruct (Z.eqb_spec c 13); [done|].
    destruct (Z.eqb_spec c 9); [done|]. destruct (Z.eqb_spec c 8); [done|].
    rewrite Hci, buf_write_Ok by lia. cbn [bind]. f_equal.
    unfold putc_wrap.
    cbn [set_rowcol set_vga_buf current_row current_col].
    rewrite (int_wrap_small (current_col s + 1)) by lia.
    destruct (current_col s + 1 >=? VGA_WIDTH); [|cbn zeta].
    + done.
    + cbn [set_rowcol set_vga_buf current_row current_col].
      destruct (Z.geb_spec (current_row s) VGA_HEIGHT); [lia|done].
  - rewrite Hrow, Hcol.
    destruct (Z.ltb_spec (current_col s + 1) VGA_WIDTH).
    + rewrite (Z.mod_small (current_row s)) by lia.
      destruct (cell_index_small (current_row s) (current_col s + 1) Hd)
        as [_ Hnext]; [lia..|].
      rewrite Z.mod_small; lia.
    + assert (current_col s + 1 = VGA_WIDTH) as Hlast by lia.
      replace (current_row s * VGA_WIDTH + current_col s + 1)
        with ((current_row s + 1) * VGA_WIDTH) by lia.
      destruct (Z.eq_dec (current_row s + 1) VGA_HEIGHT) as [->|Hne].
      * by rewrite !Z.mod_same by lia.
      * rewrite (Z.mod_small (current_row s + 1)) by lia.
        rewrite Z.mod_small; [lia|].
        assert ((current_row s + 1) * VGA_WIDTH <=
                (VGA_HEIGHT - 1) * VGA_WIDTH)
          by (apply Z.mul_le_mono_nonneg_r; lia).
        split; [apply Z.mul_nonneg_nonneg; lia|lia].
Qed.

(** X28: the control characters of [vga_putc].  Newline moves to the
    start of the next row, from the last row to the first; carriage return
    to the start of the current row; tab to the next multiple of 4, or to
    the start of the next row when that multiple is off the row; backspace
    moves one column back and blanks that cell, and does nothing in column
    0.  Only backspace changes the buffer. *)
Theorem vga_putc_control_characters s :
  vga_dims_ok -> vga_ok s ->
  (exists s', vga_putc 10 s = Ok s' /\ vga_buf s' = vga_buf s /\
     current_row s' = (current_row s + 1) mod VGA_HEIGHT /\
     current_col s' = 0) /\
  (exists s', vga_putc 13 s = Ok s' /\ vga_buf s' = vga_buf s /\
     current_row s' = current_row s /\ current_col s' = 0) /\
  (exists s', vga_putc 9 s = Ok s' /\ vga_buf s' = vga_buf s /\
     current_col s' mod 4 = 0 /\
     (4 * (current_col s / 4 + 1) < VGA_WIDTH ->
      current_row s' = current_row s /\
      current_col s < current_col s' <= current_col s + 4) /\
     (VGA_WIDTH <= 4 * (current_col s / 4 + 1) ->
      current_row s' = (current_row s + 1) mod VGA_HEIGHT /\
      current_col s' = 0)) /\
  (exists s', vga_putc 8 s = Ok s' /\ current_row s' = current_row s /\
     (current_col s = 0 -> current_col s' = 0 /\ vga_buf s' = vga_buf s) /\
     (0 < current_col s ->
      current_col s' = current_col s - 1 /\
      vga_buf s' =
        <[Z.to_nat (current_row s * VGA_WIDTH + current_col s - 1) :=
            VGA_CHAR (bg_color s) (fg_color s) 32]> (vga_buf s))).
Proof.
  intros Hd Hok. pose proof Hok as (Hr & Hc & Hlen).
  split_and!.
  - destruct (vga_putc_spec 10 s Hd Hok)
      as (s' & Hput & _ & _ & _ & _ & Hnl & _).
    destruct (Hnl eq_refl) as (? & ? & ?). by exists s'.
  - destruct (vga_putc_spec 13 s Hd Hok)
      as (s' & Hput & _ & _ & _ & _ & _ & Hcr & _).
    destruct (Hcr eq_refl) as (? & ? & ?). by exists s'.
  - destruct (vga_putc_spec 9 s Hd Hok)
      as (s' & Hput & _ & _ & _ & _ & _ & _ & Htab & _).
    destruct (Htab eq_refl) as (Hb & Hrow & Hcol). exists s'.
    split; [done|]. split; [done|].
    pose proof (Z.div_mod (current_col s) 4) as Hdm.
    pose proof (Z.mod_pos_bound (current_col s) 4) as Hmb.
    rewrite Hrow, Hcol.
    destruct (Z.ltb_spec (4 * (current_col s / 4 + 1)) VGA_WIDTH).
    + split_and!; try lia.
      * rewrite Z.mul_comm. by apply Z.mod_mul.
      * intros _. split; [|lia]. apply Z.mod_small. lia.
    + split_and!; try lia; try done.
  - destruct (vga_putc_spec 8 s Hd Hok)
      as (s' & Hput & _ & _ & _ & _ & _ & _ & _ & Hbs & _).
    destruct (Hbs eq_refl) as (? & ? & ?). by exists s'.
Qed.

(** X29: [vga_cursor_update] sends nothing while the cursor is
    disabled.  Enabled, it sends four bytes: register 15 and the low byte
    of the cursor position, register 14 and its high byte, the position
    being [row * VGA_WIDTH + col]. *)
Theorem vga_cursor_update_sends_position s :
  vga_dims_ok -> vga_ok s ->
  (cursor_enabled s = false -> vga_cursor_update s = s) /\
  (cursor_enabled s = true ->
   exists lo hi,
     port_writes (vga_cursor_update s) =
       port_writes s ++ [(VGA_PORT_ADDR, 15); (VGA_PORT_DATA, lo);
                         (VGA_PORT_ADDR, 14); (VGA_PORT_DATA, hi)] /\
     0 <= lo < 256 /\ 0 <= hi < 256 /\
     lo + 256 * hi = current_row s * VGA_WIDTH + current_col s).
Proof.
  intros Hd (Hr & Hc & Hlen). unfold vga_cursor_update. split.
  - by intros ->.
  - intros ->.
    destruct (cell_index_small (current_row s) (current_col s) Hd Hr Hc)
      as [-> Hidx].
    destruct Hd as (Hw & Hh & Hwh).
    set (pos := current_row s * VGA_WIDTH + current_col s) in *.
    rewrite (Z.mod_small pos) by lia.
    exists (Z.land pos 255), (Z.land (Z.shiftr pos 8) 255).
    split.
    { cbn [outportb port_writes]. by rewrite <- !app_assoc. }
    change 255 with (Z.ones 8). rewrite !Z.land_ones by lia.
    rewrite Z.shiftr_div_pow2 by lia. change (2 ^ 8) with 256.
    assert (0 <= pos / 256 < 256).
    { split; [apply Z.div_pos; lia|apply Z.div_lt_upper_bound; lia]. }
    rewrite (Z.mod_small (pos / 256)) by lia.
    pose proof (Z.mod_pos_bound pos 256).
    pose proof (Z.div_mod pos 256). lia.
Qed.
Lemma shifted_step (w n : nat) (buf0 : list Z) v :
  buf0 !! (n + w)%nat = Some v ->
  length (shifted w n buf0) = length buf0 /\
  shifted w n buf0 !! (n + w)%nat = Some v /\
  <[n := v]> (shifted w n buf0) = shifted w (S n) buf0.
Proof.
  intros Hv. pose proof (lookup_lt_Some _ _ _ Hv) as Hlt. unfold shifted.
  assert (Hl1 : length (take n (drop w buf0)) = n)
    by (rewrite length_take, length_drop; lia).
  split_and!.
  - rewrite length_app, Hl1, length_drop. lia.
  - rewrite lookup_app_r by lia. rewrite Hl1, lookup_drop.
    rewrite <- Hv. f_equal. lia.
  - rewrite insert_app_r_alt by lia. rewrite Hl1, Nat.sub_diag.
    destruct (lookup_lt_is_Some_2 buf0 n) as [x Hx]; [lia|].
    rewrite (drop_S buf0 x n Hx). cbn [insert list_insert].
    rewrite (take_S_r _ _ v) by (rewrite lookup_drop, <- Hv; f_equal; lia).
    by rewrite <- app_assoc.
Qed.

Lemma set_vga_buf_twice b b' s :
  set_vga_buf b (set_vga_buf b' s) = set_vga_buf b s.
Proof. done. Qed.

Section Dims.
Hypothesis Hd : vga_dims_ok.

Let w : nat := Z.to_nat VGA_WIDTH.
Let h : nat := Z.to_nat VGA_HEIGHT.

Lemma cell_index_nat (i j : nat) :
  (i < h)%nat -> (j < w)%nat ->
  cell_index (Z.of_nat i) (Z.of_nat j) = Z.of_nat (i * w + j).
Proof.
  intros Hi Hj. destruct (cell_index_small (Z.of_nat i) (Z.of_nat j) Hd)
    as [-> _]; [unfold h, w in *; lia..|].
  pose proof Hd as (Hw & _). unfold w. 
  rewrite Nat2Z.inj_add, Nat2Z.inj_mul, Z2Nat.id by lia. done.
Qed.

Lemma int_wrap_nat_succ (i : nat) :
  Z.of_nat i < 2 ^ 16 -> int_wrap (Z.of_nat i + 1) = Z.of_nat (S i).
Proof. intros Hi. rewrite int_wrap_small; lia. Qed.

Lemma w_h_bounds : Z.of_nat w <= 2 ^ 16 /\ Z.of_nat h <= 2 ^ 16 /\
                   (0 < w)%nat /\ (0 < h)%nat.
Proof.
  pose proof (vga_width_bound Hd). pose proof (vga_height_bound Hd).
  destruct Hd as (Hw & Hh & _). unfold w, h. lia.
Qed.

Lemma scroll_copy_row (buf0 : list Z) (s0 : vga) (i : nat) :
  length buf0 = (h * w)%nat -> (S i < h)%nat ->
  forall (n j : nat),
    (j + n <= w)%nat ->
    for_loop n (Z.of_nat j) (scroll_copy_cell (Z.of_nat i))
             (set_vga_buf (shifted w (i * w + j) buf0) s0) =
    Ok (set_vga_buf (shifted w (i * w + (j + n)) buf0) s0).
Proof.
  intros Hlen Hi. destruct w_h_bounds as (Hwb & Hhb & Hw0 & Hh0).
  induction n as [|n IH]; intros j Hjn; cbn [for_loop].
  - by rewrite Nat.add_0_r.
  - unfold scroll_copy_cell at 1.
    rewrite int_wrap_nat_succ by lia.
    rewrite !cell_index_nat by lia.
    assert (Hin : (i * w + j + w < length buf0)%nat) by nia.
    destruct (lookup_lt_is_Some_2 buf0 (i * w + j + w)) as [v Hv]; [done|].
    destruct (shifted_step w (i * w + j) buf0 v Hv) as (Hl & Hlook & Hins).
    unfold buf_read. cbn [vga_buf set_vga_buf].
    destruct (Z.leb_spec 0 (Z.of_nat (S i * w + j))); [|lia].
    rewrite Nat2Z.id.
    replace (S i * w + j)%nat with (i * w + j + w)%nat by lia.
    rewrite Hlook. cbn [bind].
    rewrite buf_write_Ok by (cbn [vga_buf set_vga_buf]; lia).
    cbn [vga_buf set_vga_buf]. rewrite Nat2Z.id, Hins, set_vga_buf_twice.
    rewrite int_wrap_nat_succ by lia.
    replace (S (i * w + j)) with (i * w + S j)%nat by lia.
    cbn [bind]. rewrite IH by lia. do 3 f_equal. lia.
Qed.

Lemma scroll_copy_rows (buf0 : list Z) (s0 : vga) :
  length buf0 = (h * w)%nat ->
  forall (m i : nat),
    (i + m < h)%nat ->
    for_loop m (Z.of_nat i)
      (fun i s' => for_loop w 0 (scroll_copy_cell i) s')
      (set_vga_buf (shifted w (i * w) buf0) s0) =
    Ok (set_vga_buf (shifted w ((i + m) * w) buf0) s0).
Proof.
  intros Hlen. destruct w_h_bounds as (Hwb & Hhb & Hw0 & Hh0).
  induction m as [|m IH]; intros i Him; cbn [for_loop].
  - by rewrite Nat.add_0_r.
  - pose proof (scroll_copy_row buf0 s0 i Hlen) as Hrow.
    specialize (Hrow ltac:(lia) w 0%nat ltac:(lia)).
    rewrite Nat.add_0_r in Hrow. change (Z.of_nat 0) with 0 in Hrow.
    rewrite Hrow. cbn [bind]. rewrite int_wrap_nat_succ by lia.
    replace (i * w + (0 + w))%nat with (S i * w)%nat by lia.
    rewrite IH by lia. do 3 f_equal. lia.
Qed.

Lemma scroll_blank_row (A T : list Z) (s0 : vga) :
  length A = ((h - 1) * w)%nat -> length T = w ->
  forall (n j : nat),
    (j + n <= w)%nat ->
    for_loop n (Z.of_nat j) scroll_blank_cell
      (set_vga_buf
         (A ++ replicate j (VGA_CHAR (bg_color s0) (fg_color s0) 32)
            ++ drop j T) s0) =
    Ok (set_vga_buf
          (A ++ replicate (j + n) (VGA_CHAR (bg_color s0) (fg_color s0) 32)
             ++ drop (j + n) T) s0).
Proof.
  intros HA HT. destruct w_h_bounds as (Hwb & Hhb & Hw0 & Hh0).
  pose proof Hd as (Hw & Hh & _).
  induction n as [|n IH]; intros j Hjn; cbn [for_loop].
  - by rewrite Nat.add_0_r.
  - unfold scroll_blank_cell at 1.
    rewrite (int_wrap_small (VGA_HEIGHT - 1))
      by (pose proof (vga_height_bound Hd); lia).
    replace (VGA_HEIGHT - 1) with (Z.of_nat (h - 1)) by (unfold h; lia).
    rewrite cell_index_nat by lia.
    cbn [bg_color fg_color set_vga_buf].
    rewrite buf_write_Ok.
    2:{ cbn [vga_buf set_vga_buf].
        rewrite !length_app, length_replicate, length_drop, HA, HT. lia. }
    cbn [bind vga_buf set_vga_buf]. rewrite Nat2Z.id, set_vga_buf_twice.
    rewrite int_wrap_nat_succ by lia.
    replace ((h - 1) * w + j)%nat with (length A + j)%nat by lia.
    rewrite insert_app_r.
    rewrite insert_app_r_alt by (rewrite length_replicate; lia).
    rewrite length_replicate, Nat.sub_diag.
    destruct (lookup_lt_is_Some_2 T j) as [x Hx]; [lia|].
    rewrite (drop_S T x j Hx). cbn [insert list_insert bind].
    replace (replicate j (VGA_CHAR (bg_color s0) (fg_color s0) 32) ++
             VGA_CHAR (bg_color s0) (fg_color s0) 32 :: drop (S j) T)
      with (replicate (S j) (VGA_CHAR (bg_color s0) (fg_color s0) 32) ++
            drop (S j) T)
      by (by rewrite replicate_S_end, <- app_assoc).
    rewrite (IH (S j)) by lia.
    by replace (j + S n)%nat with (S j + n)%nat by lia.
Qed.

Lemma vga_scroll_spec s :
  vga_ok s ->
  exists s',
    vga_scroll s = Ok s' /\
    vga_buf s' =
      drop (Z.to_nat VGA_WIDTH) (vga_buf s) ++
      replicate (Z.to_nat VGA_WIDTH) (VGA_CHAR (bg_color s) (fg_color s) 32) /\
    current_row s' = Z.max 0 (current_row s - 1) /\
    current_col s' = current_col s /\
    vga_ok s'.
Proof.
  intros (Hr & Hc & Hlen). destruct w_h_bounds as (Hwb & Hhb & Hw0 & Hh0).
  pose proof Hd as (Hw & Hh & Hwh).
  pose proof (vga_height_bound Hd) as Hhz.
  assert (Hlen' : length (vga_buf s) = (h * w)%nat) by (unfold h, w; nia).
  unfold vga_scroll. fold w.
  replace (Z.to_nat (VGA_HEIGHT - 1)) with (h - 1)%nat by (unfold h; lia).
  pose proof (scroll_copy_rows (vga_buf s) s Hlen' (h - 1) 0) as Hcopy.
  specialize (Hcopy ltac:(lia)).
  assert (Hstart : set_vga_buf (shifted w (0 * w) (vga_buf s)) s = s)
    by (unfold shifted; cbn [Nat.mul take drop app]; by destruct s).
  rewrite Hstart in Hcopy. change (Z.of_nat 0) with 0 in Hcopy.
  rewrite Hcopy. cbn [bind].
  set (blank := VGA_CHAR (bg_color s) (fg_color s) 32).
  set (A := drop w (vga_buf s)).
  set (T := drop ((h - 1) * w) (vga_buf s)).
  assert (HA : length A = ((h - 1) * w)%nat)
    by (unfold A; rewrite length_drop; nia).
  assert (HT : length T = w) by (unfold T; rewrite length_drop; nia).
  assert (Hsh : shifted w ((0 + (h - 1)) * w) (vga_buf s) =
                A ++ replicate 0 blank ++ drop 0 T).
  { unfold shifted. cbn [replicate drop app Nat.add]. fold A T.
    by rewrite take_ge by lia. }
  rewrite Hsh.
  pose proof (scroll_blank_row A T s HA HT w 0 ltac:(lia)) as Hblank.
  change (Z.of_nat 0) with 0 in Hblank. fold blank in Hblank.
  rewrite Hblank. cbn [bind]. cbn [Nat.add].
  rewrite (drop_ge T w) by lia. rewrite app_nil_r.
  cbn zeta. cbn [set_vga_buf current_row current_col].
  rewrite int_wrap_small by lia.
  assert (Hrow' : (if current_row s - 1 <? 0 then 0 else current_row s - 1) =
                  Z.max 0 (current_row s - 1))
    by (destruct (Z.ltb_spec (current_row s - 1) 0); lia).
  rewrite Hrow'.
  eexists. split; [reflexivity|].
  match goal with
  | |- context [vga_cursor_update ?s3] =>
      destruct (vga_cursor_update_proj s3) as (_ & Hrow & Hcol & _ & _ & Hbuf)
  end.
  cbn [set_rowcol set_vga_buf current_row current_col vga_buf] in *.
  split_and!; try done.
  unfold vga_ok. rewrite Hrow, Hcol, Hbuf.
  rewrite length_app, length_replicate, HA.
  split_and!; try lia. unfold h, w. nia.
Qed.
End Dims.

(** X30: [vga_scroll] moves every row of the text buffer one row up,
    dropping the first, blanks the last row in the current colours, and
    moves the cursor one row up unless it is in row 0. *)
Theorem vga_scroll_shifts_rows_up s :
  vga_dims_ok -> vga_ok s ->
  exists s',
    vga_scroll s = Ok s' /\
    vga_buf s' =
      drop (Z.to_nat VGA_WIDTH) (vga_buf s) ++
      replicate (Z.to_nat VGA_WIDTH) (VGA_CHAR (bg_color s) (fg_color s) 32) /\
    current_row s' = Z.max 0 (current_row s - 1) /\
    current_col s' = current_col s /\
    vga_ok s'.
Proof. intros Hd Hok. by apply vga_scroll_spec. Qed.
End VgaProofs.

(** * More executions of the small configuration *)

Section MoreScenarioProofs.
#[local] Existing Instance sample_config.
#[local] Existing Instance sample_keyboard_config.
#[local] Existing Instance sample_vga_config.

(** A has just been scheduled, its slice of one tick is unused. *)
Lemma scheduler_run_keeps_active_witness :
  active_proc A_active = Some 1%nat /\ scheduler_run A_active = Ok A_active.
Proof.
  assert (Ha : active_proc A_active = Some 1%nat) by (vm_compute; reflexivity).
  assert (Hp : exists p, proc_table A_active !! 1%nat = Some p /\
                         state p = ACTIVE /\ cpu_time p = 0)
    by (eexists; split; [vm_compute; reflexivity|split; reflexivity]).
  destruct Hp as (p & Hp & Hs & Hc).
  split; [exact Ha|].
  apply (scheduler_run_keeps_active A_active 1 p Ha Hp Hs).
  rewrite Hc. reflexivity.
Defined.

(** A is preempted after its tick: B, the head of the run queue, runs, and
    the queue holds A alone. *)
Lemma scheduler_run_round_robin_witness :
  exists k' q,
    scheduler_run A_slice_used = Ok k' /\
    items (run_queue k') = [1] /\
    active_proc k' = Some 2%nat /\
    proc_table k' !! 2%nat = Some q /\ pid q = 2 /\ state q = ACTIVE.
Proof.
  assert (Ha : active_proc A_slice_used = Some 1%nat)
    by (vm_compute; reflexivity).
  assert (Hp : exists p, proc_table A_slice_used !! 1%nat = Some p /\
                         state p = ACTIVE /\ cpu_time p = 1 /\ pid p = 1)
    by (eexists; split; [vm_compute; reflexivity|repeat split]).
  destruct Hp as (p & Hp & Hs & Hc & Hpid).
  assert (Hsleep : items (sleep_queue A_slice_used) = [])
    by (vm_compute; reflexivity).
  assert (Hrun : items (run_queue A_slice_used) = [2])
    by (vm_compute; reflexivity).
  assert (Hv : pid_to_proc 2 A_slice_used = Some 2%nat)
    by (vm_compute; reflexivity).
  assert (Hslice : SCHEDULER_TIMESLICE <= cpu_time p)
    by (rewrite Hc; vm_compute; discriminate).
  assert (Hnz : pid p <> 0) by (rewrite Hpid; discriminate).
  assert (Hroom : queue_size (run_queue A_slice_used) < QUEUE_SIZE)
    by (unfold queue_size; rewrite Hrun; vm_compute; reflexivity).
  assert (Hitems : items (run_queue A_slice_used) ++ [pid p] = 2 :: [1])
    by (rewrite Hrun, Hpid; reflexivity).
  destruct (scheduler_run_round_robin A_slice_used 1 p 2 [1] 2
              Ha Hp Hs Hslice Hnz Hsleep Hroom Hitems Hv)
    as (k' & q & Hok & Hr & _ & Hact & Hq & Hqpid & Hqs & _).
  exists k', q.
  split; [exact Hok|]. split; [exact Hr|]. split; [exact Hact|].
  split; [exact Hq|]. split; [exact Hqpid|exact Hqs].
Defined.

(** Idle is preempted after its tick: A runs and the run queue is empty,
    pid 0 is not in it. *)
Lemma scheduler_run_idle_not_requeued_witness :
  exists k' q,
    scheduler_run idle_slice_used = Ok k' /\
    items (run_queue k') = [] /\
    active_proc k' = Some 1%nat /\
    proc_table k' !! 1%nat = Some q /\ state q = ACTIVE /\ pid q = 1.
Proof.
  assert (Ha : active_proc idle_slice_used = Some 0%nat)
    by (vm_compute; reflexivity).
  assert (Hp : exists p, proc_table idle_slice_used !! 0%nat = Some p /\
                         state p = ACTIVE /\ cpu_time p = 1 /\ pid p = 0)
    by (eexists; split; [vm_compute; reflexivity|repeat split]).
  destruct Hp as (p & Hp & Hs & Hc & Hpid).
  assert (Hsleep : items (sleep_queue idle_slice_used) = [])
    by (vm_compute; reflexivity).
  assert (Hrun : items (run_queue idle_slice_used) = [1])
    by (vm_compute; reflexivity).
  assert (Hv : pid_to_proc 1 idle_slice_used = Some 1%nat)
    by (vm_compute; reflexivity).
  assert (Hslice : SCHEDULER_TIMESLICE <= cpu_time p)
    by (rewrite Hc; vm_compute; discriminate).
  assert (Hnext : pid_to_proc
                    (next_pid_to_run (items (run_queue idle_slice_used)))
                    idle_slice_used = Some 1%nat)
    by (rewrite Hrun; exact Hv).
  destruct (scheduler_run_idle_not_requeued idle_slice_used 0 p 1
              Ha Hp Hs Hslice Hpid Hsleep Hnext)
    as (k' & q & Hok & Hr & Hact & Hq & Hqs & Hqpid & _).
  rewrite Hrun in Hr, Hqpid.
  exists k', q.
  split; [exact Hok|]. split; [exact Hr|]. split; [exact Hact|].
  split; [exact Hq|]. split; [exact Hqs|exact Hqpid].
Defined.

(** A sleeps until tick 101 and it is tick 1: the sweep leaves it
    asleep. *)
Lemma sleep_sweep_none_due_identity_witness :
  items (sleep_queue A_sleeping) = [1] /\
  sleep_sweep (Z.to_nat (queue_size (sleep_queue A_sleeping))) 1 0 A_sleeping
  = Ok A_sleeping.
Proof.
  assert (Hsleep : items (sleep_queue A_sleeping) = [1])
    by (vm_compute; reflexivity).
  split; [exact Hsleep|].
  assert (Hlate : exists j p, pid_to_proc 1 A_sleeping = Some j /\
                              proc_table A_sleeping !! j = Some p /\
                              1 < sleep_time p)
    by (exists 1%nat; eexists; split; [vm_compute; reflexivity|];
        split; [vm_compute; reflexivity|reflexivity]).
  assert (Hnd : none_due 1 (items (sleep_queue A_sleeping)) A_sleeping).
  { rewrite Hsleep. intros v Hv.
    apply list_elem_of_singleton in Hv. rewrite Hv. exact Hlate. }
  assert (Hcap : queue_size (sleep_queue A_sleeping) <= QUEUE_SIZE)
    by (unfold queue_size; rewrite Hsleep; vm_compute; discriminate).
  exact (sleep_sweep_none_due_identity 1 A_sleeping Hnd Hcap).
Defined.

(** A and B sleep until tick 101 and it is tick 101: A, at the head of the
    sleep queue, is woken. *)
Lemma sleep_sweep_wakes_due_head_witness :
  exists k' q,
    sleep_sweep (Z.to_nat (queue_size (sleep_queue both_due))) 101 0 both_due
    = Ok k' /\
    1 ∈ items (run_queue k') /\
    proc_table k' !! 1%nat = Some q /\ state q = IDLE.
Proof.
  assert (Hlive : forall v i, (v = 0 /\ i = 0%nat) \/ (v = 1 /\ i = 1%nat) \/
                              (v = 2 /\ i = 2%nat) -> live v both_due).
  { intros v i Hvi. exists i.
    destruct Hvi as [[-> ->]|[[-> ->]|[-> ->]]];
      (eexists; split; [vm_compute; reflexivity|];
       split; [reflexivity|discriminate]). }
  assert (Hitems : items (run_queue both_due) ++
                   items (sleep_queue both_due) = [1; 2])
    by (vm_compute; reflexivity).
  assert (Hq : queues_live both_due).
  { intros v Hv. rewrite Hitems in Hv. clear Hitems.
    apply elem_of_cons in Hv as [Hv|Hv].
    - apply (Hlive v 1%nat). right. left. split; [exact Hv|reflexivity].
    - apply list_elem_of_singleton in Hv.
      apply (Hlive v 2%nat). right. right. split; [exact Hv|reflexivity]. }
  assert (Hsz : queue_size (run_queue both_due) +
                queue_size (sleep_queue both_due) <= QUEUE_SIZE)
    by (vm_compute; discriminate).
  assert (Hl0 : live 0 both_due)
    by (apply (Hlive 0 0%nat); left; split; reflexivity).
  assert (Hsound : queues_sound both_due)
    by (split; [exact Hq|split; [exact Hsz|exact Hl0]]).
  assert (Hsleep : items (sleep_queue both_due) = 1 :: [2])
    by (vm_compute; reflexivity).
  assert (Hj : pid_to_proc 1 both_due = Some 1%nat)
    by (vm_compute; reflexivity).
  assert (Hp : exists p, proc_table both_due !! 1%nat = Some p /\
                         sleep_time p = 101)
    by (eexists; split; [vm_compute; reflexivity|reflexivity]).
  destruct Hp as (p & Hp & Hst).
  assert (Hdue : sleep_time p <= 101) by (rewrite Hst; discriminate).
  destruct (sleep_sweep_wakes_due_head 101 both_due 1 [2] 1 p
              Hsound Hsleep Hj Hp Hdue)
    as (k' & q & Hok & Hin & _ & Hq' & Hqs).
  exists k', q.
  split; [exact Hok|]. split; [exact Hin|]. split; [exact Hq'|exact Hqs].
Defined.

(** The call that schedules B after A went to sleep. *)
Lemma scheduler_keeps_process_identity_witness :
  exists k', scheduler_run A_sleeping = Ok k' /\ sched_frame A_sleeping k'.
Proof.
  assert (Hrun : exists k', scheduler_run A_sleeping = Ok k')
    by (eexists; vm_compute; reflexivity).
  destruct Hrun as [k' Hk']. exists k'. split; [exact Hk'|].
  apply scheduler_keeps_process_identity. left. exact Hk'.
Defined.

(** After A was destroyed its slot is back in the free-list, behind the
    slot that was never used. *)
Lemma reachable_free_list_sound_witness :
  items (proc_allocator A_destroyed_asleep) = [3; 1] /\
  free_list_sound A_destroyed_asleep.
Proof.
  split; [vm_compute; reflexivity|].
  apply reachable_free_list_sound, after_reachable.
  vm_compute; reflexivity.
Defined.

(** A is the active process and its PCB is the [ACTIVE] one. *)
Lemma reachable_active_iff_ACTIVE_witness :
  exists p, proc_table A_active !! 1%nat = Some p /\
            (state p = ACTIVE <-> active_proc A_active = Some 1%nat).
Proof.
  assert (Hr : reachable A_active)
    by (apply after_reachable; vm_compute; reflexivity).
  assert (Hp : exists p, proc_table A_active !! 1%nat = Some p)
    by (eexists; vm_compute; reflexivity).
  destruct Hp as [p Hp]. exists p. split; [exact Hp|].
  exact (reachable_active_iff_ACTIVE A_active 1 p Hr Hp).
Defined.

(** B is created beside A: the PCB of A is untouched. *)
Lemma kproc_create_keeps_live_procs_witness :
  exists rc k' q,
    kproc_create 200 (bytes_of_string "B") 2 A_created = Ok (rc, k') /\
    proc_table A_created !! 1%nat = Some q /\ pid q = 1 /\
    proc_table k' !! 1%nat = Some q.
Proof.
  assert (Hr : reachable A_created)
    by (apply after_reachable; vm_compute; reflexivity).
  assert (Hc : exists r,
             kproc_create 200 (bytes_of_string "B") 2 A_created = Ok r)
    by (eexists; vm_compute; reflexivity).
  destruct Hc as [[rc k'] Hc].
  assert (Hq : exists q, proc_table A_created !! 1%nat = Some q /\
                         pid q = 1 /\ state q <> NONE)
    by (eexists; split; [vm_compute; reflexivity|];
        split; [reflexivity|discriminate]).
  destruct Hq as (q & Hq & Hpid & Hs).
  exists rc, k', q.
  split; [exact Hc|]. split; [exact Hq|]. split; [exact Hpid|].
  exact (kproc_create_keeps_live_procs 200 (bytes_of_string "B") 2
           A_created rc k' Hr Hc 1%nat q Hq Hs).
Defined.

(** A exits: its slot is unused afterwards and the free-list still holds
    slot 3 alone. *)
Lemma ksyscall_proc_exit_leaves_slot_unused_witness :
  exists rc k' q,
    ksyscall_proc_exit A_active = Ok (rc, k') /\ rc = 0 /\
    proc_table k' !! 1%nat = Some q /\ state q = NONE /\
    proc_allocator k' = proc_allocator A_active /\
    items (proc_allocator A_active) = [3].
Proof.
  assert (Hr : reachable A_active)
    by (apply after_reachable; vm_compute; reflexivity).
  assert (Ha : active_proc A_active = Some 1%nat) by (vm_compute; reflexivity).
  assert (Hex : exists r, ksyscall_proc_exit A_active = Ok r)
    by (eexists; vm_compute; reflexivity).
  destruct Hex as [[rc k'] Hex].
  destruct (ksyscall_proc_exit_leaves_slot_unused A_active 1 rc k' Hr Ha Hex)
    as (Hrc & (q & Hq & Hs) & _ & Hal & _).
  exists rc, k', q.
  split; [exact Hex|]. split; [exact Hrc|]. split; [exact Hq|].
  split; [exact Hs|]. split; [exact Hal|]. vm_compute; reflexivity.
Defined.

(** The small configuration boots. *)
Lemma boot_creates_idle_task_witness :
  exists k p,
    boot mem0 = Ok k /\
    proc_table k !! 0%nat = Some p /\ pid p = 0 /\ state p = IDLE /\
    items (proc_allocator k) = [1; 2; 3] /\
    items (run_queue k) = [0] /\ next_pid k = 1.
Proof.
  assert (Hmax : (0 < PROC_MAX)%nat) by (vm_compute; lia).
  assert (Hcap : 0 < QUEUE_SIZE) by reflexivity.
  destruct (proj1 (boot_creates_idle_task mem0) Hmax Hcap)
    as (k & p & Hok & Hp & Hpid & Hs & _ & _ & _ & _ & _ & Hal & Hrun & _
        & _ & Hnext & _).
  exists k, p.
  split; [exact Hok|]. split; [exact Hp|]. split; [exact Hpid|].
  split; [exact Hs|]. split; [exact Hal|]. split; [exact Hrun|exact Hnext].
Defined.

(** B is created in slot 2, the head of the free-list, under pid 2. *)
Lemma kproc_create_then_lookup_witness :
  exists k' q,
    kproc_create 200 (bytes_of_string "B") 2 A_created = Ok (2, k') /\
    pid_to_proc 2 k' = Some 2%nat /\
    proc_table k' !! 2%nat = Some q /\ pid q = 2 /\ state q = IDLE.
Proof.
  assert (Hal : items (proc_allocator A_created) = Z.of_nat 2 :: [3])
    by (vm_compute; reflexivity).
  assert (Hp : exists p, proc_table A_created !! 2%nat = Some p)
    by (eexists; vm_compute; reflexivity).
  destruct Hp as [p Hp].
  assert (Htf : exists tf, proc_trapframe A_created !! 2%nat = Some tf)
    by (eexists; vm_compute; reflexivity).
  destruct Htf as [tf Htf].
  assert (Hroom : queue_size (run_queue A_created) < QUEUE_SIZE)
    by (vm_compute; reflexivity).
  assert (Hnp : next_pid A_created = 2) by (vm_compute; reflexivity).
  assert (Hfresh : ~ live (next_pid A_created) A_created)
    by (apply not_live_check; vm_compute; reflexivity).
  destruct (kproc_create_then_lookup 200 (bytes_of_string "B") 2 A_created
              2 [3] p tf Hal Hp Htf Hroom Hfresh)
    as (k' & q & tf' & Hok & Hlook & Hq & Hpid & Hs & _).
  rewrite Hnp in Hok, Hlook, Hpid.
  exists k', q.
  split; [exact Hok|]. split; [exact Hlook|]. split; [exact Hq|].
  split; [exact Hpid|exact Hs].
Defined.

(** A asks for its pid and finds it, 1, in the EAX of its frame. *)
Lemma ksyscall_irq_handler_returns_in_eax_witness :
  exists p tf,
    proc_table A_asks_pid !! 1%nat = Some p /\ pid p = 1 /\
    proc_trapframe A_asks_pid !! 1%nat = Some tf /\ eax tf = 8 /\
    ksyscall_irq_handler A_asks_pid =
    Ok (set_proc_trapframe
          (<[1%nat := set_eax (uint_wrap (pid p)) tf]>
             (proc_trapframe A_asks_pid)) A_asks_pid).
Proof.
  assert (Ha : active_proc A_asks_pid = Some 1%nat)
    by (vm_compute; reflexivity).
  assert (Hp : exists p, proc_table A_asks_pid !! 1%nat = Some p /\
                         pid p = 1 /\ trapframe p = Some 1%nat)
    by (eexists; split; [vm_compute; reflexivity|split; reflexivity]).
  destruct Hp as (p & Hp & Hpid & He).
  assert (Htf : exists tf, proc_trapframe A_asks_pid !! 1%nat = Some tf /\
                           eax tf = 8)
    by (eexists; split; [vm_compute; reflexivity|reflexivity]).
  destruct Htf as (tf & Htf & Heax).
  assert (H1 : eax tf <> uint_wrap SYSCALL_SYS_GET_TIME)
    by (rewrite Heax; vm_compute; discriminate).
  assert (H2 : eax tf <> uint_wrap SYSCALL_SYS_GET_NAME)
    by (rewrite Heax; vm_compute; discriminate).
  assert (H3 : eax tf <> uint_wrap SYSCALL_PROC_EXIT)
    by (rewrite Heax; vm_compute; discriminate).
  assert (H4 : eax tf = uint_wrap SYSCALL_PROC_GET_PID)
    by (rewrite Heax; vm_compute; reflexivity).
  exists p, tf.
  split; [exact Hp|]. split; [exact Hpid|]. split; [exact Htf|].
  split; [exact Heax|].
  exact (proj2 (ksyscall_irq_handler_returns_in_eax A_asks_pid 1 p 1 tf
                  Ha Hp He Htf) H1 H2 H3 H4).
Defined.

(** The name of the system, "CrimOS", lands at address 1000 with its
    terminator. *)
Lemma ksyscall_sys_get_name_copies_os_name_witness :
  exists k',
    ksyscall_sys_get_name 1000 A_active = Ok (0, k') /\
    memory k' 1000 = 67 /\ memory k' 1005 = 83 /\ memory k' 1006 = 0 /\
    memory k' 1007 = memory A_active 1007.
Proof.
  assert (Hbuf : 1000 <> 0) by discriminate.
  destruct (proj2 (ksyscall_sys_get_name_copies_os_name 1000 A_active) Hbuf)
    as (k' & Hok & _ & _ & _ & _ & Hcopy & Hrest).
  assert (Hname : OS_NAME = [67; 114; 105; 109; 79; 83]) by reflexivity.
  assert (Hnn : 0 ∉ OS_NAME).
  { rewrite Hname. intros Hin.
    repeat (apply elem_of_cons in Hin as [Hin|Hin]; [discriminate|]).
    by apply elem_of_nil in Hin. }
  destruct (Hcopy Hnn) as [Hchars Hnul].
  exists k'. split; [exact Hok|].
  split; [exact (Hchars 0%nat 67 eq_refl)|].
  split; [exact (Hchars 5%nat 83 eq_refl)|].
  split; [exact Hnul|].
  apply Hrest. right. rewrite Hname. vm_compute. discriminate.
Defined.

(** Three ticks while A is active. *)
Lemma scheduler_timer_accumulates_witness :
  exists k',
    scheduler_timer_n 3 A_active = Ok k' /\
    active_proc k' = Some 1%nat /\
    run_queue k' = run_queue A_active /\
    sleep_queue k' = sleep_queue A_active.
Proof.
  assert (Ha : active_proc A_active = Some 1%nat) by (vm_compute; reflexivity).
  assert (Hlen : length (proc_table A_active) = 4%nat)
    by (vm_compute; reflexivity).
  assert (Hv : active_valid A_active).
  { intros a Ha'. rewrite Ha in Ha'. injection Ha' as <-. rewrite Hlen. lia. }
  assert (Hn : (0 < 3)%nat) by lia.
  destruct (scheduler_timer_accumulates 3 A_active Hn Hv)
    as (k' & Hok & Hact & Hrun & Hsleep & _).
  rewrite Ha in Hact.
  exists k'. split; [exact Hok|]. split; [exact Hact|].
  split; [exact Hrun|exact Hsleep].
Defined.

(** B is destroyed while it waits in the run queue. *)
Lemma kproc_destroy_frees_slot_witness :
  exists k',
    kproc_destroy (Some 2%nat) A_sleeping = Ok (0, k') /\
    proc_table k' !! 2%nat = Some proc_zero /\
    entry_to_proc (proc_to_entry 2) k' = None.
Proof.
  assert (Hp : exists p, proc_table A_sleeping !! 2%nat = Some p /\
                         state p = IDLE /\ pid p = 2 /\
                         scheduler_queue p = Some RUN_QUEUE)
    by (eexists; split; [vm_compute; reflexivity|repeat split]).
  destruct Hp as (p & Hp & Hs & Hpid & Hsq).
  assert (Hlive : state p <> NONE) by (rewrite Hs; discriminate).
  assert (Hnz : pid p <> 0) by (rewrite Hpid; discriminate).
  assert (Hrun : queue_size (run_queue A_sleeping) <= QUEUE_SIZE)
    by (vm_compute; discriminate).
  assert (Hcap : forall qid, scheduler_queue p = Some qid ->
                             queue_size (get_queue qid A_sleeping)
                             <= QUEUE_SIZE).
  { intros qid Hq. rewrite Hsq in Hq. injection Hq as <-. exact Hrun. }
  destruct (kproc_destroy_frees_slot 2 A_sleeping p Hp Hlive Hnz Hcap)
    as (k' & Hok & Hz & Hent & _).
  exists k'. split; [exact Hok|]. split; [exact Hz|exact Hent].
Defined.

(** The value 5, binary 101, and its bit 1. *)
Lemma bit_test_after_update_witness :
  (do s <- bit_set 5 1; bit_test s 1) = Ok 1 /\
  (do s <- bit_clear 5 1; bit_test s 1) = Ok 0 /\
  (do s <- bit_toggle 5 1; bit_test s 1) = Ok 1.
Proof.
  assert (Hv : uint_range 5) by (unfold uint_range; lia).
  assert (Hb : 0 <= 1 < 32) by lia.
  exact (bit_test_after_update 5 1 1 Hv Hb Hb).
Defined.

(** The value 5 and its bit 0. *)
Lemma bit_update_round_trips_witness :
  (do s <- bit_toggle 5 0; bit_toggle s 0) = Ok 5 /\
  (do s <- bit_set 5 0; bit_clear s 0) = Ok 4 /\
  (do s <- bit_clear 5 0; bit_set s 0) = Ok 5.
Proof.
  assert (Hv : uint_range 5) by (unfold uint_range; lia).
  assert (Hb : 0 <= 0 < 32) by lia.
  destruct (bit_update_round_trips 5 0 Hv Hb) as (H1 & H2 & H3 & _).
  split; [exact H1|]. split; [exact H2|exact H3].
Defined.

(** The value 7 has three bits set; bit 0 is not counted. *)
Lemma bit_count_skips_bit_zero_witness :
  bit_count 7 = Ok 2 /\ bit_count 1 = Ok 0.
Proof.
  assert (H7 : uint_range 7) by (unfold uint_range; lia).
  split; [exact (proj1 (bit_count_skips_bit_zero 7 H7))|reflexivity].
Defined.

(** The release of the key with code 30. *)
Lemma keyboard_decode_release_returns_null_witness :
  exists kb',
    keyboard_decode 158 keyboard_idle = Ok (KEY_NULL, kb') /\
    caps_lock_on kb' = 0 /\ kb' = keyboard_idle.
Proof.
  assert (Hrel : Z.land 158 128 <> 0) by (vm_compute; discriminate).
  destruct (keyboard_decode_release_returns_null 158 keyboard_idle Hrel)
    as (kb' & Hok & Hcaps & Hsame).
  exists kb'. split; [exact Hok|]. split; [exact Hcaps|].
  apply Hsame. reflexivity.
Defined.

(** The press of the key with code 97, no modifier on: the code plus
    32. *)
Lemma keyboard_decode_pressed_key_witness :
  exists r, keyboard_decode 97 keyboard_idle = Ok (r, keyboard_idle) /\
            r = 129.
Proof.
  assert (Hc : 0 <= 97 < 128) by lia.
  assert (Hm : is_modifier 97 = false) by reflexivity.
  destruct (keyboard_decode_pressed_key 97 keyboard_idle Hc Hm)
    as (r & Hok & _ & _ & Hlow).
  exists r. split; [exact Hok|].
  apply Hlow; [lia|reflexivity].
Defined.

(** Shift down, then the key with code 97: 65, the code of 'A'. *)
Lemma keyboard_decode_shift_and_caps_witness :
  (do r <- keyboard_decode ASCII_LEFT_SHIFT keyboard_idle;
   keyboard_decode 97 (snd r)) = Ok (65, mkKeyboard 1 0 0 0) /\
  (do r <- keyboard_decode (ASCII_LEFT_SHIFT + 128) keyboard_idle;
   keyboard_decode 97 (snd r)) = Ok (129, mkKeyboard 0 0 0 0) /\
  (do r1 <- keyboard_decode ASCII_CAPS_LOCK keyboard_idle;
   do r2 <- keyboard_decode ASCII_CAPS_LOCK (snd r1); Ok (snd r2))
  = Ok keyboard_idle.
Proof.
  assert (Hc : 97 <= 97 <= 122) by lia.
  assert (Hcaps : caps_lock_on keyboard_idle = 0 \/
                  caps_lock_on keyboard_idle = 1) by (left; reflexivity).
  exact (keyboard_decode_shift_and_caps 97 keyboard_idle Hc Hcaps).
Defined.

Lemma sample_vga_dims_ok : vga_dims_ok.
Proof. unfold vga_dims_ok. cbn. lia. Qed.

Lemma vga_last_cell_ok : vga_ok vga_last_cell.
Proof.
  unfold vga_ok. cbn [current_row current_col vga_buf vga_last_cell].
  rewrite length_replicate. cbn. lia.
Qed.

(** A row beyond the screen and a negative column. *)
Lemma vga_set_rowcol_clamps_witness :
  vga_get_row (vga_set_rowcol 30 (-2) vga_last_cell) = 24 /\
  vga_get_col (vga_set_rowcol 30 (-2) vga_last_cell) = 0.
Proof.
  destruct (vga_set_rowcol_clamps 30 (-2) vga_last_cell sample_vga_dims_ok)
    as (Hrow & Hcol & _).
  split; [exact Hrow|exact Hcol].
Defined.

(** "Hi" and a newline, printed from the last cell of the screen. *)
Lemma vga_puts_keeps_cursor_on_screen_witness :
  exists s', vga_puts [72; 105; 10] vga_last_cell = Ok s' /\ vga_ok s'.
Proof.
  destruct (vga_puts_keeps_cursor_on_screen [72; 105; 10] vga_last_cell
              sample_vga_dims_ok vga_last_cell_ok)
    as (s' & Hok & Hok' & _).
  exists s'. split; [exact Hok|exact Hok'].
Defined.

(** 'A' printed in the last cell of the screen: the cursor wraps to the
    first. *)
Lemma vga_putc_printable_character_witness :
  exists s',
    vga_putc 65 vga_last_cell = Ok s' /\ vga_setc 65 vga_last_cell = Ok s' /\
    vga_buf s' = <[1999%nat := 1857]> (vga_buf vga_last_cell) /\
    current_row s' * VGA_WIDTH + current_col s' = 0.
Proof.
  assert (H10 : 65 <> 10) by discriminate.
  assert (H13 : 65 <> 13) by discriminate.
  assert (H9 : 65 <> 9) by discriminate.
  assert (H8 : 65 <> 8) by discriminate.
  destruct (vga_putc_printable_character 65 vga_last_cell
              sample_vga_dims_ok vga_last_cell_ok H10 H13 H9 H8)
    as (s' & Hput & Hset & Hbuf & Hpos & _).
  exists s'. split; [exact Hput|]. split; [exact Hset|].
  split; [exact Hbuf|exact Hpos].
Defined.

(** A newline in the last row: back to the first. *)
Lemma vga_putc_control_characters_witness :
  exists s',
    vga_putc 10 vga_last_cell = Ok s' /\
    vga_buf s' = vga_buf vga_last_cell /\
    current_row s' = 0 /\ current_col s' = 0.
Proof.
  exact (proj1 (vga_putc_control_characters vga_last_cell
                  sample_vga_dims_ok vga_last_cell_ok)).
Defined.

(** Position 1999 is 7 * 256 + 207. *)
Lemma vga_cursor_update_sends_position_witness :
  exists lo hi,
    port_writes (vga_cursor_update vga_last_cell) =
      [(980, 15); (981, lo); (980, 14); (981, hi)] /\
    0 <= lo < 256 /\ 0 <= hi < 256 /\ lo + 256 * hi = 1999.
Proof.
  exact (proj2 (vga_cursor_update_sends_position vga_last_cell
                  sample_vga_dims_ok vga_last_cell_ok) eq_refl).
Defined.

(** A scroll with the cursor in the last row. *)
Lemma vga_scroll_shifts_rows_up_witness :
  exists s',
    vga_scroll vga_last_cell = Ok s' /\
    vga_buf s' =
      drop 80 (vga_buf vga_last_cell) ++ replicate 80 1824 /\
    current_row s' = 23 /\ current_col s' = 79.
Proof.
  destruct (vga_scroll_shifts_rows_up vga_last_cell
              sample_vga_dims_ok vga_last_cell_ok)
    as (s' & Hok & Hbuf & Hrow & Hcol & _).
  exists s'. split; [exact Hok|]. split; [exact Hbuf|].
  split; [exact Hrow|exact Hcol].
Defined.
End MoreScenarioProofs.
